(** * Business-Report: report lifecycle and statistical analysis engine

    A shallow embedding of the TypeScript sources: the [Report] entity and
    its lifecycle operations, the Mongo-backed repository, the submission,
    analysis, listing, download and mail use cases, the render and ML
    analysis workers, the KPI suggestion service, and the numeric services
    (anomaly detection, forecasting, data quality).

    JavaScript numbers are IEEE 754 binary64 values, embedded as Rocq's
    primitive [float]; instants ([Date]) and byte counts are integers. *)

From Stdlib Require Import ZArith List String Ascii Bool Floats Uint63.
From stdpp Require Import base option gmap strings pretty sorting.
Import ListNotations.

Local Open Scope Z_scope.
Local Open Scope string_scope.

Set Default Proof Using "Type".
Set Warnings "-register-all,-inexact-float".

(** ** Exceptions and fallible computations *)

(** A thrown JavaScript [Error] with its message. *)
Inductive exn : Type :=
| Error (message : string).

Definition message (e : exn) : string :=
  match e with Error m => m end.

(** [result A]: a call either returns a value or throws. *)
Inductive result (A : Type) : Type :=
| Ok (a : A)
| Throw (e : exn).
Arguments Ok {A} a.
Arguments Throw {A} e.

Definition rbind {A B : Type} (m : result A) (k : A -> result B) : result B :=
  match m with
  | Ok a => k a
  | Throw e => Throw e
  end.

(** An optional field is present ([!== undefined]). *)
Definition isSome {A : Type} (o : option A) : bool :=
  match o with Some _ => true | None => false end.

(** [Array.prototype.map] with a callback that may throw. *)
Fixpoint rmapM {A B : Type} (f : A -> result B) (l : list A) : result (list B) :=
  match l with
  | [] => Ok []
  | a :: l' => rbind (f a) (fun b => rbind (rmapM f l') (fun bs => Ok (b :: bs)))
  end.

(** ** JavaScript values *)

(** The values a record cell may hold ([any]). *)
Inductive jsval : Type :=
| VUndefined
| VNull
| VNum (n : float)
| VBool (b : bool)
| VStr (s : string)
| VDate (ms : float)
| VArr (items : list jsval)
| VObj (props : list (string * jsval)).

(** A record of the data set: its own enumerable properties, in insertion
    order (the order [Object.keys] and [for ... in] follow). *)
Definition row : Type := list (string * jsval).

(** Property read [r[k]]: [undefined] when the key is absent. *)
Fixpoint getProp (r : row) (k : string) : jsval :=
  match r with
  | [] => VUndefined
  | (k', v) :: r' => if String.eqb k' k then v else getProp r' k
  end.

Definition keys (r : row) : list string := List.map fst r.

Definition isNaN (x : float) : bool := negb (PrimFloat.eqb x x).

(** [typeof v === 'number' && !Number.isNaN(v)] *)
Definition isNumberNotNaN (v : jsval) : bool :=
  match v with VNum n => negb (isNaN n) | _ => false end.

(** The numbers among a list of values. *)
Fixpoint numbersOf (vs : list jsval) : list float :=
  match vs with
  | [] => []
  | VNum n :: vs' => n :: numbersOf vs'
  | _ :: vs' => numbersOf vs'
  end.

(** [n] as a JavaScript number (array lengths, indices). *)
Definition ofNat (n : nat) : float := PrimFloat.of_uint63 (Uint63.of_Z (Z.of_nat n)).

Definition fmax (a b : float) : float :=
  if isNaN a then a else if isNaN b then b else if PrimFloat.ltb a b then b else a.

Definition fmin (a b : float) : float :=
  if isNaN a then a else if isNaN b then b else if PrimFloat.ltb b a then b else a.

(** ** The Report entity (domain/entities/Report) *)

Module Report.

Inductive ReportFormat := PDF | EXCEL | CSV | HTML | JSON.

Inductive ReportStatus := PENDING | PROCESSING | ANALYZING | COMPLETED | FAILED.

Inductive ReportType :=
| SALES | INVENTORY | FINANCIAL | USERS | LOGS | ANALYTICS | PREDICTIVE | CUSTOM.

Inductive InsightType := anomaly | trend | suggestion | forecast | correlation.

Record AIInsight := mkAIInsight {
  itype : InsightType;
  ititle : string;
  idescription : string;
  iconfidence : float;
  idata : jsval;
  iactionable : bool;
  itimestamp : Z
}.

Inductive Importance := high | medium | low.
Inductive Visualization := vline | vbar | vgauge | vnumber | vtrend.

Record KPISuggestion := mkKPISuggestion {
  kname : string;
  kdescription : string;
  kformula : string;
  kimportance : Importance;
  kcategory : string;
  kvisualizationType : Visualization;
  kcurrentValue : option float;
  ktargetValue : option float
}.

Record DataQualityMetrics := mkDataQualityMetrics {
  completeness : float;
  accuracy : float;
  consistency : float;
  outliers : float;
  missingValues : float;
  duplicates : float
}.

Record ReportMetadata := mkReportMetadata {
  title : string;
  description : option string;
  author : option string;
  company : option string;
  logo : option string;
  filters : option jsval;
  columns : option (list string);
  chartConfig : option jsval;
  aiInsights : option (list AIInsight);
  suggestedKPIs : option (list KPISuggestion);
  dataQuality : option DataQualityMetrics;
  dataSource : option string;
  recordCount : option nat
}.

Record Report := mkReport {
  id : string;
  userId : string;
  type : ReportType;
  format : ReportFormat;
  metadata : ReportMetadata;
  status : ReportStatus;
  filePath : option string;
  fileSize : option Z;
  downloadUrl : option string;
  error : option string;
  createdAt : Z;
  completedAt : option Z;
  expiresAt : option Z;
  emailTo : option string;
  downloadCount : Z;
  aiAnalysisEnabled : bool;
  processingTime : option Z
}.

Definition setStatus (s : ReportStatus) (r : Report) : Report :=
  mkReport r.(id) r.(userId) r.(type) r.(format) r.(metadata) s
    r.(filePath) r.(fileSize) r.(downloadUrl) r.(error) r.(createdAt)
    r.(completedAt) r.(expiresAt) r.(emailTo) r.(downloadCount)
    r.(aiAnalysisEnabled) r.(processingTime).

Definition setMetadata (m : ReportMetadata) (r : Report) : Report :=
  mkReport r.(id) r.(userId) r.(type) r.(format) m r.(status)
    r.(filePath) r.(fileSize) r.(downloadUrl) r.(error) r.(createdAt)
    r.(completedAt) r.(expiresAt) r.(emailTo) r.(downloadCount)
    r.(aiAnalysisEnabled) r.(processingTime).

Definition markAsProcessing (r : Report) : Report := setStatus PROCESSING r.

Definition markAsAnalyzing (r : Report) : Report := setStatus ANALYZING r.

(** [now] is the instant read by [new Date()], [now'] the one read by
    [Date.now()] two statements later. *)
Definition markAsCompleted (path : string) (size : Z) (url : string)
    (now now' : Z) (r : Report) : Report :=
  mkReport r.(id) r.(userId) r.(type) r.(format) r.(metadata) COMPLETED
    (Some path) (Some size) (Some url) r.(error) r.(createdAt)
    (Some now) (Some (now' + 7 * 24 * 60 * 60 * 1000)) r.(emailTo)
    r.(downloadCount) r.(aiAnalysisEnabled) (Some (now - r.(createdAt))).

Definition markAsFailed (err : string) (now : Z) (r : Report) : Report :=
  mkReport r.(id) r.(userId) r.(type) r.(format) r.(metadata) FAILED
    r.(filePath) r.(fileSize) r.(downloadUrl) (Some err) r.(createdAt)
    (Some now) r.(expiresAt) r.(emailTo) r.(downloadCount)
    r.(aiAnalysisEnabled) r.(processingTime).

Definition withInsights (l : option (list AIInsight)) (m : ReportMetadata)
    : ReportMetadata :=
  mkReportMetadata m.(title) m.(description) m.(author) m.(company) m.(logo)
    m.(filters) m.(columns) m.(chartConfig) l m.(suggestedKPIs)
    m.(dataQuality) m.(dataSource) m.(recordCount).

Definition withKPIs (l : option (list KPISuggestion)) (m : ReportMetadata)
    : ReportMetadata :=
  mkReportMetadata m.(title) m.(description) m.(author) m.(company) m.(logo)
    m.(filters) m.(columns) m.(chartConfig) m.(aiInsights) l
    m.(dataQuality) m.(dataSource) m.(recordCount).

Definition withQuality (q : option DataQualityMetrics) (m : ReportMetadata)
    : ReportMetadata :=
  mkReportMetadata m.(title) m.(description) m.(author) m.(company) m.(logo)
    m.(filters) m.(columns) m.(chartConfig) m.(aiInsights) m.(suggestedKPIs)
    q m.(dataSource) m.(recordCount).

Definition addAIInsight (i : AIInsight) (r : Report) : Report :=
  let existing :=
    match r.(metadata).(aiInsights) with
    | None => []
    | Some l => l
    end in
  setMetadata (withInsights (Some (existing ++ [i])%list) r.(metadata)) r.

Definition addKPISuggestions (kpis : list KPISuggestion) (r : Report) : Report :=
  setMetadata (withKPIs (Some kpis) r.(metadata)) r.

Definition setDataQuality (q : DataQualityMetrics) (r : Report) : Report :=
  setMetadata (withQuality (Some q) r.(metadata)) r.

Definition incrementDownloadCount (r : Report) : Report :=
  mkReport r.(id) r.(userId) r.(type) r.(format) r.(metadata) r.(status)
    r.(filePath) r.(fileSize) r.(downloadUrl) r.(error) r.(createdAt)
    r.(completedAt) r.(expiresAt) r.(emailTo) (r.(downloadCount) + 1)
    r.(aiAnalysisEnabled) r.(processingTime).

(** The states the specification calls terminal. *)
Definition isTerminal (s : ReportStatus) : bool :=
  match s with
  | COMPLETED | FAILED => true
  | _ => false
  end.

Definition status_eqb (a b : ReportStatus) : bool :=
  match a, b with
  | PENDING, PENDING | PROCESSING, PROCESSING | ANALYZING, ANALYZING
  | COMPLETED, COMPLETED | FAILED, FAILED => true
  | _, _ => false
  end.

(** Artifact fields and error field, as presence tests. *)
Definition hasArtifact (r : Report) : bool :=
  isSome r.(filePath) || isSome r.(fileSize) || isSome r.(downloadUrl).

Definition hasError (r : Report) : bool := isSome r.(error).

(** A call of one of the entity's lifecycle methods, with its arguments
    (and the clock readings the method makes). *)
Inductive call :=
| CallProcessing
| CallAnalyzing
| CallCompleted (path : string) (size : Z) (url : string) (now now' : Z)
| CallFailed (err : string) (now : Z)
| CallAddAIInsight (i : AIInsight)
| CallAddKPISuggestions (kpis : list KPISuggestion)
| CallSetDataQuality (q : DataQualityMetrics).

Definition perform (c : call) (r : Report) : Report :=
  match c with
  | CallProcessing => markAsProcessing r
  | CallAnalyzing => markAsAnalyzing r
  | CallCompleted p s u n n' => markAsCompleted p s u n n' r
  | CallFailed e n => markAsFailed e n r
  | CallAddAIInsight i => addAIInsight i r
  | CallAddKPISuggestions k => addKPISuggestions k r
  | CallSetDataQuality q => setDataQuality q r
  end.

Definition isTransition (c : call) : bool :=
  match c with
  | CallProcessing | CallAnalyzing | CallCompleted _ _ _ _ _ | CallFailed _ _ => true
  | _ => false
  end.

(** The state a transition call writes. *)
Definition target (c : call) : option ReportStatus :=
  match c with
  | CallProcessing => Some PROCESSING
  | CallAnalyzing => Some ANALYZING
  | CallCompleted _ _ _ _ _ => Some COMPLETED
  | CallFailed _ _ => Some FAILED
  | _ => None
  end.

(** A sequence of calls on one entity, oldest first. *)
Definition performAll (cs : list call) (r : Report) : Report :=
  fold_left (fun acc c => perform c acc) cs r.

(** A freshly created report: [PENDING], no artifact, no error. *)
Definition isNew (r : Report) : bool :=
  status_eqb r.(status) PENDING && negb (hasArtifact r) && negb (hasError r).

(** The sequence never calls a transition on a report whose status is
    already terminal. *)
Fixpoint respectsTerminal (cs : list call) (r : Report) : bool :=
  match cs with
  | [] => true
  | c :: cs' =>
      negb (isTransition c && isTerminal r.(status))
      && respectsTerminal cs' (perform c r)
  end.

(** The invariant of the specification: artifact and error are never both
    present, and both are absent in a non-terminal state. *)
Definition artifactErrorInvariant (r : Report) : bool :=
  negb (hasArtifact r && hasError r)
  && (isTerminal r.(status) || (negb (hasArtifact r) && negb (hasError r))).

End Report.

(** ** Numeric kernel (the imported statistics package) *)

Module SimpleStatistics.

Local Open Scope float_scope.

Definition sum (x : list float) : float := fold_left PrimFloat.add x 0.

(** Modelled from the spec: the StatsKernel arithmetic mean.  The sources
    import [mean] from an external package; it rejects an empty input. *)
Definition mean (x : list float) : result float :=
  match x with
  | [] => Throw (Error "mean requires at least one data point")
  | _ => Ok (sum x / ofNat (length x))
  end.

(** The mean squared deviation from the mean. *)
Definition variance (x : list float) : result float :=
  rbind (mean x) (fun m =>
    Ok (sum (List.map (fun v => (v - m) * (v - m)) x) / ofNat (length x))).

(** Modelled from the spec: the StatsKernel population standard deviation
    (imported [standardDeviation]): the square root of the mean squared
    deviation from the mean. *)
Definition standardDeviation (x : list float) : result float :=
  rbind (variance x) (fun v => Ok (PrimFloat.sqrt v)).

(** Ascending sort with the comparator [(a, b) => a - b]. *)
Fixpoint insertSorted (v : float) (l : list float) : list float :=
  match l with
  | [] => [v]
  | h :: t => if PrimFloat.leb v h then v :: l else h :: insertSorted v t
  end.

Definition sortAscending (l : list float) : list float :=
  fold_right insertSorted [] l.

(** The largest index [k < n] with [k <= h] (0 when there is none). *)
Fixpoint floorIndex (h : float) (n : nat) : nat :=
  match n with
  | O => O
  | S k => if PrimFloat.leb (ofNat k) h then k else floorIndex h k
  end.

(** Modelled from the spec: the StatsKernel quantile at rank [p] (imported
    [quantile]), by linear interpolation between order statistics. *)
Definition quantile (x : list float) (p : float) : result float :=
  match x with
  | [] => Throw (Error "quantile requires at least one data point.")
  | _ =>
      if (p <? 0) || (1 <? p) then
        Throw (Error "quantiles must be between 0 and 1")
      else
        let sorted := sortAscending x in
        let n := length sorted in
        let h := ofNat (n - 1) * p in
        let lo := floorIndex h n in
        let hi := Nat.min (S lo) (n - 1) in
        let a := nth lo sorted nan in
        let b := nth hi sorted nan in
        Ok (a + (h - ofNat lo) * (b - a))
  end.

Record Line := mkLine { m : float; b : float }.

(** Modelled from the spec: the StatsKernel simple linear regression
    (imported [linearRegression]): the least-squares slope and intercept
    of the points [(x, y)]. *)
Definition linearRegression (points : list (float * float)) : Line :=
  match points with
  | [(_, y)] => mkLine 0 y
  | _ =>
      let n := ofNat (length points) in
      let sumX := sum (List.map fst points) in
      let sumY := sum (List.map snd points) in
      let sumXX := sum (List.map (fun p => fst p * fst p) points) in
      let sumXY := sum (List.map (fun p => fst p * snd p) points) in
      let slope := (n * sumXY - sumX * sumY) / (n * sumXX - sumX * sumX) in
      mkLine slope (sumY / n - (slope * sumX) / n)
  end.

Definition linearRegressionLine (l : Line) (x : float) : float :=
  l.(b) + l.(m) * x.

End SimpleStatistics.

(** [data.map((value, index) => f(value, index))] *)
Fixpoint mapIndexFrom {A B : Type} (f : A -> nat -> B) (i : nat) (l : list A) : list B :=
  match l with
  | [] => []
  | a :: l' => f a i :: mapIndexFrom f (S i) l'
  end.

Definition mapIndex {A B : Type} (f : A -> nat -> B) (l : list A) : list B :=
  mapIndexFrom f 0 l.

(** ** Anomaly detection (infrastructure/ml/AnomalyDetectionService) *)

Module AnomalyDetectionService.

Import SimpleStatistics.
Local Open Scope float_scope.

Record AnomalyPoint := mkAnomalyPoint {
  index : nat;
  value : float;
  score : float;
  isAnomaly : bool
}.

Record AnomalyResult := mkAnomalyResult {
  anomalies : list AnomalyPoint;
  threshold : float;
  method : string;
  anomalyCount : nat;
  anomalyPercentage : float
}.

Definition countAnomalies (l : list AnomalyPoint) : nat :=
  length (List.filter isAnomaly l).

Definition summarize (points : list AnomalyPoint) (thr : float) (name : string)
    (n : nat) : AnomalyResult :=
  let count := countAnomalies points in
  mkAnomalyResult points thr name count ((ofNat count / ofNat n) * 100).

Definition detectWithZScore (data : list float) (thr : float) : result AnomalyResult :=
  rbind (mean data) (fun avg =>
  rbind (standardDeviation data) (fun stdDev =>
    let points := mapIndex (fun value index =>
      let zScore := PrimFloat.abs ((value - avg) / stdDev) in
      mkAnomalyPoint index value zScore (thr <? zScore)) data in
    Ok (summarize points thr "zscore" (length data)))).

Definition detectWithIQR (data : list float) : result AnomalyResult :=
  rbind (quantile data 0.25) (fun q1 =>
  rbind (quantile data 0.75) (fun q3 =>
    let iqr := q3 - q1 in
    let lowerBound := q1 - 1.5 * iqr in
    let upperBound := q3 + 1.5 * iqr in
    let points := mapIndex (fun value index =>
      let isLower := value <? lowerBound in
      let isUpper := upperBound <? value in
      let score :=
        if isLower then (lowerBound - value) / iqr
        else if isUpper then (value - upperBound) / iqr
        else 0 in
      mkAnomalyPoint index value (PrimFloat.abs score) (isLower || isUpper)) data in
    Ok (summarize points 1.5 "iqr" (length data)))).

(** [sorted.indexOf(value)]: the first position holding a strictly equal
    number, if any. *)
Fixpoint indexOf (v : float) (l : list float) (i : nat) : option nat :=
  match l with
  | [] => None
  | h :: t => if PrimFloat.eqb h v then Some i else indexOf v t (S i)
  end.

Definition detectWithIsolationForest (data : list float) : result AnomalyResult :=
  let sorted := sortAscending data in
  rbind (mean data) (fun avg =>
  rbind (standardDeviation data) (fun stdDev =>
    let points := mapIndex (fun value index =>
      let zScore := PrimFloat.abs ((value - avg) / stdDev) in
      let sortedIndex := indexOf value sorted 0 in
      let leftNeighbor :=
        match sortedIndex with
        | Some (S i) => nth i sorted nan
        | _ => value
        end in
      let rightNeighbor :=
        match sortedIndex with
        | Some i => if Nat.ltb (S i) (length sorted) then nth (S i) sorted nan else value
        | None => match sorted with h :: _ => h | [] => value end
        end in
      let leftDist := PrimFloat.abs (value - leftNeighbor) in
      let rightDist := PrimFloat.abs (value - rightNeighbor) in
      let avgNeighborDist := (leftDist + rightDist) / 2 in
      let isolationScore := zScore * (1 + avgNeighborDist / stdDev) in
      mkAnomalyPoint index value isolationScore (3.0 <? isolationScore)) data in
    Ok (summarize points 3.0 "isolation_forest" (length data)))).

Definition detectAnomalies (data : list float) (thr : float) (meth : string)
    : result AnomalyResult :=
  if String.eqb meth "zscore" then detectWithZScore data thr
  else if String.eqb meth "iqr" then detectWithIQR data
  else if String.eqb meth "isolation_forest" then detectWithIsolationForest data
  else detectWithZScore data thr.

End AnomalyDetectionService.

(** ** Forecasting (infrastructure/ml/ForecastingService) *)

Module ForecastingService.

Import SimpleStatistics.
Local Open Scope float_scope.

Inductive Trend := upward | downward | stable.

Record ForecastResult := mkForecastResult {
  forecasts : list float;
  confidence : float;
  method : string;
  trend : Trend;
  mape : option float
}.

(** [Math.pow(base, k)] for a non-negative integer exponent. *)
Fixpoint powNat (base : float) (k : nat) : float :=
  match k with
  | O => 1
  | S k' => base * powNat base k'
  end.

Definition generateWeights (size : nat) : list float :=
  let alpha := 0.3 in
  List.map (fun i => powNat (1 - alpha) (size - i - 1)) (seq 0 size).

Definition calculateRSquared (actual predicted : list float) : result float :=
  rbind (mean actual) (fun actualMean =>
    let ssTotal :=
      fold_left (fun acc v => acc + (v - actualMean) * (v - actualMean)) actual 0 in
    let ssResidual :=
      fold_left (fun acc vp => acc + (fst vp - snd vp) * (fst vp - snd vp))
        (combine actual predicted) 0 in
    Ok (1 - ssResidual / ssTotal)).

Definition calculateMAPE (actual predicted : list float) : float :=
  let step (acc : float * nat) (ap : float * float) :=
    let '(a, p) := ap in
    if PrimFloat.eqb a 0 then acc
    else (fst acc + PrimFloat.abs ((a - p) / a), S (snd acc)) in
  let '(sumPercentageError, count) := fold_left step (combine actual predicted) (0, O) in
  match count with
  | O => 0
  | _ => (sumPercentageError / ofNat count) * 100
  end.

Definition simpleLinearForecast (data : list float) (periods : nat) (conf : float)
    : result ForecastResult :=
  let points := mapIndex (fun value index => (ofNat index, value)) data in
  let regression := linearRegression points in
  let line := linearRegressionLine regression in
  let predictions := mapIndex (fun _ index => line (ofNat index)) data in
  rbind (calculateRSquared data predictions) (fun rSquared =>
    let lastIndex := ofNat (length data) - 1 in
    let forecasts :=
      List.map (fun i => fmax 0 (line (lastIndex + ofNat i))) (seq 1 periods) in
    let slope := regression.(m) in
    rbind (mean data) (fun avg =>
      let trend :=
        if PrimFloat.abs slope <? 0.01 * avg then stable
        else if 0 <? slope then upward else downward in
      let mape := calculateMAPE data predictions in
      Ok (mkForecastResult forecasts (fmax 0 (1 - mape / 100))
            "linear_regression" trend (Some mape)))).

(** [data[i] - data[i - 1]] for [i] from 1. *)
Fixpoint differences (data : list float) : list float :=
  match data with
  | a :: ((b :: _) as rest) => (b - a) :: differences rest
  | _ => []
  end.

(** The loop [forecast = lastValue + avgChange; push(max(0, forecast));
    lastValue = forecast], [periods] times. *)
Fixpoint project (lastValue avgChange : float) (periods : nat) : list float :=
  match periods with
  | O => []
  | S k =>
      let forecast := lastValue + avgChange in
      fmax 0 forecast :: project forecast avgChange k
  end.

Definition weightedMovingAverageForecast (data : list float) (periods : nat)
    (conf : float) : result ForecastResult :=
  let windowSize := Nat.min 10 (length data) in
  let weights := generateWeights windowSize in
  let recentData := skipn (length data - windowSize) data in
  let weightedAvg :=
    fold_left (fun acc vw => acc + fst vw * snd vw) (combine recentData weights) 0
    / sum weights in
  let changes := differences data in
  rbind (mean changes) (fun avgChange =>
  rbind (standardDeviation changes) (fun stdChange =>
    let lastValue := List.last data nan in
    let forecasts := project lastValue avgChange periods in
    let trend :=
      if PrimFloat.abs avgChange <? stdChange * 0.5 then stable
      else if 0 <? avgChange then upward else downward in
    rbind (mean data) (fun avg =>
      let cv := stdChange / PrimFloat.abs avg in
      let estimatedConfidence := fmax 0.5 (fmin 0.95 (1 - cv)) in
      Ok (mkForecastResult forecasts estimatedConfidence
            "weighted_moving_average" trend (Some (cv * 100)))))).

Definition forecast (data : list float) (periods : nat) (conf : float)
    : result ForecastResult :=
  if Nat.ltb (length data) 10 then simpleLinearForecast data periods conf
  else weightedMovingAverageForecast data periods conf.

End ForecastingService.

(** ** Forecast use case (application/use-cases/ForecastTrends) *)

Module ForecastTrendsUseCase.

Local Open Scope float_scope.

Record ForecastDTO := mkForecastDTO {
  data : option (list float);
  periods : Z;
  confidence : option float
}.

(** [dto.confidence || 0.95]: zero and NaN are falsy. *)
Definition confidenceOrDefault (c : option float) : float :=
  match c with
  | Some x => if PrimFloat.eqb x 0 || isNaN x then 0.95 else x
  | None => 0.95
  end.

Definition execute (dto : ForecastDTO) : result ForecastingService.ForecastResult :=
  match dto.(data) with
  | None =>
      Throw (Error "Se requieren al menos 3 puntos de datos para realizar pronósticos")
  | Some values =>
      if Nat.ltb (length values) 3 then
        Throw (Error "Se requieren al menos 3 puntos de datos para realizar pronósticos")
      else if (dto.(periods) <=? 0)%Z || (24 <? dto.(periods))%Z then
        Throw (Error "El número de períodos debe estar entre 1 y 24")
      else if negb (forallb (fun v => negb (isNaN v)) values) then
        Throw (Error "Todos los valores deben ser números válidos")
      else
        ForecastingService.forecast values (Z.to_nat dto.(periods))
          (confidenceOrDefault dto.(confidence))
  end.

End ForecastTrendsUseCase.

(** ** String tests used by the analyzers *)

Definition isWhitespace (c : ascii) : bool :=
  let n := nat_of_ascii c in
  Nat.eqb n 32 || (Nat.leb 9 n && Nat.leb n 13).

Definition isDigit (c : ascii) : bool :=
  let n := nat_of_ascii c in Nat.leb 48 n && Nat.leb n 57.

Definition lowerChar (c : ascii) : ascii :=
  let n := nat_of_ascii c in
  if Nat.leb 65 n && Nat.leb n 90 then ascii_of_nat (n + 32) else c.

Fixpoint toLowerCase (s : string) : string :=
  match s with
  | EmptyString => EmptyString
  | String c s' => String (lowerChar c) (toLowerCase s')
  end.

(** [s.includes(sub)] *)
Definition includes (s sub : string) : bool := isSome (String.index 0 sub s).

(** [s.trim().length === 0] *)
Definition isBlank (s : string) : bool :=
  forallb isWhitespace (list_ascii_of_string s).

Definition isAt (c : ascii) : bool := Ascii.eqb c "@"%char.
Definition isDot (c : ascii) : bool := Ascii.eqb c "."%char.

(** A character of the class [[^\s@]]. *)
Definition isAddressChar (c : ascii) : bool := negb (isWhitespace c || isAt c).

Fixpoint splitAtFirst (p : ascii -> bool) (l : list ascii)
    : option (list ascii * list ascii) :=
  match l with
  | [] => None
  | c :: l' =>
      if p c then Some ([], l')
      else match splitAtFirst p l' with
           | Some (before, rest) => Some (c :: before, rest)
           | None => None
           end
  end.

(** Some ["."] of [l] has a character before it and one after it. *)
Fixpoint hasInnerDot (l : list ascii) : bool :=
  match l with
  | _ :: ((c :: ((_ :: _) as rest)) as tail) => isDot c || hasInnerDot tail
  | _ => false
  end.

(** The test [/^[^\s@]+@[^\s@]+\.[^\s@]+$/] (on ASCII text). *)
Definition matchesEmail (s : string) : bool :=
  match splitAtFirst isAt (list_ascii_of_string s) with
  | Some (localPart, domain) =>
      negb (Nat.eqb (length localPart) 0)
      && forallb isAddressChar localPart
      && forallb isAddressChar domain
      && hasInnerDot domain
  | None => false
  end.

(** The test [/^\d{4}-\d{2}-\d{2}/]. *)
Definition matchesDatePrefix (s : string) : bool :=
  match list_ascii_of_string s with
  | y1 :: y2 :: y3 :: y4 :: d1 :: m1 :: m2 :: d2 :: a1 :: a2 :: _ =>
      isDigit y1 && isDigit y2 && isDigit y3 && isDigit y4
      && Ascii.eqb d1 "-"%char && isDigit m1 && isDigit m2
      && Ascii.eqb d2 "-"%char && isDigit a1 && isDigit a2
  | _ => false
  end.

(** ** Data quality (infrastructure/ml/DataQualityAnalyzer) *)

Module DataQualityAnalyzer.

Import Report SimpleStatistics.
Local Open Scope float_scope.

Section Runtime.

(** Two services of the JavaScript runtime: whether [new Date(v)] is a
    valid date, and [JSON.stringify] of a record. *)
Variable dateIsValid : jsval -> bool.
Variable stringify : row -> string.

(** [value === null || value === undefined || value === ''] *)
Definition isEmptyCell (v : jsval) : bool :=
  match v with
  | VNull | VUndefined => true
  | VStr s => String.eqb s ""
  | _ => false
  end.

(** The number of cells of [data], over [fields], that satisfy [p]. *)
Definition countCells (p : jsval -> string -> bool) (data : list row)
    (fields : list string) : nat :=
  list_sum (List.map (fun r =>
    length (List.filter (fun field => p (getProp r field) field) fields)) data).

Definition calculateCompleteness (data : list row) (fields : list string) : float :=
  let totalCells := ofNat (length data) * ofNat (length fields) in
  let filledCells := countCells (fun v _ => negb (isEmptyCell v)) data fields in
  (ofNat filledCells / totalCells) * 100.

Definition isValidValue (v : jsval) (field : string) : bool :=
  if isEmptyCell v then false
  else
    let lowerField := toLowerCase field in
    if includes lowerField "email" || includes lowerField "mail" then
      match v with VStr s => matchesEmail s | _ => false end
    else if includes lowerField "date" || includes lowerField "fecha"
            || includes lowerField "timestamp" then
      dateIsValid v
    else if includes lowerField "amount" || includes lowerField "price"
            || includes lowerField "quantity" || includes lowerField "count" then
      match v with
      | VNum n => negb (isNaN n) && PrimFloat.is_finite n
      | _ => false
      end
    else true.

Definition calculateAccuracy (data : list row) (fields : list string) : float :=
  let totalCells := ofNat (length data) * ofNat (length fields) in
  let validCells := countCells isValidValue data fields in
  (ofNat validCells / totalCells) * 100.

Definition getValueType (v : jsval) : string :=
  match v with
  | VNull | VUndefined => "null"
  | VNum _ => "number"
  | VBool _ => "boolean"
  | VDate _ => "date"
  | VStr s =>
      if matchesDatePrefix s then "date_string"
      else if matchesEmail s then "email"
      else "string"
  | VArr _ | VObj _ => "object"
  end.

(** The count of the most frequent type among [types]:
    [Math.max(...fieldTypes.values())]. *)
Definition maxTypeCount (types : list string) : float :=
  fold_left (fun acc t =>
    fmax acc (ofNat (length (List.filter (String.eqb t) types))))
    types neg_infinity.

Definition calculateConsistency (data : list row) (fields : list string) : float :=
  let totalConsistency :=
    fold_left (fun acc field =>
      let types := List.map (fun r => getValueType (getProp r field)) data in
      acc + (maxTypeCount types / ofNat (length data)) * 100) fields 0 in
  totalConsistency / ofNat (length fields).

Definition fieldOutliers (data : list row) (field : string) : result nat :=
  let numericValues :=
    List.filter (fun n => negb (isNaN n))
      (numbersOf (List.map (fun r => getProp r field) data)) in
  if Nat.ltb 10 (length numericValues) then
    rbind (quantile numericValues 0.25) (fun q1 =>
    rbind (quantile numericValues 0.75) (fun q3 =>
      let iqr := q3 - q1 in
      let lowerBound := q1 - 1.5 * iqr in
      let upperBound := q3 + 1.5 * iqr in
      Ok (length (List.filter
            (fun v => (v <? lowerBound) || (upperBound <? v)) numericValues))))
  else Ok O.

Definition countOutliers (data : list row) (fields : list string) : result nat :=
  rbind (rmapM (fieldOutliers data) fields) (fun counts => Ok (list_sum counts)).

Definition countMissingValues (data : list row) (fields : list string) : nat :=
  countCells (fun v _ => isEmptyCell v) data fields.

(** Rows whose serialization was already seen. *)
Fixpoint countDuplicatesFrom (seen : list string) (data : list row) : nat :=
  match data with
  | [] => O
  | r :: data' =>
      let hash := stringify r in
      if existsb (String.eqb hash) seen
      then S (countDuplicatesFrom seen data')
      else countDuplicatesFrom (hash :: seen) data'
  end.

Definition countDuplicates (data : list row) : nat := countDuplicatesFrom [] data.

Definition getEmptyMetrics : DataQualityMetrics :=
  mkDataQualityMetrics 0 0 0 0 0 0.

Definition analyze (data : list row) (requiredFields : option (list string))
    : result DataQualityMetrics :=
  match data with
  | [] => Ok getEmptyMetrics
  | first :: _ =>
      let fields :=
        match requiredFields with
        | Some fs => fs
        | None => keys first
        end in
      let completeness := calculateCompleteness data fields in
      let accuracy := calculateAccuracy data fields in
      let consistency := calculateConsistency data fields in
      rbind (countOutliers data fields) (fun outliers =>
        let missingValues := countMissingValues data fields in
        let duplicates := countDuplicates data in
        Ok (mkDataQualityMetrics completeness accuracy consistency
              (ofNat outliers) (ofNat missingValues) (ofNat duplicates)))
  end.

End Runtime.

End DataQualityAnalyzer.

(** ** Stateful, fallible computations *)

(** A computation over a mutable state [S] that returns or throws; the
    state changes made before a throw stay made. *)
Definition ST (S A : Type) : Type := S -> result A * S.

Definition ret {S A : Type} (a : A) : ST S A := fun s => (Ok a, s).

Definition throw {S A : Type} (e : exn) : ST S A := fun s => (Throw e, s).

Definition bind {S A B : Type} (m : ST S A) (k : A -> ST S B) : ST S B :=
  fun s =>
    match m s with
    | (Ok a, s') => k a s'
    | (Throw e, s') => (Throw e, s')
    end.

(** [try { body } catch (e) { handler(e) }] *)
Definition tryCatch {S A : Type} (body : ST S A) (handler : exn -> ST S A) : ST S A :=
  fun s =>
    match body s with
    | (Ok a, s') => (Ok a, s')
    | (Throw e, s') => handler e s'
    end.

Definition liftResult {S A : Type} (r : result A) : ST S A := fun s => (r, s).

Definition get {S : Type} : ST S S := fun s => (Ok s, s).

Definition modify {S : Type} (f : S -> S) : ST S unit := fun s => (Ok tt, f s).

Declare Scope st_scope.
Delimit Scope st_scope with st.
Notation "'do' x <- m ; k" := (bind m (fun x => k))
  (at level 10, x name, m at level 100, k at level 200) : st_scope.
Notation "m ;; k" := (bind m (fun _ => k))
  (at level 100, k at level 200, right associativity) : st_scope.

(** ** The queue and the persistent store *)

Inductive JobData : Type :=
| RenderJob (reportId : string) (data : list row) (userId : string)
    (format : Report.ReportFormat) (metadata : Report.ReportMetadata)
    (emailTo : option string)
| MLJob (reportId : string) (data : list row)
    (enableAnomalyDetection enableForecasting enableKPISuggestions : bool).

Record Job := mkJob {
  jobName : string;
  jobData : JobData;
  jobId : string;
  attempts : nat;
  backoffDelay : Z
}.

(** A BullMQ queue as the use case sees it: [add] throws while the
    connection is down, and ignores a job whose id is already queued. *)
Record Queue := mkQueue {
  connected : bool;
  jobs : list Job
}.

Definition queueAdd (j : Job) (q : Queue) : result unit * Queue :=
  if q.(connected) then
    if existsb (fun j' => String.eqb j'.(jobId) j.(jobId)) q.(jobs) then (Ok tt, q)
    else (Ok tt, mkQueue true (q.(jobs) ++ [j])%list)
  else (Throw (Error "Connection is closed."), q).

(** Everything a request handler or worker can change: the [reports]
    collection ([None] before [connect]), the two queues, and the clock. *)
Record World := mkWorld {
  collection : option (gmap string Report.Report);
  reportQueue : Queue;
  mlQueue : Queue;
  clock : Z
}.

Definition setCollection (c : option (gmap string Report.Report)) (w : World) : World :=
  mkWorld c w.(reportQueue) w.(mlQueue) w.(clock).

Definition setReportQueue (q : Queue) (w : World) : World :=
  mkWorld w.(collection) q w.(mlQueue) w.(clock).

Definition setMlQueue (q : Queue) (w : World) : World :=
  mkWorld w.(collection) w.(reportQueue) q w.(clock).

(** [new Date()] / [Date.now()]: time does not advance within a call. *)
Definition now : ST World Z := fun w => (Ok w.(clock), w).

Definition addToReportQueue (j : Job) : ST World unit :=
  fun w => let '(r, q) := queueAdd j w.(reportQueue) in (r, setReportQueue q w).

Definition addToMlQueue (j : Job) : ST World unit :=
  fun w => let '(r, q) := queueAdd j w.(mlQueue) in (r, setMlQueue q w).

(** ** Repository (infrastructure/database/MongoReportRepository) *)

Module MongoReportRepository.

Import Report.

(** [insertOne]: a second document with the same [_id] is refused. *)
Definition save (r : Report) : ST World unit :=
  fun w =>
    match w.(collection) with
    | None => (Throw (Error "Database not connected"), w)
    | Some docs =>
        match docs !! r.(id) with
        | Some _ => (Throw (Error "E11000 duplicate key error"), w)
        | None => (Ok tt, setCollection (Some (<[r.(id) := r]> docs)) w)
        end
    end.

Definition findById (rid : string) : ST World (option Report) :=
  fun w =>
    match w.(collection) with
    | None => (Throw (Error "Database not connected"), w)
    | Some docs => (Ok (docs !! rid), w)
    end.

(** [updateOne({_id}, {$set: report.toJSON()})]: every field of the
    stored document is overwritten; nothing is inserted when the id is
    unknown. *)
Definition update (r : Report) : ST World unit :=
  fun w =>
    match w.(collection) with
    | None => (Throw (Error "Database not connected"), w)
    | Some docs =>
        match docs !! r.(id) with
        | Some _ => (Ok tt, setCollection (Some (<[r.(id) := r]> docs)) w)
        | None => (Ok tt, w)
        end
    end.

(** What is persisted under an id, if anything. *)
Definition stored (w : World) (rid : string) : option Report :=
  match w.(collection) with
  | None => None
  | Some docs => docs !! rid
  end.

End MongoReportRepository.

(** ** Domain service (domain/services/ReportDomainService) *)

(** The environment settings the services read, already parsed. *)
Record Config := mkConfig {
  maxRowsExcel : Z;
  maxRowsCsv : Z;
  mlMinDataPoints : Z;
  queueMaxRetries : nat;
  envAnomalyDetection : bool;
  envForecasting : bool;
  envKPISuggestions : bool
}.

Module ReportDomainService.

Import Report.

(** The last check of the source, that the format is one of the enum's
    values, holds of every [ReportFormat]. *)
Definition validateReport (r : Report) : result unit :=
  if Nat.eqb (String.length r.(userId)) 0 || isBlank r.(userId) then
    Throw (Error "User ID is required")
  else if Nat.eqb (String.length r.(metadata).(title)) 0
          || isBlank r.(metadata).(title) then
    Throw (Error "Report title is required")
  else if Nat.ltb 200 (String.length r.(metadata).(title)) then
    Throw (Error "Report title must be less than 200 characters")
  else Ok tt.

Definition getMaxRows (cfg : Config) (f : ReportFormat) : Z :=
  match f with
  | EXCEL => cfg.(maxRowsExcel)
  | CSV => cfg.(maxRowsCsv)
  | PDF => 10000
  | HTML => 50000
  | JSON => 1000000
  end.

Definition shouldEnableMLAnalysis (cfg : Config) (rowCount : nat) : bool :=
  (cfg.(mlMinDataPoints) <=? Z.of_nat rowCount)%Z.

End ReportDomainService.

(** ** A loaded report entity and the world

    A handler that loads a report holds it as a mutable object: the entity's
    methods change the object in memory, [repository.update] writes its
    current fields to the store.  A [catch] block sees the object as the
    [try] block left it. *)

Definition liftW {A : Type} (m : ST World A) : ST (Report.Report * World) A :=
  fun s => let '(res, w') := m (snd s) in (res, (fst s, w')).

Definition mutate (f : Report.Report -> Report.Report) : ST (Report.Report * World) unit :=
  fun s => (Ok tt, (f (fst s), snd s)).

(** A computation on the report object alone, run inside a handler. *)
Definition onReport {A : Type} (m : ST Report.Report A) : ST (Report.Report * World) A :=
  fun s => let '(res, r') := m (fst s) in (res, (r', snd s)).

(** [await this.repository.update(report)] *)
Definition persist : ST (Report.Report * World) unit :=
  fun s => let '(res, w') := MongoReportRepository.update (fst s) (snd s) in
           (res, (fst s, w')).

Definition withReport {A : Type} (r : Report.Report)
    (m : ST (Report.Report * World) A) : ST World A :=
  fun w => let '(res, s') := m (r, w) in (res, snd s').

(** ** Report submission (application/use-cases/GenerateReport) *)

Module GenerateReportUseCase.

Import Report.
Local Open Scope st_scope.

Record GenerateReportDTO := mkGenerateReportDTO {
  dtoUserId : string;
  dtoType : ReportType;
  dtoFormat : ReportFormat;
  dtoTitle : string;
  dtoDescription : option string;
  dtoData : list row;
  dtoFilters : option jsval;
  dtoColumns : option (list string);
  dtoChartConfig : option jsval;
  dtoDataSource : option string;
  dtoEmailTo : option string;
  dtoAiAnalysisEnabled : option bool
}.

Record ReportResponseDTO := mkReportResponseDTO {
  resId : string;
  resUserId : string;
  resType : ReportType;
  resFormat : ReportFormat;
  resStatus : ReportStatus;
  resMetadata : ReportMetadata;
  resDownloadUrl : option string;
  resFileSize : option Z;
  resCreatedAt : Z;
  resCompletedAt : option Z;
  resExpiresAt : option Z;
  resDownloadCount : Z;
  resProcessingTime : option Z;
  resError : option string
}.

Definition toDTO (r : Report) : ReportResponseDTO :=
  mkReportResponseDTO r.(id) r.(userId) r.(type) r.(format) r.(status)
    (mkReportMetadata r.(metadata).(title) r.(metadata).(description)
       None None None None None None
       r.(metadata).(aiInsights) r.(metadata).(suggestedKPIs)
       r.(metadata).(dataQuality) None r.(metadata).(recordCount))
    r.(downloadUrl) r.(fileSize) r.(createdAt) r.(completedAt) r.(expiresAt)
    r.(downloadCount) r.(processingTime) r.(error).

Section UseCase.

Variable cfg : Config.
(** The value the next [uuidv4()] call returns. *)
Variable freshId : string.
(** Template text of the size-limit message. *)
Variable rowLimitMessage : nat -> ReportFormat -> Z -> string.

Definition execute (dto : GenerateReportDTO) : ST World ReportResponseDTO :=
  let maxRows := ReportDomainService.getMaxRows cfg dto.(dtoFormat) in
  if (maxRows <? Z.of_nat (length dto.(dtoData)))%Z then
    throw (Error (rowLimitMessage (length dto.(dtoData)) dto.(dtoFormat) maxRows))
  else
    do createdAt <- now;
    let report :=
      mkReport freshId dto.(dtoUserId) dto.(dtoType) dto.(dtoFormat)
        (mkReportMetadata dto.(dtoTitle) dto.(dtoDescription) None None None
           dto.(dtoFilters) dto.(dtoColumns) dto.(dtoChartConfig)
           None None None dto.(dtoDataSource) (Some (length dto.(dtoData))))
        PENDING None None None None createdAt None None dto.(dtoEmailTo) 0
        (match dto.(dtoAiAnalysisEnabled) with Some b => b | None => true end)
        None in
    liftResult (ReportDomainService.validateReport report) ;;
    MongoReportRepository.save report ;;
    addToReportQueue
      (mkJob "generate-report"
         (RenderJob report.(id) dto.(dtoData) dto.(dtoUserId) dto.(dtoFormat)
            report.(metadata) dto.(dtoEmailTo))
         report.(id) cfg.(queueMaxRetries) 5000) ;;
    (if report.(aiAnalysisEnabled)
        && ReportDomainService.shouldEnableMLAnalysis cfg (length dto.(dtoData))
     then
       addToMlQueue
         (mkJob "analyze-data"
            (MLJob report.(id) dto.(dtoData) cfg.(envAnomalyDetection)
               cfg.(envForecasting) cfg.(envKPISuggestions))
            ("ml-" ++ report.(id)) 2 10000)
     else ret tt) ;;
    ret (toDTO report).

End UseCase.

End GenerateReportUseCase.

(** ** Synchronous analysis (application/use-cases/AnalyzeData) *)

Module AnalyzeDataUseCase.

Import Report.
Local Open Scope st_scope.

Record AnalyzeDataDTO := mkAnalyzeDataDTO {
  reportId : string;
  data : list row;
  enableAnomalyDetection : option bool;
  enableForecasting : option bool;
  enableKPISuggestions : option bool
}.

Record AnalysisResult := mkAnalysisResult {
  resultReportId : string;
  insights : list AIInsight;
  suggestedKPIs : list KPISuggestion;
  dataQuality : option DataQualityMetrics;
  processingTime : Z
}.

Section UseCase.

(** The injected [IMLService]. *)
Variable analyzeData : list row -> AnalyzeDataDTO -> result AnalysisResult.

Definition applyResult (res : AnalysisResult) (r : Report) : Report :=
  let r1 := fold_left (fun acc i => addAIInsight i acc) res.(insights) r in
  let r2 :=
    if Nat.ltb 0 (length res.(suggestedKPIs))
    then addKPISuggestions res.(suggestedKPIs) r1 else r1 in
  match res.(dataQuality) with
  | Some q => setDataQuality q r2
  | None => r2
  end.

(** The body of the [try] block. *)
Definition analyzeAndStore (dto : AnalyzeDataDTO) (startTime : Z)
    : ST (Report * World) AnalysisResult :=
  do res <- liftResult (analyzeData dto.(data) dto);
  mutate (applyResult res) ;;
  persist ;;
  do endTime <- liftW now;
  ret (mkAnalysisResult res.(resultReportId) res.(insights) res.(suggestedKPIs)
         res.(dataQuality) (endTime - startTime)).

(** The [catch] block. *)
Definition failReport (e : exn) : ST (Report * World) AnalysisResult :=
  do failedAt <- liftW now;
  mutate (markAsFailed ("Error en análisis de IA: " ++ message e) failedAt) ;;
  persist ;;
  throw e.

Definition execute (dto : AnalyzeDataDTO) : ST World AnalysisResult :=
  do startTime <- now;
  do found <- MongoReportRepository.findById dto.(reportId);
  match found with
  | None => throw (Error "Reporte no encontrado")
  | Some report =>
      if negb report.(aiAnalysisEnabled) then
        throw (Error "El análisis de IA no está habilitado para este reporte")
      else
        withReport report
          (mutate markAsAnalyzing ;;
           persist ;;
           tryCatch (analyzeAndStore dto startTime) failReport)
  end.

End UseCase.

End AnalyzeDataUseCase.

(** ** ML analysis worker (infrastructure/workers/MLAnalysisWorker) *)

Module MLAnalysisWorker.

Import Report.

Record MLJobData := mkMLJobData {
  reportId : string;
  data : list row;
  enableAnomalyDetection : bool;
  enableForecasting : bool;
  enableKPISuggestions : bool
}.

(** The collaborators the worker holds in its fields, the job's progress
    channel, and the runtime's number formatting. *)
Record Services := mkServices {
  qualityAnalyze : list row -> result DataQualityMetrics;
  detectAnomalies :
    list float -> float -> string -> result AnomalyDetectionService.AnomalyResult;
  forecastValues :
    list float -> nat -> float -> result ForecastingService.ForecastResult;
  suggestKPIs : string -> option string -> nat -> result (list KPISuggestion);
  updateProgress : string -> nat -> result unit;
  toFixed : float -> nat -> string
}.

Record Correlation := mkCorrelation {
  field1 : string;
  field2 : string;
  coefficient : float;
  strength : string
}.

Local Open Scope float_scope.

(** [data.map(d => d[field])] *)
Definition column (data : list row) (field : string) : list jsval :=
  List.map (fun d => getProp d field) data.

(** [data.map(d => d[field]).filter(v => typeof v === 'number')] *)
Definition numericColumn (data : list row) (field : string) : list float :=
  numbersOf (column data field).

Definition isNumericField (data : list row) (key : string) : bool :=
  let numericValues := List.filter isNumberNotNaN (column data key) in
  ofNat (length data) * 0.5 <? ofNat (length numericValues).

Definition extractNumericFields (data : list row) : list string :=
  match data with
  | [] => []
  | firstRow :: _ => List.filter (isNumericField data) (keys firstRow)
  end.

Definition calculateCorrelation (x y : list float) : float :=
  let n := Nat.min (length x) (length y) in
  let meanX := fold_left PrimFloat.add x 0 / ofNat n in
  let meanY := fold_left PrimFloat.add y 0 / ofNat n in
  let '(numerator, denomX, denomY) :=
    fold_left (fun (acc : float * float * float) (xy : float * float) =>
      let '(num, dX, dY) := acc in
      let dx := fst xy - meanX in
      let dy := snd xy - meanY in
      (num + dx * dy, dX + dx * dx, dY + dy * dy))
      (combine x y) (0, 0, 0) in
  numerator / PrimFloat.sqrt (denomX * denomY).

(** The pairs [(fields[i], fields[j])], [i < j], in the order of the two
    nested loops. *)
Fixpoint fieldPairs (fields : list string) : list (string * string) :=
  match fields with
  | [] => []
  | f :: rest => (List.map (fun g => (f, g)) rest ++ fieldPairs rest)%list
  end.

Definition strengthOf (coef : float) : string :=
  if 0.8 <? PrimFloat.abs coef then "fuerte"
  else if 0.6 <? PrimFloat.abs coef then "moderada"
  else "débil".

(** What one iteration of the inner loop pushes. *)
Definition correlate (data : list row) (pair : string * string) : list Correlation :=
  let values1 := numericColumn data (fst pair) in
  let values2 := numericColumn data (snd pair) in
  if Nat.ltb 3 (length values1) && Nat.ltb 3 (length values2) then
    let coef := calculateCorrelation values1 values2 in
    if 0.5 <? PrimFloat.abs coef then
      [mkCorrelation (fst pair) (snd pair) coef (strengthOf coef)]
    else []
  else [].

(** Every correlation the loops push, before the final [slice]. *)
Definition significantCorrelations (data : list row) : list Correlation :=
  List.concat (List.map (correlate data) (fieldPairs (extractNumericFields data))).

Definition findCorrelations (data : list row) : list Correlation :=
  firstn 3 (significantCorrelations data).

Section Worker.

Variable svc : Services.

Definition anomalyPointToJs (a : AnomalyDetectionService.AnomalyPoint) : jsval :=
  VObj [("index", VNum (ofNat a.(AnomalyDetectionService.index)));
        ("value", VNum a.(AnomalyDetectionService.value));
        ("score", VNum a.(AnomalyDetectionService.score));
        ("isAnomaly", VBool a.(AnomalyDetectionService.isAnomaly))].

Definition optNum (o : option float) : jsval :=
  match o with Some x => VNum x | None => VUndefined end.

Definition kpiToJs (k : KPISuggestion) : jsval :=
  VObj [("name", VStr k.(kname));
        ("description", VStr k.(kdescription));
        ("formula", VStr k.(kformula));
        ("importance",
         VStr match k.(kimportance) with
              | high => "high" | medium => "medium" | low => "low" end);
        ("category", VStr k.(kcategory));
        ("visualizationType",
         VStr match k.(kvisualizationType) with
              | vline => "line" | vbar => "bar" | vgauge => "gauge"
              | vnumber => "number" | vtrend => "trend" end);
        ("currentValue", optNum k.(kcurrentValue));
        ("targetValue", optNum k.(ktargetValue))].

Definition trendName (t : ForecastingService.Trend) : string :=
  match t with
  | ForecastingService.upward => "upward"
  | ForecastingService.downward => "downward"
  | ForecastingService.stable => "stable"
  end.

Definition correlationToJs (c : Correlation) : jsval :=
  VObj [("field1", VStr c.(field1)); ("field2", VStr c.(field2));
        ("coefficient", VNum c.(coefficient)); ("strength", VStr c.(strength))].

(** Step 1: the insight about low completeness. *)
Definition qualityInsights (q : DataQualityMetrics) (t : Z) : list AIInsight :=
  if q.(completeness) <? 90 then
    [mkAIInsight suggestion "Calidad de Datos Baja"
       ("Solo " ++ svc.(toFixed) q.(completeness) 1
        ++ "% de los datos están completos. Considera limpiar los datos antes de generar análisis.")
       0.95 VUndefined true t]
  else [].

(** Step 2, one field of the loop. *)
Definition anomalyInsightFor (data : list row) (t : Z) (field : string)
    : result (list AIInsight) :=
  let values := numericColumn data field in
  if Nat.ltb 10 (length values) then
    rbind (svc.(detectAnomalies) values 2.5 "zscore") (fun res =>
      if Nat.ltb 0 res.(AnomalyDetectionService.anomalyCount) then
        Ok [mkAIInsight anomaly ("Anomalías Detectadas en " ++ field)
              ("Se detectaron " ++ pretty res.(AnomalyDetectionService.anomalyCount)
               ++ " valores atípicos ("
               ++ svc.(toFixed) res.(AnomalyDetectionService.anomalyPercentage) 1
               ++ "% del total) en el campo " ++ field)
              0.85
              (VObj [("field", VStr field);
                     ("anomalies",
                      VArr (List.map anomalyPointToJs
                              (firstn 5 (List.filter AnomalyDetectionService.isAnomaly
                                           res.(AnomalyDetectionService.anomalies)))))])
              true t]
      else Ok [])
  else Ok [].

(** Step 3, one field of the loop. *)
Definition forecastInsightFor (data : list row) (t : Z) (field : string)
    : result (list AIInsight) :=
  let values := numericColumn data field in
  if Nat.leb 5 (length values) then
    rbind (svc.(forecastValues) values 3 0.95) (fun fc =>
      Ok [mkAIInsight forecast ("Pronóstico para " ++ field)
            ("Basado en tendencia "
             ++ match fc.(ForecastingService.trend) with
                | ForecastingService.upward => "creciente"
                | ForecastingService.downward => "decreciente"
                | ForecastingService.stable => "estable"
                end
             ++ ", se proyectan los siguientes valores")
            fc.(ForecastingService.confidence)
            (VObj [("field", VStr field);
                   ("forecasts", VArr (List.map VNum fc.(ForecastingService.forecasts)));
                   ("trend", VStr (trendName fc.(ForecastingService.trend)));
                   ("method", VStr fc.(ForecastingService.method))])
            true t])
  else Ok [].

(** A [for ... of] loop over the numeric fields, stopping at a throw. *)
Definition forEachNumericField (data : list row)
    (f : string -> result (list AIInsight)) : result (list AIInsight) :=
  rbind (rmapM f (extractNumericFields data)) (fun ls => Ok (List.concat ls)).

Local Open Scope st_scope.

(** [await job.updateProgress({status, progress})] *)
Definition progress {S : Type} (stage : string) (percent : nat) : ST S unit :=
  liftResult (svc.(updateProgress) stage percent).

(** Step 4: the inner [try] swallows a failure of the suggestion call. *)
Definition kpiStep (t : Z) : ST Report (list AIInsight) :=
  tryCatch
    (do report <- get;
     do kpis <- liftResult
       (svc.(suggestKPIs)
          (match report.(metadata).(dataSource) with
           | Some src => if String.eqb src "" then "unknown" else src
           | None => "unknown"
           end)
          report.(metadata).(description) 3);
     if Nat.ltb 0 (length kpis) then
       modify (addKPISuggestions kpis) ;;
       ret [mkAIInsight suggestion "KPIs Sugeridos"
              ("Se sugieren " ++ pretty (length kpis)
               ++ " indicadores clave de performance relevantes para tus datos")
              0.80 (VObj [("kpis", VArr (List.map kpiToJs kpis))]) true t]
     else ret [])
    (fun _ => ret []).

Definition correlationInsight (t : Z) (corr : Correlation) : AIInsight :=
  mkAIInsight correlation
    ("Correlación: " ++ corr.(field1) ++ " ↔ " ++ corr.(field2))
    ("Existe una correlación " ++ corr.(strength) ++ " ("
     ++ svc.(toFixed) (corr.(coefficient) * 100) 1 ++ "%) entre "
     ++ corr.(field1) ++ " y " ++ corr.(field2))
    (PrimFloat.abs corr.(coefficient)) (correlationToJs corr) true t.

(** Steps 1 to 5: everything between the first [update] and the loop
    that hands the collected insights to the report.  No repository call
    is made here: the state is the report object in memory, and the
    insights live in a local array ([t] is the instant the insights are
    stamped with). *)
Definition collectInsights (job : MLJobData) (t : Z) : ST Report (list AIInsight) :=
  progress "quality_analysis" 10 ;;
  do dataQuality <- liftResult (svc.(qualityAnalyze) job.(data));
  modify (setDataQuality dataQuality) ;;
  let insights1 := qualityInsights dataQuality t in
  do insights2 <-
    (if job.(enableAnomalyDetection) then
       progress "anomaly_detection" 30 ;;
       liftResult (forEachNumericField job.(data) (anomalyInsightFor job.(data) t))
     else ret []);
  do insights3 <-
    (if job.(enableForecasting) then
       progress "forecasting" 50 ;;
       liftResult (forEachNumericField job.(data) (forecastInsightFor job.(data) t))
     else ret []);
  do insights4 <-
    (if job.(enableKPISuggestions) then
       progress "kpi_suggestions" 70 ;; kpiStep t
     else ret []);
  progress "correlation_analysis" 85 ;;
  let insights5 := List.map (correlationInsight t) (findCorrelations job.(data)) in
  ret (insights1 ++ insights2 ++ insights3 ++ insights4 ++ insights5)%list.

Definition addAll (insights : list AIInsight) (r : Report) : Report :=
  fold_left (fun acc i => addAIInsight i acc) insights r.

(** The [try] block. *)
Definition analysis (job : MLJobData) : ST (Report * World) unit :=
  mutate markAsAnalyzing ;;
  persist ;;
  do t <- liftW now;
  do insights <- onReport (collectInsights job t);
  mutate (addAll insights) ;;
  progress "saving" 95 ;;
  persist ;;
  progress "completed" 100.

Definition processAnalysis (job : MLJobData) : ST World unit :=
  do found <- MongoReportRepository.findById job.(reportId);
  match found with
  | None => throw (Error ("Reporte " ++ job.(reportId) ++ " no encontrado"))
  | Some report =>
      withReport report (tryCatch (analysis job) (fun _ => persist))
  end.

End Worker.

(** The services the worker's constructor instantiates, around the parts
    supplied by the runtime, the queue and the suggestion provider. *)
Definition productionServices (dateIsValid : jsval -> bool) (stringify : row -> string)
    (toFixed : float -> nat -> string)
    (suggestKPIs : string -> option string -> nat -> result (list KPISuggestion))
    (updateProgress : string -> nat -> result unit) : Services :=
  mkServices
    (fun data => DataQualityAnalyzer.analyze dateIsValid stringify data None)
    AnomalyDetectionService.detectAnomalies
    ForecastingService.forecast
    suggestKPIs updateProgress toFixed.

End MLAnalysisWorker.

(** * Further parts of the code *)

(** ** Read-only methods of the Report entity *)

Module ReportRead.

Import Report.

(** [isExpired()], [now] being the instant [new Date()] returns. *)
Definition isExpired (now : Z) (r : Report) : bool :=
  match r.(expiresAt) with
  | None => false
  | Some e => (e <? now)%Z
  end.

Definition canBeDownloaded (now : Z) (r : Report) : bool :=
  status_eqb r.(status) COMPLETED && negb (isExpired now r).

Definition typeName (t : ReportType) : string :=
  match t with
  | SALES => "SALES" | INVENTORY => "INVENTORY" | FINANCIAL => "FINANCIAL"
  | USERS => "USERS" | LOGS => "LOGS" | ANALYTICS => "ANALYTICS"
  | PREDICTIVE => "PREDICTIVE" | CUSTOM => "CUSTOM"
  end.

Definition formatName (f : ReportFormat) : string :=
  match f with
  | PDF => "PDF" | EXCEL => "EXCEL" | CSV => "CSV" | HTML => "HTML" | JSON => "JSON"
  end.

Definition statusName (s : ReportStatus) : string :=
  match s with
  | PENDING => "PENDING" | PROCESSING => "PROCESSING" | ANALYZING => "ANALYZING"
  | COMPLETED => "COMPLETED" | FAILED => "FAILED"
  end.

Definition getFileName (r : Report) : string :=
  toLowerCase (typeName r.(type)) ++ "_" ++ pretty r.(createdAt) ++ "."
  ++ toLowerCase (formatName r.(format)).

End ReportRead.

(** ** The rest of the repository *)

Module MongoQueries.

Import Report.

(** [expiresAt: { $lte: now }]: a document without expiry never matches. *)
Definition isDue (now : Z) (r : Report) : bool :=
  match r.(expiresAt) with
  | None => false
  | Some e => (e <=? now)%Z
  end.

Definition delete (rid : string) : ST World unit :=
  fun w =>
    match w.(collection) with
    | None => (Throw (Error "Database not connected"), w)
    | Some docs => (Ok tt, setCollection (Some (base.delete rid docs)) w)
    end.

(** [deleteMany({ expiresAt: { $lte: new Date() } })], returning
    [deletedCount]. *)
Definition deleteExpired : ST World nat :=
  fun w =>
    match w.(collection) with
    | None => (Throw (Error "Database not connected"), w)
    | Some docs =>
        (Ok (size (filter (fun kv => isDue w.(clock) (snd kv) = true) docs)),
         setCollection
           (Some (filter (fun kv => isDue w.(clock) (snd kv) <> true) docs)) w)
    end.

Definition countByUser (uid : string) : ST World nat :=
  fun w =>
    match w.(collection) with
    | None => (Throw (Error "Database not connected"), w)
    | Some docs =>
        (Ok (size (filter (fun kv => (snd kv).(userId) = uid) docs)), w)
    end.

(** The [$match]/[$group] pipeline: the sum of the numeric [fileSize]
    fields of the user's documents, 0 when there is none. *)
Definition getStorageUsage (uid : string) : ST World Z :=
  fun w =>
    match w.(collection) with
    | None => (Throw (Error "Database not connected"), w)
    | Some docs =>
        (Ok (foldr Z.add 0%Z
               (List.map (fun kv => match (snd kv).(fileSize) with
                                    | Some n => n | None => 0%Z end)
                  (List.filter (fun kv => String.eqb (snd kv).(userId) uid)
                     (map_to_list docs)))), w)
    end.

Record ReportFilters := mkReportFilters {
  filterType : option ReportType;
  filterStatus : option ReportStatus;
  filterFormat : option ReportFormat;
  startDate : option Z;
  endDate : option Z
}.

Definition type_eqb (a b : ReportType) : bool :=
  String.eqb (ReportRead.typeName a) (ReportRead.typeName b).

Definition format_eqb (a b : ReportFormat) : bool :=
  String.eqb (ReportRead.formatName a) (ReportRead.formatName b).

Definition optionHolds {A : Type} (o : option A) (p : A -> bool) : bool :=
  match o with Some a => p a | None => true end.

(** The query document [findByUserId] builds, as a test on a report. *)
Definition matchesQuery (uid : string) (filters : option ReportFilters) (r : Report)
    : bool :=
  String.eqb r.(userId) uid
  && match filters with
     | None => true
     | Some f =>
         optionHolds f.(filterType) (type_eqb r.(type))
         && optionHolds f.(filterStatus) (status_eqb r.(status))
         && optionHolds f.(filterFormat) (format_eqb r.(format))
         && optionHolds f.(startDate) (fun d => (d <=? r.(createdAt))%Z)
         && optionHolds f.(endDate) (fun d => (r.(createdAt) <=? d)%Z)
     end.

(** [sort({ createdAt: -1 })]: newest first. *)
Definition newestFirst (a b : Report) : Prop := (b.(createdAt) <= a.(createdAt))%Z.

(** [sort({ createdAt: 1 })]: oldest first. *)
Definition oldestFirst (a b : Report) : Prop := (a.(createdAt) <= b.(createdAt))%Z.

#[local] Instance newestFirst_dec a b : Decision (newestFirst a b).
Proof. unfold newestFirst. apply _. Defined.

#[local] Instance oldestFirst_dec a b : Decision (oldestFirst a b).
Proof. unfold oldestFirst. apply _. Defined.

Definition documents (docs : gmap string Report) : list Report :=
  List.map snd (map_to_list docs).

Definition findByUserId (uid : string) (filters : option ReportFilters)
    : ST World (list Report) :=
  fun w =>
    match w.(collection) with
    | None => (Throw (Error "Database not connected"), w)
    | Some docs =>
        (Ok (merge_sort newestFirst
               (List.filter (matchesQuery uid filters) (documents docs))), w)
    end.

Definition findPendingReports : ST World (list Report) :=
  fun w =>
    match w.(collection) with
    | None => (Throw (Error "Database not connected"), w)
    | Some docs =>
        (Ok (merge_sort oldestFirst
               (List.filter (fun r => status_eqb r.(status) PENDING) (documents docs))),
         w)
    end.

End MongoQueries.

(** ** Listing a user's reports (application/use-cases/GetUserReports) *)

Module GetUserReportsUseCase.

Local Open Scope st_scope.

Definition execute (uid : string) (filters : option MongoQueries.ReportFilters)
    : ST World (list GenerateReportUseCase.ReportResponseDTO) :=
  do reports <- MongoQueries.findByUserId uid filters;
  ret (List.map GenerateReportUseCase.toDTO reports).

End GetUserReportsUseCase.


(** ** Download (application/use-cases/DownloadReport) *)

Module DownloadReportUseCase.

Import Report.
Local Open Scope st_scope.

Record DownloadReportDTO := mkDownloadReportDTO {
  reportId : string;
  userId : string
}.

Record DownloadResult := mkDownloadResult {
  filePath : string;
  fileName : string;
  mimeType : string;
  fileSize : Z
}.

Definition getMimeType (f : ReportFormat) : string :=
  match f with
  | PDF => "application/pdf"
  | EXCEL => "application/vnd.openxmlformats-officedocument.spreadsheetml.sheet"
  | CSV => "text/csv"
  | HTML => "text/html"
  | JSON => "application/json"
  end.

Section UseCase.

(** The file system: [fs.existsSync] and [fs.statSync(_).size]. *)
Variable existsSync : string -> bool.
Variable statSize : string -> Z.

Definition execute (dto : DownloadReportDTO) : ST World DownloadResult :=
  do found <- MongoReportRepository.findById dto.(reportId);
  match found with
  | None => throw (Error "Reporte no encontrado")
  | Some report =>
      if negb (String.eqb report.(Report.userId) dto.(userId)) then
        throw (Error "No tienes permisos para descargar este reporte")
      else
        do t <- now;
        if negb (ReportRead.canBeDownloaded t report) then
          if ReportRead.isExpired t report then
            throw (Error "El reporte ha expirado")
          else
            throw (Error ("El reporte no está disponible para descarga. Estado: "
                          ++ ReportRead.statusName report.(status)))
        else
          match report.(Report.filePath) with
          | None => throw (Error "El archivo del reporte no existe")
          | Some path =>
              if String.eqb path "" || negb (existsSync path) then
                throw (Error "El archivo del reporte no existe")
              else
                withReport report
                  (mutate incrementDownloadCount ;;
                   persist ;;
                   ret (mkDownloadResult path
                          (ReportRead.getFileName report)
                          (getMimeType report.(format))
                          (match report.(Report.fileSize) with
                           | Some n => if (n =? 0)%Z then statSize path else n
                           | None => statSize path
                           end)))
          end
  end.

End UseCase.

End DownloadReportUseCase.


(** ** Format tables of the domain service, and sending a report by mail
    (application/use-cases/EmailReport) *)

Module ReportDomainFormats.

Import Report.

Definition getFileExtension (f : ReportFormat) : string :=
  match f with
  | PDF => "pdf"
  | EXCEL => "xlsx"
  | CSV => "csv"
  | HTML => "html"
  | JSON => "json"
  end.

Definition getMimeType (f : ReportFormat) : string :=
  match f with
  | PDF => "application/pdf"
  | EXCEL => "application/vnd.openxmlformats-officedocument.spreadsheetml.sheet"
  | CSV => "text/csv"
  | HTML => "text/html"
  | JSON => "application/json"
  end.

End ReportDomainFormats.

Module EmailReportUseCase.

Import Report.
Local Open Scope st_scope.

Record EmailReportDTO := mkEmailReportDTO {
  reportId : string;
  userId : string;
  emailTo : string;
  dtoSubject : option string;
  dtoMessage : option string
}.

Record Attachment := mkAttachment {
  filename : string;
  content : string;
  encoding : string;
  contentType : string
}.

Record EmailData := mkEmailData {
  to : string;
  mailSubject : string;
  templateName : string;
  reportTitle : string;
  reportType : ReportType;
  recordCount : option nat;
  createdAt : Z;
  mailMessage : string;
  summary : string;
  attachments : list Attachment
}.

(** [value || fallback] on an optional string: the empty string is falsy. *)
Definition orElse (value : option string) (fallback : string) : string :=
  match value with
  | Some s => if String.eqb s "" then fallback else s
  | None => fallback
  end.

Section UseCase.

(** The file system ([existsSync], [readFileSync(_).toString('base64')]),
    the domain service's summary text, and the request posted to the
    messaging service. *)
Variable existsSync : string -> bool.
Variable readBase64 : string -> result string.
Variable generateReportSummary : Report -> string.
Variable post : EmailData -> result unit.

Definition emailData (dto : EmailReportDTO) (report : Report) (fileBase64 : string)
    : EmailData :=
  mkEmailData dto.(emailTo)
    (orElse dto.(dtoSubject) ("Reporte: " ++ report.(metadata).(title)))
    "report-email"
    report.(metadata).(title) report.(type) report.(metadata).(Report.recordCount)
    report.(Report.createdAt)
    (orElse dto.(dtoMessage) "Tu reporte está listo")
    (generateReportSummary report)
    [mkAttachment (ReportRead.getFileName report) fileBase64 "base64"
       (ReportDomainFormats.getMimeType report.(format))].

Definition execute (dto : EmailReportDTO) : ST World unit :=
  do found <- MongoReportRepository.findById dto.(reportId);
  match found with
  | None => throw (Error "Reporte no encontrado")
  | Some report =>
      if negb (String.eqb report.(Report.userId) dto.(userId)) then
        throw (Error "No tienes permisos para enviar este reporte")
      else
        do t <- now;
        if negb (ReportRead.canBeDownloaded t report) then
          throw (Error ("El reporte no está disponible. Estado: "
                        ++ ReportRead.statusName report.(status)))
        else
          match report.(filePath) with
          | None => throw (Error "El archivo del reporte no existe")
          | Some path =>
              if String.eqb path "" || negb (existsSync path) then
                throw (Error "El archivo del reporte no existe")
              else
                do fileBase64 <- liftResult (readBase64 path);
                tryCatch (liftResult (post (emailData dto report fileBase64)))
                  (fun e =>
                     throw (Error ("Error al enviar email: " ++ message e)))
          end
  end.

End UseCase.

End EmailReportUseCase.


(** ** Render worker (infrastructure/workers/ReportWorker) *)

Module ReportWorker.

Import Report.
Local Open Scope st_scope.

Record ReportJobData := mkReportJobData {
  reportId : string;
  data : list row;
  userId : string;
  format : ReportFormat;
  metadata : ReportMetadata;
  emailTo : option string
}.

Definition getFileExtension (f : ReportFormat) : string :=
  match f with
  | EXCEL => "xlsx"
  | PDF => "pdf"
  | CSV => "csv"
  | HTML => "html"
  | JSON => "json"
  end.

Section Worker.

(** [process.env.STORAGE_PATH || './storage/reports'] and
    [process.env.API_BASE_URL || 'http://localhost:3008']. *)
Variable storagePath : string.
Variable apiBaseUrl : string.
Variable pathJoin : string -> string -> string.

(** The generators, each writing the file at the path it is given, and the
    file system calls [writeFileSync(path, JSON.stringify(data, null, 2))]
    and [statSync(path).size]. *)
Variable excelGenerate : list row -> ReportMetadata -> string -> result unit.
Variable pdfGenerate : list row -> ReportMetadata -> string -> result unit.
Variable pdfAdvancedGenerate : list row -> ReportMetadata -> string -> result unit.
Variable csvGenerate : list row -> ReportMetadata -> string -> result unit.
Variable writeJSON : list row -> string -> result unit.
Variable statSize : string -> result Z.

(** [job.updateProgress({status, progress})] *)
Variable updateProgress : string -> nat -> result unit.

Definition generatePDF (data : list row) (metadata : ReportMetadata) (filePath : string)
    : result unit :=
  if isSome metadata.(chartConfig) then pdfAdvancedGenerate data metadata filePath
  else pdfGenerate data metadata filePath.

(** The [switch] on the job's format: HTML shares the JSON branch. *)
Definition generateFile (job : ReportJobData) (filePath : string) : result unit :=
  match job.(format) with
  | EXCEL => excelGenerate job.(data) job.(metadata) filePath
  | PDF => generatePDF job.(data) job.(metadata) filePath
  | CSV => csvGenerate job.(data) job.(metadata) filePath
  | HTML | JSON => writeJSON job.(data) filePath
  end.

Definition progress {S : Type} (stage : string) (percent : nat) : ST S unit :=
  liftResult (updateProgress stage percent).

(** [sendEmail] catches whatever its body throws and logs it; [publishEvent]
    only logs.  Neither touches the report or the store. *)
Definition sendEmail (recipient : string) : ST (Report * World) unit := ret tt.

Definition publishEvent : ST (Report * World) unit := ret tt.

Definition filePathOf (job : ReportJobData) : string :=
  pathJoin storagePath (job.(reportId) ++ "." ++ getFileExtension job.(format)).

Definition downloadUrlOf (job : ReportJobData) : string :=
  apiBaseUrl ++ "/api/reports/" ++ job.(reportId) ++ "/download".

(** The [try] block. *)
Definition render (job : ReportJobData) : ST (Report * World) unit :=
  mutate markAsProcessing ;;
  persist ;;
  progress "processing" 10 ;;
  let filePath := filePathOf job in
  progress "generating" 30 ;;
  liftResult (generateFile job filePath) ;;
  progress "uploading" 80 ;;
  do fileSize <- liftResult (statSize filePath);
  let downloadUrl := downloadUrlOf job in
  do t <- liftW now;
  mutate (markAsCompleted filePath fileSize downloadUrl t t) ;;
  persist ;;
  progress "completed" 90 ;;
  (match job.(emailTo) with
   | Some recipient => if String.eqb recipient "" then ret tt else sendEmail recipient
   | None => ret tt
   end) ;;
  progress "done" 100 ;;
  publishEvent.

(** The [catch] block. *)
Definition failReport (e : exn) : ST (Report * World) unit :=
  do t <- liftW now;
  mutate (markAsFailed (message e) t) ;;
  persist ;;
  throw e.

Definition processReport (job : ReportJobData) : ST World unit :=
  do found <- MongoReportRepository.findById job.(reportId);
  match found with
  | None => throw (Error ("Reporte " ++ job.(reportId) ++ " no encontrado"))
  | Some report => withReport report (tryCatch (render job) failReport)
  end.

(** The calls between the first [update] and [markAsCompleted], none of
    which touches the report: they yield the size of the file produced. *)
Definition produce (job : ReportJobData) : result Z :=
  rbind (updateProgress "processing" 10) (fun _ =>
  rbind (updateProgress "generating" 30) (fun _ =>
  rbind (generateFile job (filePathOf job)) (fun _ =>
  rbind (updateProgress "uploading" 80) (fun _ =>
  statSize (filePathOf job))))).

(** The notifications after the completed report has been written. *)
Definition announce : result unit :=
  rbind (updateProgress "completed" 90) (fun _ => updateProgress "done" 100).

End Worker.

End ReportWorker.


(** ** Anomaly detection: windows, and the request handler *)

(** [array.slice(start, stop)] for indices within the array. *)
Definition slice {A : Type} (start stop : nat) (l : list A) : list A :=
  firstn (stop - start) (skipn start l).

Module AnomalyDetectionTimeSeries.

Import SimpleStatistics AnomalyDetectionService.
Local Open Scope float_scope.

(** The score of one point against the window around it.  The window size
    is a non-negative integer; [Math.max(0, index - windowSize)] is the
    truncated subtraction. *)
Definition scoreInWindow (data : list float) (windowSize : nat) (thr : float)
    (vi : float * nat) : result AnomalyPoint :=
  let '(value, index) := vi in
  let start := (index - windowSize)%nat in
  let stop := Nat.min (length data) (index + windowSize + 1) in
  let window := slice start stop data in
  rbind (mean window) (fun windowMean =>
  rbind (standardDeviation window) (fun windowStdDev =>
    let zScore := PrimFloat.abs ((value - windowMean) / windowStdDev) in
    Ok (mkAnomalyPoint index value zScore (thr <? zScore)))).

Definition detectTimeSeriesAnomalies (data : list float) (windowSize : nat)
    (thr : float) : result AnomalyResult :=
  if Nat.ltb (length data) windowSize then detectWithZScore data thr
  else
    rbind (rmapM (scoreInWindow data windowSize thr)
             (combine data (seq 0 (length data))))
      (fun points => Ok (summarize points thr "time_series_zscore" (length data))).

End AnomalyDetectionTimeSeries.

(** ** Anomaly request handler (application/use-cases/DetectAnomalies) *)

Module DetectAnomaliesUseCase.

Local Open Scope float_scope.

Record AnomalyDTO := mkAnomalyDTO {
  data : option (list float);
  threshold : option float;
  method : option string
}.

Section UseCase.

(** [parseFloat(process.env.ANOMALY_THRESHOLD || '2.5')] *)
Variable envThreshold : float.
(** The injected [IAnomalyDetectionService]. *)
Variable detectAnomalies :
  list float -> float -> string -> result AnomalyDetectionService.AnomalyResult.

(** [dto.threshold || env]: zero and NaN are falsy. *)
Definition thresholdOrDefault (t : option float) : float :=
  match t with
  | Some x => if PrimFloat.eqb x 0 || isNaN x then envThreshold else x
  | None => envThreshold
  end.

(** [dto.method || 'zscore'] *)
Definition methodOrDefault (m : option string) : string :=
  match m with
  | Some s => if String.eqb s "" then "zscore" else s
  | None => "zscore"
  end.

Definition execute (dto : AnomalyDTO) : result AnomalyDetectionService.AnomalyResult :=
  match dto.(data) with
  | None =>
      Throw (Error "Se requieren al menos 10 puntos de datos para detectar anomalías")
  | Some values =>
      if Nat.ltb (length values) 10 then
        Throw (Error "Se requieren al menos 10 puntos de datos para detectar anomalías")
      else if negb (forallb (fun v => negb (isNaN v)) values) then
        Throw (Error "Todos los valores deben ser números válidos")
      else
        detectAnomalies values (thresholdOrDefault dto.(threshold))
          (methodOrDefault dto.(method))
  end.

End UseCase.

End DetectAnomaliesUseCase.


(** ** Forecasting: number of values, confidence, seasonal variant *)

Module ForecastingSeasonal.

Import SimpleStatistics ForecastingService.
Local Open Scope float_scope.

Record Decomposition := mkDecomposition {
  trendComponent : list float;
  seasonal : list float;
  residual : list float
}.

(** [array.filter((_, index) => keep(index))] *)
Fixpoint filterIndexFrom {A : Type} (keep : nat -> bool) (i : nat) (l : list A) : list A :=
  match l with
  | [] => []
  | a :: l' =>
      if keep i then a :: filterIndexFrom keep (S i) l'
      else filterIndexFrom keep (S i) l'
  end.

(** [seasonal[index % seasonalPeriod]]: the remainder by zero is NaN, and
    an array read at NaN is [undefined], which arithmetic turns into NaN. *)
Definition seasonalAt (seasonal : list float) (seasonalPeriod index : nat) : float :=
  match seasonalPeriod with
  | O => nan
  | _ => nth (index mod seasonalPeriod) seasonal nan
  end.

(** The seasonal period is a non-negative integer. *)
Definition decomposeTimeSeries (data : list float) (seasonalPeriod : nat)
    : result Decomposition :=
  let half := (seasonalPeriod / 2)%nat in
  rbind (rmapM (fun i =>
                  let start := (i - half)%nat in
                  let stop := Nat.min (length data) (i + half + 1) in
                  mean (slice start stop data))
           (seq 0 (length data))) (fun trend =>
  let detrended := mapIndex (fun value index => value - nth index trend nan) data in
  rbind (rmapM (fun i =>
                  mean (filterIndexFrom
                          (fun index => Nat.eqb (index mod seasonalPeriod) i) 0 detrended))
           (seq 0 seasonalPeriod)) (fun seasonal =>
  let residual :=
    mapIndex (fun value index =>
                value - nth index trend nan - seasonalAt seasonal seasonalPeriod index)
      data in
  Ok (mkDecomposition trend seasonal residual))).

Definition forecastWithSeasonality (data : list float) (periods seasonalPeriod : nat)
    : result ForecastResult :=
  if Nat.ltb (length data) (seasonalPeriod * 2) then
    simpleLinearForecast data periods 0.95
  else
    rbind (decomposeTimeSeries data seasonalPeriod) (fun parts =>
    rbind (forecast parts.(trendComponent) periods 0.95) (fun trendForecast =>
      let forecasts :=
        List.map (fun i =>
                    fmax 0 (nth i trendForecast.(forecasts) nan
                            + seasonalAt parts.(seasonal) seasonalPeriod (length data + i)))
          (seq 0 periods) in
      Ok (mkForecastResult forecasts (trendForecast.(confidence) * 0.9)
            "seasonal_decomposition" trendForecast.(trend) trendForecast.(mape)))).

End ForecastingSeasonal.


(** ** KPI suggestions (application/use-cases/SuggestKPIs and
    infrastructure/ml/KPISuggestionService) *)

Record KPISuggestionRequestDTO := mkKPISuggestionRequestDTO {
  kpiDataSource : string;
  businessContext : option string;
  existingKPIs : option (list string);
  maxSuggestions : option Z
}.

(** [request.maxSuggestions || 5]: zero is falsy. *)
Definition maxSuggestionsOrDefault (request : KPISuggestionRequestDTO) : Z :=
  match request.(maxSuggestions) with
  | Some n => if (n =? 0)%Z then 5 else n
  | None => 5
  end.

(** [array.slice(0, n)] for an integer [n]: a negative [n] counts from the
    end. *)
Definition sliceTo {A : Type} (n : Z) (l : list A) : list A :=
  if (n <? 0)%Z then firstn (Z.to_nat (Z.of_nat (length l) + n)) l
  else firstn (Z.to_nat n) l.

(** [Array.prototype.sort] with a comparator: a stable sort. *)
Fixpoint insertBy {A : Type} (cmp : A -> A -> Z) (x : A) (l : list A) : list A :=
  match l with
  | [] => [x]
  | y :: l' => if (cmp x y <=? 0)%Z then x :: l else y :: insertBy cmp x l'
  end.

Definition sortBy {A : Type} (cmp : A -> A -> Z) (l : list A) : list A :=
  fold_right (insertBy cmp) [] l.

Module SuggestKPIsUseCase.

Import Report.
Local Open Scope st_scope.

Definition importanceOrder (i : Importance) : Z :=
  match i with high => 0 | medium => 1 | low => 2 end.

(** [!dto.existingKPIs?.includes(kpi.name)] *)
Definition isNewName (dto : KPISuggestionRequestDTO) (kpi : KPISuggestion) : bool :=
  match dto.(existingKPIs) with
  | Some names => negb (existsb (String.eqb kpi.(kname)) names)
  | None => true
  end.

Section UseCase.

(** The state of the injected [IKPISuggestionService] and its one method. *)
Variable S : Type.
Variable suggestKPIs : KPISuggestionRequestDTO -> ST S (list KPISuggestion).

Definition execute (dto : KPISuggestionRequestDTO) : ST S (list KPISuggestion) :=
  if String.eqb dto.(kpiDataSource) "" || isBlank dto.(kpiDataSource) then
    throw (Error "El data source es requerido")
  else
    do suggestions <- suggestKPIs dto;
    let filteredSuggestions :=
      sortBy (fun a b => importanceOrder a.(kimportance) - importanceOrder b.(kimportance))%Z
        (List.filter (isNewName dto) suggestions) in
    ret (sliceTo (maxSuggestionsOrDefault dto) filteredSuggestions).

End UseCase.

End SuggestKPIsUseCase.

Module KPISuggestionService.

Import Report.

(** The service's cache and the clock it reads. *)
Record Service := mkService {
  cache : gmap string (list KPISuggestion * Z);
  time : Z
}.

Definition CACHE_TTL : Z := 24 * 60 * 60 * 1000.

(** [`${request.dataSource}-${request.businessContext || 'default'}`] *)
Definition getCacheKey (request : KPISuggestionRequestDTO) : string :=
  request.(kpiDataSource) ++ "-"
  ++ match request.(businessContext) with
     | Some c => if String.eqb c "" then "default" else c
     | None => "default"
     end.

Definition fallbackKPIs : list KPISuggestion :=
  [mkKPISuggestion "Revenue Growth Rate"
     "Tasa de crecimiento de ingresos período a período"
     "((Ingresos Período Actual - Ingresos Período Anterior) / Ingresos Período Anterior) * 100"
     high "financiero" vline None None;
   mkKPISuggestion "Average Transaction Value"
     "Valor promedio de cada transacción"
     "SUM(valor_transacciones) / COUNT(transacciones)"
     high "ventas" vgauge None None;
   mkKPISuggestion "Conversion Rate"
     "Porcentaje de conversión de leads a clientes"
     "(COUNT(clientes_nuevos) / COUNT(leads)) * 100"
     high "marketing" vgauge None None;
   mkKPISuggestion "Customer Retention Rate"
     "Porcentaje de clientes que continúan comprando"
     "((Clientes_Fin - Clientes_Nuevos) / Clientes_Inicio) * 100"
     high "servicio_cliente" vtrend None None;
   mkKPISuggestion "Operational Efficiency"
     "Ratio de productividad operacional"
     "Output / Input"
     medium "operacional" vbar None None].

Definition getFallbackKPIs (request : KPISuggestionRequestDTO) : list KPISuggestion :=
  sliceTo (maxSuggestionsOrDefault request) fallbackKPIs.

Section Provider.

(** The [try] block of [generateKPIsWithAI]: the completion request sent to
    the model at some instant, and the parsing of its answer; any part of
    it may throw. *)
Variable askModel : Z -> KPISuggestionRequestDTO -> result (list KPISuggestion).

Definition generateKPIsWithAI (request : KPISuggestionRequestDTO) (t : Z)
    : list KPISuggestion :=
  match askModel t request with
  | Ok kpis => kpis
  | Throw _ => getFallbackKPIs request
  end.

Definition suggestKPIs (request : KPISuggestionRequestDTO)
    : ST Service (list KPISuggestion) :=
  fun s =>
    let cacheKey := getCacheKey request in
    let refresh :=
      let kpis := generateKPIsWithAI request s.(time) in
      (Ok kpis, mkService (<[cacheKey := (kpis, s.(time))]> s.(cache)) s.(time)) in
    match s.(cache) !! cacheKey with
    | Some (kpis, timestamp) =>
        if (s.(time) - timestamp <? CACHE_TTL)%Z then (Ok kpis, s) else refresh
    | None => refresh
    end.

End Provider.

(** The request is not answered from the cache: no entry under its key, or
    one that is 24 hours old or more. *)
Definition missesCache (request : KPISuggestionRequestDTO) (s : Service) : Prop :=
  match s.(cache) !! getCacheKey request with
  | Some (_, timestamp) => (CACHE_TTL <= s.(time) - timestamp)%Z
  | None => True
  end.

Definition clearCache : ST Service unit :=
  fun s => (Ok tt, mkService ∅ s.(time)).

(** The service at a later instant. *)
Definition later (t : Z) (s : Service) : Service := mkService s.(cache) t.

End KPISuggestionService.


(** ** Grouping suggestions by category (domain/services/ReportDomainService) *)

Module KPICategories.

Import Report.

(** The property names every object literal inherits from
    [Object.prototype]: read on an empty accumulator, they yield a function
    or an object, not [undefined]. *)
Definition inheritedProperty (key : string) : bool :=
  existsb (String.eqb key)
    ["constructor"; "__proto__"; "hasOwnProperty"; "isPrototypeOf";
     "propertyIsEnumerable"; "toLocaleString"; "toString"; "valueOf";
     "__defineGetter__"; "__defineSetter__"; "__lookupGetter__"; "__lookupSetter__"].

(** One step of the [reduce]: the accumulator's own properties are a finite
    map from category to the suggestions pushed so far. *)
Definition categorizeStep (acc : gmap string (list KPISuggestion)) (kpi : KPISuggestion)
    : result (gmap string (list KPISuggestion)) :=
  match acc !! kpi.(kcategory) with
  | Some group => Ok (<[kpi.(kcategory) := (group ++ [kpi])%list]> acc)
  | None =>
      if inheritedProperty kpi.(kcategory) then
        Throw (Error "acc[kpi.category].push is not a function")
      else Ok (<[kpi.(kcategory) := [kpi]]> acc)
  end.

Fixpoint reduceFrom (acc : gmap string (list KPISuggestion)) (kpis : list KPISuggestion)
    : result (gmap string (list KPISuggestion)) :=
  match kpis with
  | [] => Ok acc
  | kpi :: rest => rbind (categorizeStep acc kpi) (fun acc' => reduceFrom acc' rest)
  end.

Definition categorizeKPIs (kpis : list KPISuggestion)
    : result (gmap string (list KPISuggestion)) :=
  reduceFrom ∅ kpis.

(** The suggestions of one category, in input order. *)
Definition inCategory (c : string) (kpis : list KPISuggestion) : list KPISuggestion :=
  List.filter (fun k => String.eqb k.(kcategory) c) kpis.

End KPICategories.

(** * Properties *)

(** ** Report lifecycle *)

Definition sampleMetadata : Report.ReportMetadata :=
  Report.mkReportMetadata "Ventas" None None None None None None None
    None None None None None.

Definition sampleReport : Report.Report :=
  Report.mkReport "rep-1" "user-1" Report.SALES Report.PDF sampleMetadata
    Report.PENDING None None None None 1000 None None None 0 true None.

Section Lifecycle.

Import Report.

(** The property as the specification words it: on a terminal report a
    transition call changes nothing (no transition of the entity raises,
    every call returns). *)
Definition terminalIsFinal (r : Report) (c : call) : Prop :=
  isTerminal r.(status) = true -> isTransition c = true -> perform c r = r.

(** The invariant, as the specification states it of every sequence of calls
    from creation. *)
Definition invariantAfter (r : Report) (cs : list call) : Prop :=
  isNew r = true -> artifactErrorInvariant (performAll cs r) = true.

Lemma perform_status c r :
  status (perform c r) = match target c with Some s => s | None => status r end.
Proof. destruct c; reflexivity. Qed.

(** What holds of a report after any sequence of calls that leaves
    terminal reports alone: the status tells which fields are set. *)
Definition wellFormed (r : Report) : bool :=
  match r.(status) with
  | COMPLETED => negb (hasError r)
  | FAILED => negb (hasArtifact r)
  | _ => negb (hasArtifact r) && negb (hasError r)
  end.

Lemma wellFormed_invariant r : wellFormed r = true -> artifactErrorInvariant r = true.
Proof.
  unfold wellFormed, artifactErrorInvariant.
  destruct (status r), (hasArtifact r), (hasError r); simpl; congruence.
Qed.

Lemma isNew_wellFormed r : isNew r = true -> wellFormed r = true.
Proof.
  unfold isNew, wellFormed.
  destruct (status r), (hasArtifact r), (hasError r); simpl; congruence.
Qed.

Lemma perform_wellFormed c r :
  wellFormed r = true ->
  negb (isTransition c && isTerminal r.(status)) = true ->
  wellFormed (perform c r) = true.
Proof.
  intros Hwf Hok.
  destruct c; unfold wellFormed, hasArtifact, hasError in *; simpl in *;
    destruct (status r), (filePath r), (fileSize r), (downloadUrl r), (error r);
    simpl in *; congruence.
Qed.

Lemma performAll_wellFormed cs : forall r,
  wellFormed r = true ->
  respectsTerminal cs r = true ->
  wellFormed (performAll cs r) = true.
Proof.
  induction cs as [|c cs IH]; intros r Hwf Hok; simpl in *.
  - exact Hwf.
  - apply andb_prop in Hok as [Hc Hrest].
    apply IH; [apply perform_wellFormed; assumption | exact Hrest].
Qed.

End Lifecycle.

(** C1, as stated, fails: [markAsCompleted] called on a report that
    [markAsFailed] made terminal is accepted and rewrites the status. *)
Lemma C1_terminal_state_is_overwritten :
  ~ terminalIsFinal
      (Report.markAsFailed "render failed" 2000 sampleReport)
      (Report.CallCompleted "/tmp/rep-1.pdf" 10 "http://host/rep-1" 3000 3000).
Proof.
  unfold terminalIsFinal. intros H.
  specialize (H eq_refl eq_refl).
  apply (f_equal Report.status) in H. discriminate H.
Qed.

(** C1 (amended): the entity's transitions carry no guard.  On every report,
    terminal or not, each transition call returns and writes its own target
    state over the current one; [markAsCompleted] after [markAsFailed] is
    accepted, yields [COMPLETED] and keeps the error recorded by the
    failure. *)
Theorem C1_transitions_overwrite_status : forall r : Report.Report,
  Report.status (Report.markAsProcessing r) = Report.PROCESSING
  /\ Report.status (Report.markAsAnalyzing r) = Report.ANALYZING
  /\ (forall path size url t t',
        Report.status (Report.markAsCompleted path size url t t' r) = Report.COMPLETED)
  /\ (forall err t, Report.status (Report.markAsFailed err t r) = Report.FAILED)
  /\ (forall err t path size url t' t'',
        let r' := Report.markAsCompleted path size url t' t'' (Report.markAsFailed err t r) in
        Report.status r' = Report.COMPLETED /\ Report.error r' = Some err).
Proof.
  intros r. repeat split.
Qed.

(** C2, as stated, fails: after [markAsFailed] then [markAsCompleted] the
    report carries both an artifact and an error. *)
Lemma C2_artifact_and_error_together :
  ~ invariantAfter sampleReport
      [Report.CallFailed "render failed" 2000;
       Report.CallCompleted "/tmp/rep-1.pdf" 10 "http://host/rep-1" 3000 3000].
Proof.
  unfold invariantAfter. intros H. specialize (H eq_refl). discriminate H.
Qed.

(** C2 (amended): for every report reachable from creation by a sequence of
    lifecycle calls in which no transition is called on a report that is
    already [COMPLETED] or [FAILED], artifact and error are never both
    present, and both are absent while the status is non-terminal. *)
Theorem C2_invariant_when_terminal_respected :
  forall (r : Report.Report) (cs : list Report.call),
    Report.isNew r = true ->
    Report.respectsTerminal cs r = true ->
    Report.artifactErrorInvariant (Report.performAll cs r) = true.
Proof.
  intros r cs Hnew Hok.
  apply wellFormed_invariant, performAll_wellFormed; [|exact Hok].
  apply isNew_wellFormed, Hnew.
Qed.

Lemma C2_invariant_witness :
  Report.artifactErrorInvariant
    (Report.performAll
       [Report.CallProcessing; Report.CallAnalyzing;
        Report.CallSetDataQuality (Report.mkDataQualityMetrics 50 50 50 0 2 0);
        Report.CallCompleted "/tmp/rep-1.pdf" 10 "http://host/rep-1" 3000 3000]
       sampleReport) = true.
Proof.
  apply C2_invariant_when_terminal_respected; reflexivity.
Defined.

(** ** Submission and the render queue *)

Definition sampleConfig : Config := mkConfig 100000 1000000 100 3 true true true.

Definition rowLimitText (n : nat) (f : Report.ReportFormat) (m : Z) : string :=
  "El número de registros excede el límite".

Definition sampleDTO : GenerateReportUseCase.GenerateReportDTO :=
  GenerateReportUseCase.mkGenerateReportDTO "user-1" Report.SALES Report.PDF
    "Ventas" None [[("producto", VStr "A"); ("ventas", VNum 1500)]]
    None None None None None None.

(** A connected store with no documents, a render queue whose connection is
    down, a working analysis queue. *)
Definition renderQueueDown : World :=
  mkWorld (Some ∅) (mkQueue false []) (mkQueue true []) 1000.

Section Submission.

Import Report GenerateReportUseCase.

(** The property as the specification words it: when the render queue
    refuses the job, the call fails and no [PENDING] report of the
    submission is left in the store. *)
Definition noPendingLeftBehind (cfg : Config) (freshId : string)
    (msg : nat -> ReportFormat -> Z -> string) (dto : GenerateReportDTO)
    (w : World) : Prop :=
  w.(reportQueue).(connected) = false ->
  (exists e, fst (execute cfg freshId msg dto w) = Throw e)
  /\ forall r,
       MongoReportRepository.stored (snd (execute cfg freshId msg dto w)) freshId = Some r ->
       r.(status) <> PENDING.

(** The entity the use case builds for a submission. *)
Definition submitted (freshId : string) (dto : GenerateReportDTO) (t : Z) : Report :=
  mkReport freshId dto.(dtoUserId) dto.(dtoType) dto.(dtoFormat)
    (mkReportMetadata dto.(dtoTitle) dto.(dtoDescription) None None None
       dto.(dtoFilters) dto.(dtoColumns) dto.(dtoChartConfig)
       None None None dto.(dtoDataSource) (Some (length dto.(dtoData))))
    PENDING None None None None t None None dto.(dtoEmailTo) 0
    (match dto.(dtoAiAnalysisEnabled) with Some b => b | None => true end)
    None.

End Submission.

(** The run of [execute] up to a failing enqueue. *)
Lemma execute_render_queue_down
    (cfg : Config) (freshId : string)
    (msg : nat -> Report.ReportFormat -> Z -> string)
    (dto : GenerateReportUseCase.GenerateReportDTO) (w : World)
    (docs : gmap string Report.Report) :
  (Z.of_nat (length dto.(GenerateReportUseCase.dtoData))
     <= ReportDomainService.getMaxRows cfg dto.(GenerateReportUseCase.dtoFormat))%Z ->
  ReportDomainService.validateReport (submitted freshId dto w.(clock)) = Ok tt ->
  w.(collection) = Some docs ->
  docs !! freshId = None ->
  w.(reportQueue).(connected) = false ->
  GenerateReportUseCase.execute cfg freshId msg dto w
  = (Throw (Error "Connection is closed."),
     setCollection (Some (<[freshId := submitted freshId dto w.(clock)]> docs)) w).
Proof.
  intros Hsize Hvalid Hdocs Hfresh Hdown.
  unfold GenerateReportUseCase.execute.
  destruct (Z.ltb_spec (ReportDomainService.getMaxRows cfg
              (GenerateReportUseCase.dtoFormat dto))
              (Z.of_nat (length (GenerateReportUseCase.dtoData dto)))) as [Hlt|_];
    [lia|].
  unfold bind at 1. unfold now at 1. cbn iota beta.
  fold (submitted freshId dto (clock w)).
  unfold bind at 1. unfold liftResult at 1. rewrite Hvalid.
  unfold bind at 1. unfold MongoReportRepository.save at 1.
  rewrite Hdocs. change (Report.id (submitted freshId dto (clock w))) with freshId.
  rewrite Hfresh.
  unfold bind at 1. unfold addToReportQueue at 1, queueAdd.
  cbn [reportQueue setCollection]. rewrite Hdown.
  destruct w; reflexivity.
Qed.

(** C3, as stated, fails: with the render queue down the submission throws,
    and the report saved just before stays in the store as [PENDING]. *)
Lemma C3_pending_report_left_behind :
  ~ noPendingLeftBehind sampleConfig "rep-1" rowLimitText sampleDTO renderQueueDown.
Proof.
  unfold noPendingLeftBehind. intros H.
  destruct (H eq_refl) as [_ Hnone].
  eapply Hnone; [vm_compute; reflexivity | reflexivity].
Qed.

(** C3 (amended): for every submission that passes the size check and the
    validation and whose report is saved, if enqueueing the render job
    fails, the queue's error surfaces synchronously to the caller, nothing
    is enqueued, and the report saved before the enqueue stays persisted in
    [PENDING] state (the use case has no compensation step). *)
Theorem C3_enqueue_failure_surfaces_and_report_stays :
  forall (cfg : Config) (freshId : string)
         (msg : nat -> Report.ReportFormat -> Z -> string)
         (dto : GenerateReportUseCase.GenerateReportDTO) (w : World)
         (docs : gmap string Report.Report),
    (Z.of_nat (length dto.(GenerateReportUseCase.dtoData))
       <= ReportDomainService.getMaxRows cfg dto.(GenerateReportUseCase.dtoFormat))%Z ->
    ReportDomainService.validateReport (submitted freshId dto w.(clock)) = Ok tt ->
    w.(collection) = Some docs ->
    docs !! freshId = None ->
    w.(reportQueue).(connected) = false ->
    let out := GenerateReportUseCase.execute cfg freshId msg dto w in
    fst out = Throw (Error "Connection is closed.")
    /\ MongoReportRepository.stored (snd out) freshId
         = Some (submitted freshId dto w.(clock))
    /\ Report.status (submitted freshId dto w.(clock)) = Report.PENDING
    /\ (snd out).(reportQueue) = w.(reportQueue)
    /\ (snd out).(mlQueue) = w.(mlQueue).
Proof.
  intros cfg freshId msg dto w docs Hsize Hvalid Hdocs Hfresh Hdown out.
  subst out.
  rewrite (execute_render_queue_down cfg freshId msg dto w docs) by assumption.
  unfold MongoReportRepository.stored. cbn [fst snd setCollection collection reportQueue mlQueue].
  rewrite lookup_insert_eq. repeat split.
Qed.

Lemma C3_enqueue_failure_witness :
  let out :=
    GenerateReportUseCase.execute sampleConfig "rep-1" rowLimitText sampleDTO
      renderQueueDown in
  fst out = Throw (Error "Connection is closed.")
  /\ MongoReportRepository.stored (snd out) "rep-1"
       = Some (submitted "rep-1" sampleDTO 1000)
  /\ Report.status (submitted "rep-1" sampleDTO 1000) = Report.PENDING
  /\ (snd out).(reportQueue) = renderQueueDown.(reportQueue)
  /\ (snd out).(mlQueue) = renderQueueDown.(mlQueue).
Proof.
  apply (C3_enqueue_failure_surfaces_and_report_stays
           sampleConfig "rep-1" rowLimitText sampleDTO renderQueueDown ∅).
  - vm_compute. discriminate.
  - reflexivity.
  - reflexivity.
  - reflexivity.
  - reflexivity.
Defined.

(** ** Synchronous analysis *)

(** The run of [AnalyzeDataUseCase.execute] when the ML service throws. *)
Lemma analyze_execute_service_throws
    (analyzeData :
       list row -> AnalyzeDataUseCase.AnalyzeDataDTO ->
       result AnalyzeDataUseCase.AnalysisResult)
    (dto : AnalyzeDataUseCase.AnalyzeDataDTO) (w : World)
    (docs : gmap string Report.Report) (report : Report.Report) (e : exn) :
  w.(collection) = Some docs ->
  docs !! dto.(AnalyzeDataUseCase.reportId) = Some report ->
  report.(Report.id) = dto.(AnalyzeDataUseCase.reportId) ->
  report.(Report.aiAnalysisEnabled) = true ->
  analyzeData dto.(AnalyzeDataUseCase.data) dto = Throw e ->
  AnalyzeDataUseCase.execute analyzeData dto w
  = (Throw e,
     setCollection
       (Some (<[dto.(AnalyzeDataUseCase.reportId) :=
                  Report.markAsFailed ("Error en análisis de IA: " ++ message e)
                    w.(clock) (Report.markAsAnalyzing report)]> docs)) w).
Proof.
  intros Hdocs Hfound Hid Hai Hthrow.
  unfold AnalyzeDataUseCase.execute, bind at 1 2, now at 1,
    MongoReportRepository.findById.
  rewrite Hdocs, Hfound, Hai. cbn [negb].
  unfold withReport, bind, mutate, persist, tryCatch,
    AnalyzeDataUseCase.analyzeAndStore, AnalyzeDataUseCase.failReport,
    bind, liftResult, liftW, now, mutate, persist, throw,
    MongoReportRepository.update.
  cbn [fst snd collection setCollection clock].
  rewrite Hdocs.
  change (Report.id (Report.markAsAnalyzing report)) with (Report.id report).
  rewrite Hid, Hfound. cbn [fst snd collection setCollection clock].
  rewrite Hthrow. cbn [fst snd collection setCollection clock].
  change (Report.id (Report.markAsFailed ?m ?t (Report.markAsAnalyzing report)))
    with (Report.id report).
  rewrite Hid, lookup_insert_eq. cbn [fst snd setCollection collection
    reportQueue mlQueue clock].
  rewrite insert_insert_eq. reflexivity.
Qed.

(** C10: on the synchronous analyze-data path, when the report exists with
    AI analysis enabled and the ML service throws, the error is rethrown to
    the caller and the stored report is [FAILED], its error field holding
    the analysis error's message behind the prefix
    ["Error en análisis de IA: "]. *)
Theorem C10_sync_analysis_failure_is_fatal :
  forall (analyzeData :
            list row -> AnalyzeDataUseCase.AnalyzeDataDTO ->
            result AnalyzeDataUseCase.AnalysisResult)
         (dto : AnalyzeDataUseCase.AnalyzeDataDTO) (w : World)
         (docs : gmap string Report.Report) (report : Report.Report) (e : exn),
    w.(collection) = Some docs ->
    docs !! dto.(AnalyzeDataUseCase.reportId) = Some report ->
    report.(Report.id) = dto.(AnalyzeDataUseCase.reportId) ->
    report.(Report.aiAnalysisEnabled) = true ->
    analyzeData dto.(AnalyzeDataUseCase.data) dto = Throw e ->
    let out := AnalyzeDataUseCase.execute analyzeData dto w in
    fst out = Throw e
    /\ exists failed,
         MongoReportRepository.stored (snd out) dto.(AnalyzeDataUseCase.reportId)
           = Some failed
         /\ failed.(Report.status) = Report.FAILED
         /\ failed.(Report.error) = Some ("Error en análisis de IA: " ++ message e).
Proof.
  intros analyzeData dto w docs report e Hdocs Hfound Hid Hai Hthrow out.
  subst out.
  rewrite (analyze_execute_service_throws analyzeData dto w docs report e)
    by assumption.
  split; [reflexivity|].
  eexists. unfold MongoReportRepository.stored.
  cbn [fst snd setCollection collection]. rewrite lookup_insert_eq.
  repeat split.
Qed.

Definition storedSample : World :=
  mkWorld (Some (<["rep-1" := sampleReport]> ∅)) (mkQueue true []) (mkQueue true []) 5000.

Definition analyzeSample : AnalyzeDataUseCase.AnalyzeDataDTO :=
  AnalyzeDataUseCase.mkAnalyzeDataDTO "rep-1"
    [[("producto", VStr "A"); ("ventas", VNum 1500)]] None None None.

Lemma C10_sync_analysis_failure_witness :
  let out :=
    AnalyzeDataUseCase.execute (fun _ _ => Throw (Error "modelo no disponible"))
      analyzeSample storedSample in
  fst out = Throw (Error "modelo no disponible")
  /\ exists failed,
       MongoReportRepository.stored (snd out) "rep-1" = Some failed
       /\ failed.(Report.status) = Report.FAILED
       /\ failed.(Report.error)
          = Some ("Error en análisis de IA: " ++ "modelo no disponible").
Proof.
  apply (C10_sync_analysis_failure_is_fatal
           (fun _ _ => Throw (Error "modelo no disponible"))
           analyzeSample storedSample (<["rep-1" := sampleReport]> ∅)
           sampleReport (Error "modelo no disponible")).
  - reflexivity.
  - vm_compute. reflexivity.
  - reflexivity.
  - reflexivity.
  - reflexivity.
Defined.

(** ** The analysis worker *)

Section WorkerProperties.

Import Report MLAnalysisWorker.

(** The fields of the report that insight collection leaves alone. *)
Definition keepsLifecycle (r r' : Report) : Prop :=
  r'.(id) = r.(id) /\ r'.(status) = r.(status) /\ r'.(error) = r.(error)
  /\ r'.(filePath) = r.(filePath) /\ r'.(fileSize) = r.(fileSize)
  /\ r'.(downloadUrl) = r.(downloadUrl)
  /\ r'.(metadata).(aiInsights) = r.(metadata).(aiInsights).

Lemma keepsLifecycle_refl r : keepsLifecycle r r.
Proof. repeat split. Qed.

Lemma keepsLifecycle_trans r1 r2 r3 :
  keepsLifecycle r1 r2 -> keepsLifecycle r2 r3 -> keepsLifecycle r1 r3.
Proof. unfold keepsLifecycle. intuition congruence. Qed.

(** A computation on the report that only touches analysis metadata. *)
Definition quiet {A : Type} (m : ST Report A) : Prop :=
  forall r, keepsLifecycle r (snd (m r)).

Lemma quiet_ret {A} (a : A) : quiet (ret a).
Proof. intros r. apply keepsLifecycle_refl. Qed.

Lemma quiet_liftResult {A} (x : result A) : quiet (liftResult x).
Proof. intros r. apply keepsLifecycle_refl. Qed.

Lemma quiet_get : quiet (@get Report).
Proof. intros r. apply keepsLifecycle_refl. Qed.

Lemma quiet_modify (f : Report -> Report) :
  (forall r, keepsLifecycle r (f r)) -> quiet (modify f).
Proof. intros Hf r. apply Hf. Qed.

Lemma quiet_bind {A B} (m : ST Report A) (k : A -> ST Report B) :
  quiet m -> (forall a, quiet (k a)) -> quiet (bind m k).
Proof.
  intros Hm Hk r. unfold bind. specialize (Hm r).
  destruct (m r) as [[a|e] r1]; simpl in *.
  - eapply keepsLifecycle_trans; [exact Hm | apply Hk].
  - exact Hm.
Qed.

Lemma quiet_tryCatch {A} (m : ST Report A) (h : exn -> ST Report A) :
  quiet m -> (forall e, quiet (h e)) -> quiet (tryCatch m h).
Proof.
  intros Hm Hh r. unfold tryCatch. specialize (Hm r).
  destruct (m r) as [[a|e] r1]; simpl in *.
  - exact Hm.
  - eapply keepsLifecycle_trans; [exact Hm | apply Hh].
Qed.

Lemma quiet_if {A} (b : bool) (m1 m2 : ST Report A) :
  quiet m1 -> quiet m2 -> quiet (if b then m1 else m2).
Proof. destruct b; auto. Qed.

Lemma keeps_setDataQuality q r : keepsLifecycle r (setDataQuality q r).
Proof. repeat split. Qed.

Lemma keeps_addKPISuggestions k r : keepsLifecycle r (addKPISuggestions k r).
Proof. repeat split. Qed.

Variable svc : Services.

Lemma quiet_progress stage percent : quiet (progress svc stage percent).
Proof. apply quiet_liftResult. Qed.

Lemma quiet_kpiStep t : quiet (kpiStep svc t).
Proof.
  unfold kpiStep.
  apply quiet_tryCatch; [|intros; apply quiet_ret].
  apply quiet_bind; [apply quiet_get|intros report].
  apply quiet_bind; [apply quiet_liftResult|intros kpis].
  apply quiet_if; [|apply quiet_ret].
  apply quiet_bind; [|intros; apply quiet_ret].
  apply quiet_modify, keeps_addKPISuggestions.
Qed.

Lemma quiet_collectInsights job t : quiet (collectInsights svc job t).
Proof.
  unfold collectInsights.
  repeat first
    [ apply quiet_progress | apply quiet_kpiStep | apply quiet_ret
    | apply quiet_liftResult | apply quiet_modify, keeps_setDataQuality
    | apply quiet_if | apply quiet_bind | intro ].
Qed.

(** The run of [processAnalysis] when insight collection throws: the
    [catch] block writes the report object as collection left it. *)
Lemma processAnalysis_collect_throws
    (job : MLJobData) (w : World) (docs : gmap string Report)
    (report r' : Report) (e : exn) :
  w.(collection) = Some docs ->
  docs !! job.(reportId) = Some report ->
  report.(id) = job.(reportId) ->
  collectInsights svc job w.(clock) (markAsAnalyzing report) = (Throw e, r') ->
  processAnalysis svc job w
  = (Ok tt, setCollection (Some (<[job.(reportId) := r']> docs)) w).
Proof.
  intros Hdocs Hfound Hid Hthrow.
  assert (Hkeep : r'.(id) = job.(reportId)).
  { pose proof (quiet_collectInsights job w.(clock) (markAsAnalyzing report)) as Hq.
    rewrite Hthrow in Hq. destruct Hq as [Hq _]. simpl in Hq. congruence. }
  unfold processAnalysis, bind at 1, MongoReportRepository.findById.
  rewrite Hdocs, Hfound.
  unfold withReport, tryCatch, analysis, bind at 1, mutate at 1.
  cbn [fst snd].
  unfold bind at 1, persist at 1, MongoReportRepository.update.
  cbn [fst snd]. rewrite Hdocs.
  change (id (markAsAnalyzing report)) with (id report).
  rewrite Hid, Hfound.
  unfold bind at 1, liftW at 1, now at 1.
  cbn [fst snd clock setCollection].
  unfold bind at 1, onReport at 1. cbn [fst snd].
  rewrite Hthrow.
  unfold persist, MongoReportRepository.update.
  cbn [fst snd collection setCollection].
  rewrite Hkeep, lookup_insert_eq.
  cbn [fst snd collection setCollection reportQueue mlQueue clock].
  rewrite insert_insert_eq. reflexivity.
Qed.

(** The property as the specification words it, for a run in which
    [accumulated] are the insights pushed before the failing step: the
    stored report is not [FAILED] and holds each of them. *)
Definition partialInsightsPersisted (job : MLJobData) (w : World)
    (accumulated : list AIInsight) : Prop :=
  exists r,
    MongoReportRepository.stored (snd (processAnalysis svc job w)) job.(reportId)
      = Some r
    /\ r.(status) <> FAILED
    /\ forall i, In i accumulated ->
         exists l, r.(metadata).(aiInsights) = Some l /\ In i l.

End WorkerProperties.

(** A stand-in for [JSON.stringify] that tells apart the rows used below:
    keys and string cells are kept, other cells are abbreviated. *)
Definition sketchRow (r : row) : string :=
  String.concat ","
    (List.map (fun kv =>
       fst kv ++ ":" ++ match snd kv with VStr s => s | VNum _ => "#" | _ => "?" end) r).

(** The worker's own services, with a runtime that accepts every date and
    prints the one percentage the run below formats, a suggestion provider
    with nothing to suggest and a progress channel that works; only the
    forecasting service is replaced, by one that fails. *)
Definition forecastFails : MLAnalysisWorker.Services :=
  let svc :=
    MLAnalysisWorker.productionServices (fun _ => true) sketchRow
      (fun _ _ => "50.0") (fun _ _ _ => Ok []) (fun _ _ => Ok tt) in
  MLAnalysisWorker.mkServices
    svc.(MLAnalysisWorker.qualityAnalyze)
    svc.(MLAnalysisWorker.detectAnomalies)
    (fun _ _ _ => Throw (Error "forecast unavailable"))
    svc.(MLAnalysisWorker.suggestKPIs)
    svc.(MLAnalysisWorker.updateProgress)
    svc.(MLAnalysisWorker.toFixed).

(** Five records, half of the cells empty. *)
Definition halfEmptyRows : list row :=
  [[("producto", VStr "A"); ("ventas", VNum 10); ("nota", VNull); ("zona", VNull)];
   [("producto", VStr "B"); ("ventas", VNum 12); ("nota", VNull); ("zona", VNull)];
   [("producto", VStr "C"); ("ventas", VNum 11); ("nota", VNull); ("zona", VNull)];
   [("producto", VStr "D"); ("ventas", VNum 13); ("nota", VNull); ("zona", VNull)];
   [("producto", VStr "E"); ("ventas", VNum 14); ("nota", VNull); ("zona", VNull)]].

Definition forecastJob : MLAnalysisWorker.MLJobData :=
  MLAnalysisWorker.mkMLJobData "rep-1" halfEmptyRows true true true.

(** C4, as stated, fails: when forecasting throws, the low-completeness
    insight pushed by the quality step is lost; the report is stored with
    no insight at all. *)
Lemma C4_accumulated_insight_lost :
  exists q,
    forecastFails.(MLAnalysisWorker.qualityAnalyze) halfEmptyRows = Ok q
    /\ MLAnalysisWorker.qualityInsights forecastFails q 5000 <> []
    /\ ~ partialInsightsPersisted forecastFails forecastJob storedSample
           (MLAnalysisWorker.qualityInsights forecastFails q 5000).
Proof.
  eexists. split; [vm_compute; reflexivity|]. split; [vm_compute; discriminate|].
  intros (r & Hstored & _ & Hall).
  vm_compute in Hstored. injection Hstored as <-.
  destruct (Hall _ (or_introl eq_refl)) as (l & Hl & _).
  discriminate Hl.
Qed.

(** C4 (amended): if a step of the orchestrator throws before the
    correlation step completes, the worker swallows the error and stores the
    report as it stands in memory: status [ANALYZING] (never [FAILED] on
    account of the analysis error), with the data-quality snapshot and KPI
    suggestions set so far, and with the insight list it was loaded with;
    the insights gathered before the failure are still in the local array
    and are not written. *)
Theorem C4_analysis_failure_keeps_report_analyzing :
  forall (svc : MLAnalysisWorker.Services) (job : MLAnalysisWorker.MLJobData)
         (w : World) (docs : gmap string Report.Report)
         (report r' : Report.Report) (e : exn),
    w.(collection) = Some docs ->
    docs !! job.(MLAnalysisWorker.reportId) = Some report ->
    report.(Report.id) = job.(MLAnalysisWorker.reportId) ->
    MLAnalysisWorker.collectInsights svc job w.(clock) (Report.markAsAnalyzing report)
      = (Throw e, r') ->
    let out := MLAnalysisWorker.processAnalysis svc job w in
    fst out = Ok tt
    /\ MongoReportRepository.stored (snd out) job.(MLAnalysisWorker.reportId) = Some r'
    /\ r'.(Report.status) = Report.ANALYZING
    /\ r'.(Report.error) = report.(Report.error)
    /\ r'.(Report.metadata).(Report.aiInsights)
       = report.(Report.metadata).(Report.aiInsights).
Proof.
  intros svc job w docs report r' e Hdocs Hfound Hid Hthrow out. subst out.
  rewrite (processAnalysis_collect_throws svc job w docs report r' e) by assumption.
  pose proof (quiet_collectInsights svc job w.(clock) (Report.markAsAnalyzing report))
    as Hq.
  rewrite Hthrow in Hq. destruct Hq as (_ & Hst & Herr & _ & _ & _ & Hins).
  simpl in Hst, Herr, Hins.
  unfold MongoReportRepository.stored. cbn [fst snd setCollection collection].
  rewrite lookup_insert_eq. repeat split; assumption.
Qed.

Lemma C4_analysis_failure_witness :
  exists r',
    let out := MLAnalysisWorker.processAnalysis forecastFails forecastJob storedSample in
    fst out = Ok tt
    /\ MongoReportRepository.stored (snd out) "rep-1" = Some r'
    /\ r'.(Report.status) = Report.ANALYZING
    /\ r'.(Report.error) = None
    /\ r'.(Report.metadata).(Report.aiInsights) = None.
Proof.
  eexists.
  apply (C4_analysis_failure_keeps_report_analyzing forecastFails forecastJob
           storedSample (<["rep-1" := sampleReport]> ∅) sampleReport _
           (Error "forecast unavailable")).
  - reflexivity.
  - vm_compute. reflexivity.
  - reflexivity.
  - vm_compute. reflexivity.
Defined.

(** ** Facts about binary64 arithmetic *)

Section FloatFacts.

Local Open Scope float_scope.

(** A number that is neither NaN nor an infinity. *)
Definition finite (c : float) : Prop := PrimFloat.is_finite c = true.

Lemma finite_shape c :
  finite c ->
  (exists s, Prim2SF c = S754_zero s) \/ (exists s m e, Prim2SF c = S754_finite s m e).
Proof.
  unfold finite, PrimFloat.is_finite, is_nan, is_infinity.
  rewrite !FloatAxioms.eqb_spec, FloatAxioms.abs_spec.
  destruct (Prim2SF c) as [s| s | |s m e]; simpl; intros H.
  - left. eauto.
  - destruct s; vm_compute in H; discriminate H.
  - vm_compute in H. discriminate H.
  - right. eauto.
Qed.

Lemma sub_self c : finite c -> c - c = 0.
Proof.
  intros Hc. apply Prim2SF_inj. rewrite FloatAxioms.sub_spec.
  change (Prim2SF 0) with (S754_zero false).
  destruct (finite_shape c Hc) as [[s ->]|(s & m & e & ->)].
  - destruct s; reflexivity.
  - unfold SF64sub, SFsub. rewrite Z.min_id.
    unfold shl_align. rewrite Z.sub_diag. cbn [fst].
    reflexivity.
Qed.

Lemma sub_zero c : c - 0 = c.
Proof.
  apply Prim2SF_inj. rewrite FloatAxioms.sub_spec.
  change (Prim2SF 0) with (S754_zero false).
  destruct (Prim2SF c) as [[|]| [|] | |s m e]; reflexivity.
Qed.

Lemma compare_self x : SFcompare x x = None \/ SFcompare x x = Some Eq.
Proof.
  destruct x as [s|s| |s m e]; simpl; auto.
  - destruct s; auto.
  - rewrite Z.compare_refl, Pos.compare_cont_refl. destruct s; auto.
Qed.

Lemma ltb_self c : (c <? c) = false.
Proof.
  rewrite FloatAxioms.ltb_spec. unfold SFltb.
  destruct (compare_self (Prim2SF c)) as [-> | ->]; reflexivity.
Qed.

Lemma add_zero_not_above c : finite c -> (c + 0 <? c) = false.
Proof.
  intros Hc. rewrite FloatAxioms.ltb_spec, FloatAxioms.add_spec.
  change (Prim2SF 0) with (S754_zero false).
  destruct (finite_shape c Hc) as [[s ->]|(s & m & e & ->)].
  - destruct s; reflexivity.
  - unfold SF64add, SFadd, SFltb.
    destruct (compare_self (S754_finite s m e)) as [-> | ->]; reflexivity.
Qed.

Lemma ltb_nan_r t : (t <? nan) = false.
Proof.
  rewrite FloatAxioms.ltb_spec. change (Prim2SF nan) with S754_nan.
  unfold SFltb. destruct (Prim2SF t); reflexivity.
Qed.

Lemma mul_nan_l x : nan * x = nan.
Proof.
  apply Prim2SF_inj. rewrite FloatAxioms.mul_spec. change (Prim2SF nan) with S754_nan.
  reflexivity.
Qed.

End FloatFacts.

(** ** Anomaly detection *)

Section Anomalies.

Import SimpleStatistics AnomalyDetectionService.
Local Open Scope float_scope.

(** The property as the specification words it: every point scores 0 and
    none is flagged. *)
Definition scoresAllZero (data : list float) (thr : float) (meth : string) : Prop :=
  exists res,
    detectAnomalies data thr meth = Ok res
    /\ Forall (fun p => p.(score) = 0) res.(anomalies)
    /\ res.(anomalyCount) = O.

(** A series whose values all equal [c], on which the kernel computes the
    mean [c], a zero standard deviation and both quartiles [c]. *)
Definition zeroVariance (data : list float) (c : float) : Prop :=
  Forall (fun v => v = c) data
  /\ mean data = Ok c
  /\ standardDeviation data = Ok 0
  /\ quantile data 0.25 = Ok c
  /\ quantile data 0.75 = Ok c.

Lemma Forall_mapIndexFrom {A B : Type} (P : A -> Prop) (Q : B -> Prop)
    (f : A -> nat -> B) (l : list A) :
  (forall a i, P a -> Q (f a i)) ->
  Forall P l -> forall i, Forall Q (mapIndexFrom f i l).
Proof.
  intros Hf Hl. induction Hl as [|a l Ha _ IH]; intros i; simpl.
  - constructor.
  - constructor; [apply Hf, Ha | apply IH].
Qed.

Lemma countAnomalies_none (l : list AnomalyPoint) :
  Forall (fun p => p.(isAnomaly) = false) l -> countAnomalies l = O.
Proof.
  unfold countAnomalies. induction 1 as [|p l Hp _ IH]; simpl.
  - reflexivity.
  - rewrite Hp. exact IH.
Qed.

Lemma Forall_and_l {A : Type} (P Q : A -> Prop) (l : list A) :
  Forall (fun a => P a /\ Q a) l -> Forall P l.
Proof. intros H. eapply List.Forall_impl; [|exact H]. intros a [Ha _]. exact Ha. Qed.

(** Every point of a summary built from unflagged points. *)
Lemma summarize_unflagged (points : list AnomalyPoint) (Q : AnomalyPoint -> Prop)
    (thr : float) (name : string) (n : nat) :
  Forall (fun p => p.(isAnomaly) = false /\ Q p) points ->
  (summarize points thr name n).(anomalyCount) = O
  /\ Forall (fun p => p.(isAnomaly) = false /\ Q p) (summarize points thr name n).(anomalies).
Proof.
  intros H. split; [|exact H].
  simpl. apply countAnomalies_none. eapply Forall_and_l, H.
Qed.

Lemma zscore_zero_variance data c thr :
  finite c -> zeroVariance data c ->
  exists res,
    detectWithZScore data thr = Ok res
    /\ res.(anomalyCount) = O
    /\ Forall (fun p => p.(isAnomaly) = false /\ p.(score) = nan) res.(anomalies).
Proof.
  intros Hc (Hall & Hmean & Hstd & _ & _).
  unfold detectWithZScore. rewrite Hmean, Hstd. cbn [rbind].
  eexists. split; [reflexivity|].
  apply summarize_unflagged. unfold mapIndex.
  eapply Forall_mapIndexFrom; [|exact Hall].
  intros a i ->. cbn [isAnomaly score].
  rewrite (sub_self c Hc). change (PrimFloat.abs (0 / 0)) with nan.
  split; [apply ltb_nan_r | reflexivity].
Qed.

Lemma iqr_zero_variance data c :
  finite c -> zeroVariance data c ->
  exists res,
    detectWithIQR data = Ok res
    /\ res.(anomalyCount) = O
    /\ Forall (fun p => p.(isAnomaly) = false /\ p.(score) = 0) res.(anomalies).
Proof.
  intros Hc (Hall & _ & _ & Hq1 & Hq3).
  unfold detectWithIQR. rewrite Hq1, Hq3. cbn [rbind].
  eexists. split; [reflexivity|].
  apply summarize_unflagged. unfold mapIndex.
  eapply Forall_mapIndexFrom; [|exact Hall].
  intros a i ->. cbn [isAnomaly score].
  rewrite (sub_self c Hc). change (1.5 * 0) with 0.
  rewrite sub_zero, ltb_self, (add_zero_not_above c Hc).
  split; reflexivity.
Qed.

Lemma isolation_zero_variance data c :
  finite c -> zeroVariance data c ->
  exists res,
    detectWithIsolationForest data = Ok res
    /\ res.(anomalyCount) = O
    /\ Forall (fun p => p.(isAnomaly) = false /\ p.(score) = nan) res.(anomalies).
Proof.
  intros Hc (Hall & Hmean & Hstd & _ & _).
  unfold detectWithIsolationForest. rewrite Hmean, Hstd. cbn [rbind].
  eexists. split; [reflexivity|].
  apply summarize_unflagged. unfold mapIndex.
  eapply Forall_mapIndexFrom; [|exact Hall].
  intros a i ->. cbn [isAnomaly score].
  rewrite (sub_self c Hc). change (PrimFloat.abs (0 / 0)) with nan.
  rewrite mul_nan_l. split; [apply ltb_nan_r | reflexivity].
Qed.

End Anomalies.

(** C6, as stated, fails: on the constant series 5, 5, 5 the z-score method
    divides by the zero standard deviation and every point's score is NaN,
    not 0. *)
Lemma C6_zscore_score_is_not_zero :
  ~ scoresAllZero [5; 5; 5]%float 2.5%float "zscore".
Proof.
  intros (res & Hres & Hall & _).
  vm_compute in Hres. injection Hres as <-.
  inversion Hall as [|p l Hp _]; subst.
  apply (f_equal PrimFloat.classify) in Hp. vm_compute in Hp. discriminate Hp.
Qed.

(** C6 (amended): none of the three methods guards against a zero standard
    deviation.  For every series of one finite value [c] on which
    the kernel returns mean [c], standard deviation 0 and quartiles [c]:
    no point is flagged and [anomalyCount] is 0 under every method; the IQR
    method gives every point score 0 without dividing; the z-score and
    isolation methods do divide by the zero deviation and give every point
    the score NaN (0/0). *)
Theorem C6_zero_variance_flags_nothing :
  forall (data : list float) (c thr : float),
    finite c ->
    zeroVariance data c ->
    (exists res,
       AnomalyDetectionService.detectAnomalies data thr "zscore" = Ok res
       /\ res.(AnomalyDetectionService.anomalyCount) = O
       /\ Forall (fun p => p.(AnomalyDetectionService.isAnomaly) = false
                           /\ p.(AnomalyDetectionService.score) = nan)
            res.(AnomalyDetectionService.anomalies))
    /\ (exists res,
          AnomalyDetectionService.detectAnomalies data thr "iqr" = Ok res
          /\ res.(AnomalyDetectionService.anomalyCount) = O
          /\ Forall (fun p => p.(AnomalyDetectionService.isAnomaly) = false
                              /\ p.(AnomalyDetectionService.score) = 0%float)
               res.(AnomalyDetectionService.anomalies))
    /\ (exists res,
          AnomalyDetectionService.detectAnomalies data thr "isolation_forest" = Ok res
          /\ res.(AnomalyDetectionService.anomalyCount) = O
          /\ Forall (fun p => p.(AnomalyDetectionService.isAnomaly) = false
                              /\ p.(AnomalyDetectionService.score) = nan)
               res.(AnomalyDetectionService.anomalies)).
Proof.
  intros data c thr Hc Hz. unfold AnomalyDetectionService.detectAnomalies.
  cbn [String.eqb Ascii.eqb Bool.eqb].
  split; [|split].
  - exact (zscore_zero_variance data c thr Hc Hz).
  - exact (iqr_zero_variance data c Hc Hz).
  - exact (isolation_zero_variance data c Hc Hz).
Qed.

Lemma C6_zero_variance_witness :
  (exists res,
     AnomalyDetectionService.detectAnomalies [5; 5; 5]%float 2.5%float "zscore" = Ok res
     /\ res.(AnomalyDetectionService.anomalyCount) = O
     /\ Forall (fun p => p.(AnomalyDetectionService.isAnomaly) = false
                         /\ p.(AnomalyDetectionService.score) = nan)
          res.(AnomalyDetectionService.anomalies))
  /\ (exists res,
        AnomalyDetectionService.detectAnomalies [5; 5; 5]%float 2.5%float "iqr" = Ok res
        /\ res.(AnomalyDetectionService.anomalyCount) = O
        /\ Forall (fun p => p.(AnomalyDetectionService.isAnomaly) = false
                            /\ p.(AnomalyDetectionService.score) = 0%float)
             res.(AnomalyDetectionService.anomalies))
  /\ (exists res,
        AnomalyDetectionService.detectAnomalies [5; 5; 5]%float 2.5%float
          "isolation_forest" = Ok res
        /\ res.(AnomalyDetectionService.anomalyCount) = O
        /\ Forall (fun p => p.(AnomalyDetectionService.isAnomaly) = false
                            /\ p.(AnomalyDetectionService.score) = nan)
             res.(AnomalyDetectionService.anomalies)).
Proof.
  apply (C6_zero_variance_flags_nothing [5; 5; 5]%float 5%float 2.5%float).
  - reflexivity.
  - unfold zeroVariance. repeat split; try reflexivity.
    repeat constructor.
Defined.

(** The scenario as the specification words it: z-score detection with
    threshold 2.5 flags the point at index 3 and counts one anomaly. *)
Definition flagsTheOutlier (data : list float) : Prop :=
  exists res p,
    AnomalyDetectionService.detectAnomalies data 2.5%float "zscore" = Ok res
    /\ nth_error res.(AnomalyDetectionService.anomalies) 3 = Some p
    /\ p.(AnomalyDetectionService.isAnomaly) = true
    /\ res.(AnomalyDetectionService.anomalyCount) = 1%nat.

(** C7, as stated, fails: on the series 100, 120, 115, 300, 125, 130 the
    z-score method with threshold 2.5 flags nothing. *)
Lemma C7_outlier_not_flagged :
  ~ flagsTheOutlier [100; 120; 115; 300; 125; 130]%float.
Proof.
  intros (res & p & Hres & _ & _ & Hcount).
  vm_compute in Hres. injection Hres as <-. discriminate Hcount.
Qed.

(** C7 (amended): on the series 100, 120, 115, 300, 125, 130 the z-score
    method with threshold 2.5 returns; the point at index 3 (value 300) has
    the largest score, about 2.21, which is below the threshold: it is not
    flagged, and [anomalyCount] is 0. *)
Theorem C7_zscore_on_readme_series :
  exists res p,
    AnomalyDetectionService.detectAnomalies
      [100; 120; 115; 300; 125; 130]%float 2.5%float "zscore" = Ok res
    /\ nth_error res.(AnomalyDetectionService.anomalies) 3 = Some p
    /\ p.(AnomalyDetectionService.value) = 300%float
    /\ PrimFloat.ltb 2.21 p.(AnomalyDetectionService.score) = true
    /\ PrimFloat.ltb p.(AnomalyDetectionService.score) 2.22 = true
    /\ p.(AnomalyDetectionService.isAnomaly) = false
    /\ Forall (fun q => PrimFloat.leb q.(AnomalyDetectionService.score)
                          p.(AnomalyDetectionService.score) = true)
         res.(AnomalyDetectionService.anomalies)
    /\ res.(AnomalyDetectionService.anomalyCount) = O.
Proof.
  eexists. eexists. split; [vm_compute; reflexivity|].
  split; [reflexivity|]. repeat split.
  repeat constructor.
Qed.

(** ** Forecasting *)

Section Forecasts.

Import SimpleStatistics ForecastingService.
Local Open Scope float_scope.

(** The first part of the property as the specification words it: a
    series of fewer than 3 points makes [forecast] fail. *)
Definition rejectsShortSeries (data : list float) (periods : nat) (conf : float)
    : Prop :=
  (length data < 3)%nat -> exists e, forecast data periods conf = Throw e.

Lemma mean_ok (x : list float) : x <> [] -> exists m, mean x = Ok m.
Proof. destruct x; [congruence|]. intros _. eexists. reflexivity. Qed.

Lemma standardDeviation_ok (x : list float) :
  x <> [] -> exists s, standardDeviation x = Ok s.
Proof.
  intros Hx. unfold standardDeviation, variance.
  destruct (mean_ok x Hx) as [m ->]. eexists. reflexivity.
Qed.

Lemma simpleLinearForecast_method data periods conf :
  data <> [] ->
  exists r, simpleLinearForecast data periods conf = Ok r
            /\ r.(method) = "linear_regression".
Proof.
  intros Hd. unfold simpleLinearForecast, calculateRSquared.
  destruct (mean_ok data Hd) as [m ->]. cbn [rbind].
  eexists. split; reflexivity.
Qed.

Lemma differences_nonempty data : (2 <= length data)%nat -> differences data <> [].
Proof.
  destruct data as [|a [|b rest]]; simpl; intros H; try lia. discriminate.
Qed.

Lemma weightedMovingAverageForecast_method data periods conf :
  (2 <= length data)%nat ->
  exists r, weightedMovingAverageForecast data periods conf = Ok r
            /\ r.(method) = "weighted_moving_average".
Proof.
  intros Hlen. unfold weightedMovingAverageForecast.
  destruct (mean_ok _ (differences_nonempty data Hlen)) as [avgChange ->].
  destruct (standardDeviation_ok _ (differences_nonempty data Hlen)) as [sd ->].
  assert (Hd : data <> []) by (destruct data; simpl in Hlen; [lia|discriminate]).
  destruct (mean_ok data Hd) as [m ->]. cbn [rbind].
  eexists. split; reflexivity.
Qed.

End Forecasts.

(** C5, as stated, fails: [forecast] accepts a series of two points and
    answers with a linear regression. *)
Lemma C5_forecast_accepts_two_points :
  ~ rejectsShortSeries [1; 2]%float 3 0.95%float.
Proof.
  intros H. destruct (H ltac:(simpl; lia)) as [e He].
  vm_compute in He. discriminate He.
Qed.

(** C5 (amended): [ForecastingService.forecast] has no minimum length of
    its own.  For every non-empty series it returns a result whose method is
    linear regression when the length is below 10 (lengths 1 and 2
    included) and weighted moving average when the length is 10 or more.
    Series of fewer than 3 points are refused one level up, by
    [ForecastTrendsUseCase.execute], with a plain [Error]. *)
Theorem C5_forecast_method_by_length :
  forall (data : list float) (periods : nat) (conf : float),
    data <> [] ->
    (exists r,
       ForecastingService.forecast data periods conf = Ok r
       /\ r.(ForecastingService.method)
          = if Nat.ltb (length data) 10 then "linear_regression"
            else "weighted_moving_average")
    /\ forall (p : Z) (c : option float),
         (length data < 3)%nat ->
         ForecastTrendsUseCase.execute
           (ForecastTrendsUseCase.mkForecastDTO (Some data) p c)
         = Throw (Error
             "Se requieren al menos 3 puntos de datos para realizar pronósticos").
Proof.
  intros data periods conf Hd. split.
  - unfold ForecastingService.forecast.
    destruct (Nat.ltb_spec (length data) 10) as [Hlt|Hge].
    + apply simpleLinearForecast_method, Hd.
    + apply weightedMovingAverageForecast_method. lia.
  - intros p c Hshort. unfold ForecastTrendsUseCase.execute.
    cbn [ForecastTrendsUseCase.data].
    destruct (Nat.ltb_spec (length data) 3) as [_|Hge]; [reflexivity|lia].
Qed.

Lemma C5_forecast_method_witness :
  (exists r,
     ForecastingService.forecast [1; 2]%float 3 0.95%float = Ok r
     /\ r.(ForecastingService.method) = "linear_regression")
  /\ forall (p : Z) (c : option float),
       (length [1; 2]%float < 3)%nat ->
       ForecastTrendsUseCase.execute
         (ForecastTrendsUseCase.mkForecastDTO (Some [1; 2]%float) p c)
       = Throw (Error
           "Se requieren al menos 3 puntos de datos para realizar pronósticos").
Proof.
  apply (C5_forecast_method_by_length [1; 2]%float 3 0.95%float).
  discriminate.
Defined.

(** ** Data quality *)

Section Quality.

Import Report SimpleStatistics DataQualityAnalyzer.
Local Open Scope float_scope.

(** A filled cell, in the words of the specification: not null, not
    undefined, not the empty string. *)
Definition isFilled (v : jsval) : bool :=
  match v with
  | VNull => false
  | VUndefined => false
  | VStr s => negb (String.eqb s "")
  | _ => true
  end.

(** The cells of the record set over [fields], row by row. *)
Definition cells (data : list row) (fields : list string) : list jsval :=
  flat_map (fun r => List.map (getProp r) fields) data.

Definition filledCellCount (data : list row) (fields : list string) : nat :=
  length (List.filter isFilled (cells data fields)).

(** Completeness as the specification defines it. *)
Definition specCompleteness (data : list row) (fields : list string) : float :=
  (ofNat (filledCellCount data fields)
   / (ofNat (length data) * ofNat (length fields))) * 100.

Lemma isFilled_not_empty v : isFilled v = negb (isEmptyCell v).
Proof. destruct v; reflexivity. Qed.

Lemma filter_map_length {A B : Type} (p : B -> bool) (f : A -> B) (l : list A) :
  length (List.filter (fun a => p (f a)) l) = length (List.filter p (List.map f l)).
Proof.
  induction l as [|a l IH]; simpl; [reflexivity|].
  destruct (p (f a)); simpl; rewrite IH; reflexivity.
Qed.

(** The nested loops of [calculateCompleteness] count the filled cells. *)
Lemma countCells_filled data fields :
  countCells (fun v _ => negb (isEmptyCell v)) data fields
  = filledCellCount data fields.
Proof.
  unfold countCells, filledCellCount, cells.
  induction data as [|r data IH]; simpl; [reflexivity|].
  rewrite List.filter_app, List.length_app, <- IH. f_equal.
  rewrite <- filter_map_length.
  f_equal. apply List.filter_ext. intros field. symmetry. apply isFilled_not_empty.
Qed.

Lemma calculateCompleteness_spec data fields :
  calculateCompleteness data fields = specCompleteness data fields.
Proof.
  unfold calculateCompleteness, specCompleteness.
  rewrite countCells_filled. reflexivity.
Qed.

Lemma quantile_ok (x : list float) (p : float) :
  x <> [] -> (p <? 0) || (1 <? p) = false -> exists q, quantile x p = Ok q.
Proof.
  intros Hx Hp. unfold quantile. destruct x; [congruence|].
  rewrite Hp. eexists. reflexivity.
Qed.

Lemma fieldOutliers_ok data field : exists n, fieldOutliers data field = Ok n.
Proof.
  unfold fieldOutliers.
  set (numericValues := List.filter _ _).
  destruct (Nat.ltb_spec 10 (length numericValues)) as [Hlen|_];
    [|eexists; reflexivity].
  assert (Hne : numericValues <> []).
  { intros E. rewrite E in Hlen. simpl in Hlen. lia. }
  destruct (quantile_ok numericValues 0.25 Hne eq_refl) as [q1 ->].
  destruct (quantile_ok numericValues 0.75 Hne eq_refl) as [q3 ->].
  eexists. reflexivity.
Qed.

Lemma rmapM_ok {A B : Type} (f : A -> result B) (l : list A) :
  (forall a, exists b, f a = Ok b) -> exists bs, rmapM f l = Ok bs.
Proof.
  intros Hf. induction l as [|a l [bs IH]]; simpl.
  - eexists. reflexivity.
  - destruct (Hf a) as [b ->]. rewrite IH. eexists. reflexivity.
Qed.

Lemma countOutliers_ok data fields : exists n, countOutliers data fields = Ok n.
Proof.
  unfold countOutliers.
  destruct (rmapM_ok (fieldOutliers data) fields (fieldOutliers_ok data)) as [bs ->].
  eexists. reflexivity.
Qed.

Variable dateIsValid : jsval -> bool.
Variable stringify : row -> string.

(** The fields [analyze] works over. *)
Definition fieldsOf (data : list row) (requiredFields : option (list string))
    : list string :=
  match requiredFields, data with
  | Some fs, _ => fs
  | None, first :: _ => keys first
  | None, [] => []
  end.

Lemma analyze_completeness first rest requiredFields :
  exists m,
    analyze dateIsValid stringify (first :: rest) requiredFields = Ok m
    /\ m.(completeness)
       = specCompleteness (first :: rest) (fieldsOf (first :: rest) requiredFields).
Proof.
  unfold analyze, fieldsOf.
  set (fields := match requiredFields with Some fs => fs | None => keys first end).
  destruct (countOutliers_ok (first :: rest) fields) as [n Hn].
  rewrite Hn. eexists. split; [reflexivity|].
  apply calculateCompleteness_spec.
Qed.

End Quality.

(** C9: for an empty record set the scorer returns all-zero metrics; for
    every non-empty record set it returns metrics whose completeness is
    filled-cell-count / (rowCount x fieldCount) x 100, a cell being filled
    when it is neither null, nor undefined, nor the empty string; so for one
    fully-null row and one fully-filled row over two fields (in either
    order) completeness is 50. *)
Theorem C9_completeness :
  forall (dateIsValid : jsval -> bool) (stringify : row -> string),
    (forall requiredFields,
       DataQualityAnalyzer.analyze dateIsValid stringify [] requiredFields
       = Ok (Report.mkDataQualityMetrics 0 0 0 0 0 0))
    /\ (forall first rest requiredFields,
          exists m,
            DataQualityAnalyzer.analyze dateIsValid stringify (first :: rest)
              requiredFields = Ok m
            /\ m.(Report.completeness)
               = specCompleteness (first :: rest)
                   (fieldsOf (first :: rest) requiredFields))
    /\ (forall (f1 f2 : string) (v1 v2 : jsval),
          f1 <> f2 ->
          isFilled v1 = true ->
          isFilled v2 = true ->
          (exists m,
             DataQualityAnalyzer.analyze dateIsValid stringify
               [[(f1, VNull); (f2, VNull)]; [(f1, v1); (f2, v2)]] None = Ok m
             /\ m.(Report.completeness) = 50%float)
          /\ (exists m,
                DataQualityAnalyzer.analyze dateIsValid stringify
                  [[(f1, v1); (f2, v2)]; [(f1, VNull); (f2, VNull)]] None = Ok m
                /\ m.(Report.completeness) = 50%float)).
Proof.
  intros dateIsValid stringify.
  split; [reflexivity|]. split; [apply analyze_completeness|].
  intros f1 f2 v1 v2 Hneq Hv1 Hv2.
  assert (E12 : String.eqb f1 f2 = false) by (apply String.eqb_neq; exact Hneq).
  split.
  - destruct (analyze_completeness dateIsValid stringify
                [(f1, VNull); (f2, VNull)] [[(f1, v1); (f2, v2)]] None)
      as (m & Hm & Hc).
    exists m. split; [exact Hm|]. rewrite Hc.
    unfold specCompleteness, filledCellCount, cells, fieldsOf, keys.
    cbn [flat_map List.map getProp fst snd app].
    rewrite !String.eqb_refl, !E12. cbn [List.filter isFilled].
    rewrite Hv1, Hv2. reflexivity.
  - destruct (analyze_completeness dateIsValid stringify
                [(f1, v1); (f2, v2)] [[(f1, VNull); (f2, VNull)]] None)
      as (m & Hm & Hc).
    exists m. split; [exact Hm|]. rewrite Hc.
    unfold specCompleteness, filledCellCount, cells, fieldsOf, keys.
    cbn [flat_map List.map getProp fst snd app].
    rewrite !String.eqb_refl, !E12. cbn [List.filter isFilled].
    rewrite Hv1, Hv2. reflexivity.
Qed.

Lemma C9_completeness_witness :
  (exists m,
     DataQualityAnalyzer.analyze (fun _ => true) sketchRow
       [[("producto", VNull); ("ventas", VNull)];
        [("producto", VStr "A"); ("ventas", VNum 1500)]] None = Ok m
     /\ m.(Report.completeness) = 50%float)
  /\ (exists m,
        DataQualityAnalyzer.analyze (fun _ => true) sketchRow
          [[("producto", VStr "A"); ("ventas", VNum 1500)];
           [("producto", VNull); ("ventas", VNull)]] None = Ok m
        /\ m.(Report.completeness) = 50%float).
Proof.
  apply (proj2 (proj2 (C9_completeness (fun _ => true) sketchRow))
           "producto" "ventas" (VStr "A") (VNum 1500)).
  - discriminate.
  - reflexivity.
  - reflexivity.
Defined.

(** ** Correlation discovery *)

Definition num (x : float) : jsval := VNum x.

(** Four records whose two columns correlate with coefficient exactly 0.5. *)
Definition halfCorrelated : list row :=
  [[("a", num 1); ("b", num 1)];
   [("a", num (-1)); ("b", num 0)];
   [("a", num 0); ("b", num (-1))];
   [("a", num 0); ("b", num 0)]]%float.

Section Correlations.

Import MLAnalysisWorker.
Local Open Scope float_scope.

(** The retention rule as the specification words it: a pair of numeric
    fields with at least 4 samples each and |r| >= 0.5 is reported (as
    long as no more than three pairs compete). *)
Definition reportsFromOneHalf (data : list row) : Prop :=
  forall f1 f2,
    In (f1, f2) (fieldPairs (extractNumericFields data)) ->
    (4 <= length (numericColumn data f1))%nat ->
    (4 <= length (numericColumn data f2))%nat ->
    (0.5 <=? PrimFloat.abs
               (calculateCorrelation (numericColumn data f1) (numericColumn data f2)))
    = true ->
    (length (fieldPairs (extractNumericFields data)) <= 3)%nat ->
    exists c, In c (findCorrelations data) /\ c.(field1) = f1 /\ c.(field2) = f2.

(** What the loops retain for a pair. *)
Definition retained (data : list row) (f1 f2 : string) : bool :=
  Nat.ltb 3 (length (numericColumn data f1))
  && Nat.ltb 3 (length (numericColumn data f2))
  && (0.5 <? PrimFloat.abs
               (calculateCorrelation (numericColumn data f1) (numericColumn data f2))).

Definition entryFor (data : list row) (f1 f2 : string) : Correlation :=
  let coef := calculateCorrelation (numericColumn data f1) (numericColumn data f2) in
  mkCorrelation f1 f2 coef (strengthOf coef).

Lemma correlate_retained data pair :
  correlate data pair
  = if retained data (fst pair) (snd pair)
    then [entryFor data (fst pair) (snd pair)] else [].
Proof.
  unfold correlate, retained, entryFor.
  destruct (Nat.ltb 3 (length (numericColumn data (fst pair))));
    destruct (Nat.ltb 3 (length (numericColumn data (snd pair))));
    cbn [andb]; try reflexivity.
Qed.

Lemma In_firstn_In {A : Type} (n : nat) (l : list A) (x : A) :
  In x (firstn n l) -> In x l.
Proof.
  revert l. induction n as [|n IH]; intros [|a l]; simpl; try tauto.
  intros [->|H]; [left; reflexivity | right; apply IH, H].
Qed.

Lemma fieldPairs_In (fields : list string) (f g : string) :
  In (f, g) (fieldPairs fields) -> In f fields /\ In g fields.
Proof.
  induction fields as [|h rest IH]; simpl; [tauto|].
  intros H. apply List.in_app_or in H as [H|H].
  - apply List.in_map_iff in H as (x & Hx & Hin). injection Hx as <- <-.
    split; [left; reflexivity | right; exact Hin].
  - destruct (IH H) as [Hf Hg]. split; right; assumption.
Qed.

Lemma significant_iff data c :
  In c (significantCorrelations data) <->
  exists f1 f2,
    In (f1, f2) (fieldPairs (extractNumericFields data))
    /\ retained data f1 f2 = true
    /\ c = entryFor data f1 f2.
Proof.
  unfold significantCorrelations. rewrite List.in_concat. split.
  - intros (l & Hl & Hc). apply List.in_map_iff in Hl as ([f1 f2] & <- & Hpair).
    rewrite correlate_retained in Hc. cbn [fst snd] in Hc.
    destruct (retained data f1 f2) eqn:Hret; [|destruct Hc].
    destruct Hc as [<-|[]]. exists f1, f2. repeat split; assumption.
  - intros (f1 & f2 & Hpair & Hret & ->).
    exists (correlate data (f1, f2)). split.
    + apply List.in_map_iff. exists (f1, f2). split; [reflexivity|exact Hpair].
    + rewrite correlate_retained. cbn [fst snd]. rewrite Hret. left. reflexivity.
Qed.

Lemma extractNumericFields_In data f :
  In f (extractNumericFields data) <->
  exists first rest,
    data = first :: rest /\ In f (keys first) /\ isNumericField data f = true.
Proof.
  unfold extractNumericFields. destruct data as [|first rest].
  - split; [intros []| intros (? & ? & H & _); discriminate H].
  - rewrite List.filter_In. split.
    + intros [Hk Hn]. exists first, rest. repeat split; assumption.
    + intros (first' & rest' & E & Hk & Hn). injection E as <- <-. split; assumption.
Qed.

End Correlations.

(** C8, as stated, fails: a pair of numeric fields with four samples each
    and a coefficient of exactly 0.5 is dropped, the retention test being a
    strict comparison. *)
Lemma C8_coefficient_one_half_dropped : ~ reportsFromOneHalf halfCorrelated.
Proof.
  intros H.
  destruct (H "a" "b") as (c & Hc & _).
  - vm_compute. left. reflexivity.
  - vm_compute. lia.
  - vm_compute. lia.
  - vm_compute. reflexivity.
  - vm_compute. lia.
  - vm_compute in Hc. exact Hc.
Qed.

(** C8 (amended): for every record set, correlation discovery considers the
    pairs of distinct positions among the fields classified as numeric (keys
    of the first record for which more than 50% of the rows hold a number
    other than NaN); it retains a pair only when each field has more than 3
    number-typed samples and |r| > 0.5, strictly; it labels the strength
    "fuerte" when |r| > 0.8, "moderada" when |r| > 0.6, "débil" otherwise;
    and it returns at most 3 retained pairs, all of them when no more than 3
    are retained. *)
Theorem C8_correlations_retained_and_labelled :
  forall data : list row,
    (forall f,
       In f (MLAnalysisWorker.extractNumericFields data) <->
       exists first rest,
         data = first :: rest /\ In f (keys first)
         /\ PrimFloat.ltb
              (ofNat (length data) * 0.5)%float
              (ofNat (length (List.filter isNumberNotNaN
                                (MLAnalysisWorker.column data f)))) = true)
    /\ (forall c,
          In c (MLAnalysisWorker.findCorrelations data) ->
          let f1 := c.(MLAnalysisWorker.field1) in
          let f2 := c.(MLAnalysisWorker.field2) in
          let r := c.(MLAnalysisWorker.coefficient) in
          In (f1, f2)
            (MLAnalysisWorker.fieldPairs (MLAnalysisWorker.extractNumericFields data))
          /\ In f1 (MLAnalysisWorker.extractNumericFields data)
          /\ In f2 (MLAnalysisWorker.extractNumericFields data)
          /\ (3 < length (MLAnalysisWorker.numericColumn data f1))%nat
          /\ (3 < length (MLAnalysisWorker.numericColumn data f2))%nat
          /\ r = MLAnalysisWorker.calculateCorrelation
                   (MLAnalysisWorker.numericColumn data f1)
                   (MLAnalysisWorker.numericColumn data f2)
          /\ PrimFloat.ltb 0.5 (PrimFloat.abs r) = true
          /\ c.(MLAnalysisWorker.strength)
             = if PrimFloat.ltb 0.8 (PrimFloat.abs r) then "fuerte"
               else if PrimFloat.ltb 0.6 (PrimFloat.abs r) then "moderada"
               else "débil")
    /\ (length (MLAnalysisWorker.findCorrelations data) <= 3)%nat
    /\ ((length (MLAnalysisWorker.significantCorrelations data) <= 3)%nat ->
        forall f1 f2,
          In (f1, f2)
            (MLAnalysisWorker.fieldPairs (MLAnalysisWorker.extractNumericFields data)) ->
          retained data f1 f2 = true ->
          In (entryFor data f1 f2) (MLAnalysisWorker.findCorrelations data)).
Proof.
  intros data. split; [|split; [|split]].
  - intros f. apply extractNumericFields_In.
  - intros c Hc f1 f2 r. subst f1 f2 r.
    apply In_firstn_In, significant_iff in Hc as (f1 & f2 & Hpair & Hret & ->).
    cbn [MLAnalysisWorker.field1 MLAnalysisWorker.field2
         MLAnalysisWorker.coefficient MLAnalysisWorker.strength entryFor].
    destruct (fieldPairs_In _ _ _ Hpair) as [Hf1 Hf2].
    unfold retained in Hret.
    apply andb_prop in Hret as [Hret Hr]. apply andb_prop in Hret as [H1 H2].
    apply Nat.ltb_lt in H1, H2.
    repeat split; assumption.
  - unfold MLAnalysisWorker.findCorrelations. apply List.firstn_le_length.
  - intros Hfew f1 f2 Hpair Hret.
    unfold MLAnalysisWorker.findCorrelations.
    rewrite List.firstn_all2 by exact Hfew.
    apply significant_iff. exists f1, f2. repeat split; assumption.
Qed.

(** Four records over five numeric columns: eight pairs are retained. *)
Definition fiveColumns : list row :=
  [[("a", num 1); ("b", num 1); ("c", num 1); ("d", num 1); ("e", num 1)];
   [("a", num 2); ("b", num 3); ("c", num 2); ("d", num 1); ("e", num 2)];
   [("a", num 3); ("b", num 2); ("c", num 4); ("d", num 2); ("e", num 3)];
   [("a", num 4); ("b", num 4); ("c", num 3); ("d", num 5); ("e", num 4)]]%float.

Lemma C8_correlations_witness :
  (length (MLAnalysisWorker.findCorrelations fiveColumns) <= 3)%nat.
Proof.
  exact (proj1 (proj2 (proj2
           (C8_correlations_retained_and_labelled fiveColumns)))).
Defined.

(** On this record set the three pairs returned are the first three retained in the order
    of the loops, not the three strongest: the pair (a, e), of coefficient 1,
    is retained and left out, while (a, b), of coefficient 0.8, is
    returned. *)
Lemma findCorrelations_keeps_loop_order :
  List.map (fun c => (c.(MLAnalysisWorker.field1), c.(MLAnalysisWorker.field2)))
    (MLAnalysisWorker.findCorrelations fiveColumns)
  = [("a", "b"); ("a", "c"); ("a", "d")]
  /\ In (entryFor fiveColumns "a" "e")
       (MLAnalysisWorker.significantCorrelations fiveColumns)
  /\ (entryFor fiveColumns "a" "e").(MLAnalysisWorker.coefficient) = 1%float
  /\ PrimFloat.ltb
       (PrimFloat.abs (entryFor fiveColumns "a" "b").(MLAnalysisWorker.coefficient))
       1%float = true.
Proof.
  split; [vm_compute; reflexivity|].
  split; [vm_compute; tauto|].
  split; vm_compute; reflexivity.
Qed.

(** ** Forecast values are floored at zero *)

Section Floor.

Import SimpleStatistics ForecastingService.
Local Open Scope float_scope.

Lemma ltb_of_nan x y : isNaN x = true -> (x <? y) = false.
Proof.
  unfold isNaN. rewrite FloatAxioms.eqb_spec, FloatAxioms.ltb_spec.
  unfold SFeqb, SFltb. destruct (Prim2SF x) as [s|s| |s m e]; simpl.
  - discriminate.
  - destruct s; discriminate.
  - reflexivity.
  - rewrite Z.compare_refl, Pos.compare_cont_refl. destruct s; discriminate.
Qed.

Lemma ltb_zero_asym x : (0 <? x) = true -> (x <? 0) = false.
Proof.
  rewrite !FloatAxioms.ltb_spec. change (Prim2SF 0) with (S754_zero false).
  unfold SFltb. destruct (Prim2SF x) as [s|s| |s m e]; simpl;
    try destruct s; simpl; congruence.
Qed.

(** [Math.max(0, x)] is never below zero. *)
Lemma fmax_zero_not_negative x : (fmax 0 x <? 0) = false.
Proof.
  unfold fmax. change (isNaN 0) with false. cbn iota.
  destruct (isNaN x) eqn:Hnan; [apply ltb_of_nan, Hnan|].
  destruct (0 <? x) eqn:Hpos; [apply ltb_zero_asym, Hpos | reflexivity].
Qed.

Lemma project_not_negative lastValue avgChange periods :
  Forall (fun v => (v <? 0) = false) (project lastValue avgChange periods).
Proof.
  revert lastValue. induction periods as [|k IH]; intros lastValue; simpl.
  - constructor.
  - constructor; [apply fmax_zero_not_negative | apply IH].
Qed.

End Floor.

(** X2: every value [forecast] returns has passed through [Math.max(0, _)]:
    none is below zero, whatever the history. *)
Theorem forecast_values_not_negative :
  forall (data : list float) (periods : nat) (conf : float)
         (r : ForecastingService.ForecastResult),
    ForecastingService.forecast data periods conf = Ok r ->
    Forall (fun v => PrimFloat.ltb v 0 = false) r.(ForecastingService.forecasts).
Proof.
  intros data periods conf r. unfold ForecastingService.forecast.
  destruct (Nat.ltb (length data) 10).
  - unfold ForecastingService.simpleLinearForecast.
    destruct (ForecastingService.calculateRSquared _ _) as [rSquared|e];
      [|discriminate].
    cbn [rbind]. destruct (SimpleStatistics.mean data) as [avg|e]; [|discriminate].
    cbn [rbind]. intros H. injection H as <-. cbn [ForecastingService.forecasts].
    apply List.Forall_map, List.Forall_forall. intros i _.
    apply fmax_zero_not_negative.
  - unfold ForecastingService.weightedMovingAverageForecast.
    destruct (SimpleStatistics.mean (ForecastingService.differences data))
      as [avgChange|e]; [|discriminate].
    cbn [rbind].
    destruct (SimpleStatistics.standardDeviation (ForecastingService.differences data))
      as [stdChange|e]; [|discriminate].
    cbn [rbind]. destruct (SimpleStatistics.mean data) as [avg|e]; [|discriminate].
    cbn [rbind]. intros H. injection H as <-. cbn [ForecastingService.forecasts].
    apply project_not_negative.
Qed.

Lemma forecast_values_witness :
  exists r,
    ForecastingService.forecast [1000; 1050; 1100; 1200; 1250; 1300]%float 3 0.95%float
      = Ok r
    /\ Forall (fun v => PrimFloat.ltb v 0 = false) r.(ForecastingService.forecasts).
Proof.
  eexists. split; [vm_compute; reflexivity|].
  eapply (forecast_values_not_negative
            [1000; 1050; 1100; 1200; 1250; 1300]%float 3 0.95%float).
  vm_compute. reflexivity.
Defined.

(** [markAsCompleted] stamps the completion instant and sets the expiry
    seven days after the clock reading taken for it. *)
Theorem markAsCompleted_retention :
  forall (r : Report.Report) (path : string) (size : Z) (url : string) (t t' : Z),
    let done := Report.markAsCompleted path size url t t' r in
    done.(Report.completedAt) = Some t
    /\ done.(Report.expiresAt) = Some (t' + 604800000)%Z
    /\ done.(Report.filePath) = Some path
    /\ done.(Report.fileSize) = Some size
    /\ done.(Report.downloadUrl) = Some url
    /\ done.(Report.processingTime) = Some (t - r.(Report.createdAt))%Z.
Proof.
  intros. subst done. repeat split.
Qed.

(** * Further properties *)

(** ** Repository: documents are stored under their own id *)

Section Keyed.

Import Report.

(** Every document of the collection sits under its own [id]. *)
Definition keyedById (w : World) : Prop :=
  forall docs k r, w.(collection) = Some docs -> docs !! k = Some r -> r.(id) = k.

(** A computation that keeps the documents keyed by their id. *)
Definition keepsKeys {A : Type} (m : ST World A) : Prop :=
  forall w, keyedById w -> keyedById (snd (m w)).

Definition keepsKeysR {A : Type} (m : ST (Report * World) A) : Prop :=
  forall s, keyedById (snd s) -> keyedById (snd (snd (m s))).

Lemma keepsKeys_ret {A} (a : A) : keepsKeys (ret a).
Proof. intros w H. exact H. Qed.

Lemma keepsKeys_throw {A} e : keepsKeys (@throw World A e).
Proof. intros w H. exact H. Qed.

Lemma keepsKeys_liftResult {A} (x : result A) : keepsKeys (liftResult x).
Proof. intros w H. exact H. Qed.

Lemma keepsKeys_now : keepsKeys now.
Proof. intros w H. exact H. Qed.

Lemma keepsKeys_bind {A B} (m : ST World A) (k : A -> ST World B) :
  keepsKeys m -> (forall a, keepsKeys (k a)) -> keepsKeys (bind m k).
Proof.
  intros Hm Hk w Hw. unfold bind. specialize (Hm w Hw).
  destruct (m w) as [[a|e] w1]; simpl in *; [apply Hk, Hm | exact Hm].
Qed.

Lemma keepsKeys_tryCatch {A} (m : ST World A) (h : exn -> ST World A) :
  keepsKeys m -> (forall e, keepsKeys (h e)) -> keepsKeys (tryCatch m h).
Proof.
  intros Hm Hh w Hw. unfold tryCatch. specialize (Hm w Hw).
  destruct (m w) as [[a|e] w1]; simpl in *; [exact Hm | apply Hh, Hm].
Qed.

Lemma keyedById_setCollection w docs :
  (forall k r, docs !! k = Some r -> r.(id) = k) ->
  keyedById (setCollection (Some docs) w).
Proof. intros H docs' k r E. simpl in E. injection E as <-. apply H. Qed.

Lemma keyedById_insert w docs r :
  keyedById w -> w.(collection) = Some docs ->
  keyedById (setCollection (Some (<[r.(id) := r]> docs)) w).
Proof.
  intros Hw Hdocs. apply keyedById_setCollection. intros k r'.
  rewrite lookup_insert. case_decide as Hk.
  - intros E. injection E as <-. exact Hk.
  - apply (Hw docs k r' Hdocs).
Qed.

Lemma keepsKeys_save r : keepsKeys (MongoReportRepository.save r).
Proof.
  intros w Hw. unfold MongoReportRepository.save.
  destruct (collection w) as [docs|] eqn:Hdocs; [|exact Hw].
  destruct (docs !! id r); [exact Hw|].
  apply keyedById_insert; assumption.
Qed.

Lemma keepsKeys_update r : keepsKeys (MongoReportRepository.update r).
Proof.
  intros w Hw. unfold MongoReportRepository.update.
  destruct (collection w) as [docs|] eqn:Hdocs; [|exact Hw].
  destruct (docs !! id r); [|exact Hw].
  apply keyedById_insert; assumption.
Qed.

Lemma keepsKeys_findById rid : keepsKeys (MongoReportRepository.findById rid).
Proof.
  intros w Hw. unfold MongoReportRepository.findById.
  destruct (collection w); exact Hw.
Qed.

Lemma keepsKeys_delete rid : keepsKeys (MongoQueries.delete rid).
Proof.
  intros w Hw. unfold MongoQueries.delete.
  destruct (collection w) as [docs|] eqn:Hdocs; [|exact Hw].
  apply keyedById_setCollection. intros k r Hk.
  apply lookup_delete_Some in Hk as [_ Hk]. apply (Hw docs k r Hdocs Hk).
Qed.

Lemma keepsKeys_deleteExpired : keepsKeys MongoQueries.deleteExpired.
Proof.
  intros w Hw. unfold MongoQueries.deleteExpired.
  destruct (collection w) as [docs|] eqn:Hdocs; [|exact Hw].
  apply keyedById_setCollection. intros k r Hk.
  apply map_lookup_filter_Some in Hk as [Hk _]. apply (Hw docs k r Hdocs Hk).
Qed.

Lemma keepsKeys_queue (f : World -> World) :
  (forall w, collection (f w) = collection w) ->
  forall w, keyedById w -> keyedById (f w).
Proof. intros Hf w Hw docs k r E. rewrite Hf in E. apply (Hw docs k r E). Qed.

Lemma keepsKeys_addToReportQueue j : keepsKeys (addToReportQueue j).
Proof.
  intros w Hw. unfold addToReportQueue.
  destruct (queueAdd j (reportQueue w)) as [res q]. simpl.
  apply (keepsKeys_queue (setReportQueue q)); [reflexivity|exact Hw].
Qed.

Lemma keepsKeys_addToMlQueue j : keepsKeys (addToMlQueue j).
Proof.
  intros w Hw. unfold addToMlQueue.
  destruct (queueAdd j (mlQueue w)) as [res q]. simpl.
  apply (keepsKeys_queue (setMlQueue q)); [reflexivity|exact Hw].
Qed.

(** The same for handlers that hold a report object. *)

Lemma keepsKeysR_ret {A} (a : A) : keepsKeysR (ret a).
Proof. intros s H. exact H. Qed.

Lemma keepsKeysR_throw {A} e : keepsKeysR (@throw (Report * World) A e).
Proof. intros s H. exact H. Qed.

Lemma keepsKeysR_liftResult {A} (x : result A) : keepsKeysR (liftResult x).
Proof. intros s H. exact H. Qed.

Lemma keepsKeysR_mutate f : keepsKeysR (mutate f).
Proof. intros s H. exact H. Qed.

Lemma keepsKeysR_onReport {A} (m : ST Report A) : keepsKeysR (onReport m).
Proof. intros s H. unfold onReport. destruct (m (fst s)). exact H. Qed.

Lemma keepsKeysR_liftW {A} (m : ST World A) : keepsKeys m -> keepsKeysR (liftW m).
Proof.
  intros Hm s H. unfold liftW. specialize (Hm (snd s) H).
  destruct (m (snd s)). exact Hm.
Qed.

Lemma keepsKeysR_persist : keepsKeysR persist.
Proof.
  intros s H. unfold persist.
  pose proof (keepsKeys_update (fst s) (snd s) H) as Hu.
  destruct (MongoReportRepository.update (fst s) (snd s)). exact Hu.
Qed.

Lemma keepsKeysR_bind {A B} (m : ST (Report * World) A) (k : A -> ST (Report * World) B) :
  keepsKeysR m -> (forall a, keepsKeysR (k a)) -> keepsKeysR (bind m k).
Proof.
  intros Hm Hk s Hs. unfold bind. specialize (Hm s Hs).
  destruct (m s) as [[a|e] s1]; simpl in *; [apply Hk, Hm | exact Hm].
Qed.

Lemma keepsKeysR_tryCatch {A} (m : ST (Report * World) A) h :
  keepsKeysR m -> (forall e, keepsKeysR (h e)) -> keepsKeysR (tryCatch m h).
Proof.
  intros Hm Hh s Hs. unfold tryCatch. specialize (Hm s Hs).
  destruct (m s) as [[a|e] s1]; simpl in *; [exact Hm | apply Hh, Hm].
Qed.

Lemma keepsKeys_withReport {A} r (m : ST (Report * World) A) :
  keepsKeysR m -> keepsKeys (withReport r m).
Proof.
  intros Hm w Hw. unfold withReport. specialize (Hm (r, w) Hw).
  destruct (m (r, w)). exact Hm.
Qed.

End Keyed.

Ltac keeps_keys :=
  repeat first
    [ apply keepsKeys_ret | apply keepsKeys_throw | apply keepsKeys_liftResult
    | apply keepsKeys_now | apply keepsKeys_save | apply keepsKeys_update
    | apply keepsKeys_findById | apply keepsKeys_delete
    | apply keepsKeys_deleteExpired | apply keepsKeys_addToReportQueue
    | apply keepsKeys_addToMlQueue | apply keepsKeysR_ret | apply keepsKeysR_throw
    | apply keepsKeysR_liftResult | apply keepsKeysR_mutate
    | apply keepsKeysR_onReport | apply keepsKeysR_persist
    | apply keepsKeysR_liftW | apply keepsKeys_withReport
    | apply keepsKeys_bind | apply keepsKeysR_bind
    | apply keepsKeys_tryCatch | apply keepsKeysR_tryCatch
    | progress cbv zeta
    | match goal with
      | |- forall _, _ => intro
      | |- keepsKeys (if ?b then _ else _) => destruct b
      | |- keepsKeysR (if ?b then _ else _) => destruct b
      | |- keepsKeys (match ?o with Some _ => _ | None => _ end) => destruct o
      | |- keepsKeysR (match ?o with Some _ => _ | None => _ end) => destruct o
      end ].


(** ** Repository round trips *)



(** [update] never inserts: a report deleted while a handler still holds
    it is not brought back by the handler's [update], which reports
    success all the same. *)
Theorem update_does_not_resurrect :
  forall (w : World) (docs : gmap string Report.Report) (r : Report.Report),
    w.(collection) = Some docs ->
    let w1 := snd (MongoQueries.delete r.(Report.id) w) in
    fst (MongoReportRepository.update r w1) = Ok tt
    /\ snd (MongoReportRepository.update r w1) = w1
    /\ MongoReportRepository.stored w1 r.(Report.id) = None.
Proof.
  intros w docs r Hdocs w1. subst w1.
  unfold MongoQueries.delete, MongoReportRepository.update,
    MongoReportRepository.stored.
  rewrite Hdocs. cbn [fst snd setCollection collection].
  rewrite lookup_delete_eq. repeat split.
Qed.

Lemma update_does_not_resurrect_witness :
  let w1 := snd (MongoQueries.delete "rep-1" storedSample) in
  fst (MongoReportRepository.update sampleReport w1) = Ok tt
  /\ snd (MongoReportRepository.update sampleReport w1) = w1
  /\ MongoReportRepository.stored w1 "rep-1" = None.
Proof.
  apply (update_does_not_resurrect storedSample (<["rep-1" := sampleReport]> ∅)
           sampleReport).
  reflexivity.
Defined.

(** X6: [deleteExpired] removes exactly the documents whose expiry is at or
    before the clock, returns how many they were, and never touches a
    document without an expiry (a pending, processing or failed report). *)
Theorem deleteExpired_exact :
  forall (w : World) (docs : gmap string Report.Report),
    w.(collection) = Some docs ->
    exists (n : nat) (docs' : gmap string Report.Report),
      MongoQueries.deleteExpired w = (Ok n, setCollection (Some docs') w)
      /\ (forall k r,
            docs' !! k = Some r <->
            docs !! k = Some r /\ MongoQueries.isDue w.(clock) r = false)
      /\ (size docs = n + size docs')%nat
      /\ (forall k r,
            docs !! k = Some r -> r.(Report.expiresAt) = None -> docs' !! k = Some r)
      /\ (forall k r,
            docs' !! k = Some r -> ReportRead.isExpired w.(clock) r = false).
Proof.
  intros w docs Hdocs. unfold MongoQueries.deleteExpired. rewrite Hdocs.
  eexists. eexists. split; [reflexivity|].
  assert (Hkeep : forall k r,
            filter (fun kv => MongoQueries.isDue (clock w) (snd kv) <> true) docs !! k
              = Some r
            <-> docs !! k = Some r /\ MongoQueries.isDue (clock w) r = false).
  { intros k r. rewrite map_lookup_filter_Some. cbn [snd].
    destruct (MongoQueries.isDue (clock w) r); split; intros [? ?];
      split; congruence. }
  split; [exact Hkeep|]. split; [|split].
  - rewrite <- (map_filter_union_complement
                  (fun kv => MongoQueries.isDue (clock w) (snd kv) = true) docs) at 1.
    rewrite map_size_disj_union by apply map_disjoint_filter_complement.
    reflexivity.
  - intros k r Hk Hnone. apply Hkeep. split; [exact Hk|].
    unfold MongoQueries.isDue. rewrite Hnone. reflexivity.
  - intros k r Hk. apply Hkeep in Hk as [_ Hdue].
    unfold MongoQueries.isDue in Hdue. unfold ReportRead.isExpired.
    destruct (Report.expiresAt r) as [e|]; [|reflexivity].
    apply Z.leb_gt in Hdue. apply Z.ltb_ge. lia.
Qed.

Lemma deleteExpired_exact_witness :
  exists (n : nat) (docs' : gmap string Report.Report),
    MongoQueries.deleteExpired storedSample
      = (Ok n, setCollection (Some docs') storedSample)
    /\ (forall k r,
          docs' !! k = Some r <->
          (<["rep-1" := sampleReport]> ∅ : gmap string Report.Report) !! k = Some r
          /\ MongoQueries.isDue 5000 r = false)
    /\ (size (<["rep-1" := sampleReport]> ∅ : gmap string Report.Report)
        = n + size docs')%nat
    /\ (forall k r,
          (<["rep-1" := sampleReport]> ∅ : gmap string Report.Report) !! k = Some r ->
          r.(Report.expiresAt) = None -> docs' !! k = Some r)
    /\ (forall k r,
          docs' !! k = Some r -> ReportRead.isExpired 5000 r = false).
Proof.
  apply (deleteExpired_exact storedSample (<["rep-1" := sampleReport]> ∅)).
  reflexivity.
Defined.

(** ** Listing a user's reports *)

Section Listing.

Import Report MongoQueries.

#[local] Instance newestFirst_total : Total newestFirst.
Proof. intros a b. unfold newestFirst. lia. Qed.

#[local] Instance newestFirst_trans : Transitive newestFirst.
Proof. intros a b c. unfold newestFirst. lia. Qed.



End Listing.



(** ** Downloads *)

Section Download.

Import Report DownloadReportUseCase.

Variable existsSync : string -> bool.
Variable statSize : string -> Z.

(** What a run of [execute] can be. *)
Lemma download_cases dto w :
  (exists e, execute existsSync statSize dto w = (Throw e, w))
  \/ exists docs report path,
       w.(collection) = Some docs
       /\ docs !! dto.(reportId) = Some report
       /\ report.(Report.userId) = dto.(DownloadReportUseCase.userId)
       /\ ReportRead.canBeDownloaded w.(clock) report = true
       /\ report.(Report.filePath) = Some path
       /\ existsSync path = true
       /\ fst (execute existsSync statSize dto w)
          = Ok (mkDownloadResult path (ReportRead.getFileName report)
                  (getMimeType report.(format))
                  (match report.(Report.fileSize) with
                   | Some n => if (n =? 0)%Z then statSize path else n
                   | None => statSize path
                   end))
       /\ snd (execute existsSync statSize dto w)
          = match docs !! report.(id) with
            | Some _ =>
                setCollection
                  (Some (<[report.(id) := incrementDownloadCount report]> docs)) w
            | None => w
            end.
Proof.
  assert (Hrun : forall out, execute existsSync statSize dto w = out ->
            (exists e, out = (Throw e, w))
            \/ exists docs report path,
                 w.(collection) = Some docs
                 /\ docs !! dto.(reportId) = Some report
                 /\ report.(Report.userId) = dto.(DownloadReportUseCase.userId)
                 /\ ReportRead.canBeDownloaded w.(clock) report = true
                 /\ report.(Report.filePath) = Some path
                 /\ existsSync path = true
                 /\ fst out
                    = Ok (mkDownloadResult path (ReportRead.getFileName report)
                            (getMimeType report.(format))
                            (match report.(Report.fileSize) with
                             | Some n => if (n =? 0)%Z then statSize path else n
                             | None => statSize path
                             end))
                 /\ snd out
                    = match docs !! report.(id) with
                      | Some _ =>
                          setCollection
                            (Some (<[report.(id) := incrementDownloadCount report]> docs))
                            w
                      | None => w
                      end).
  { intros out Hout.
    unfold execute, bind at 1, MongoReportRepository.findById in Hout.
    destruct (collection w) as [docs|] eqn:Hdocs;
      [|left; eexists; symmetry; exact Hout].
    destruct (docs !! reportId dto) as [report|] eqn:Hfound;
      [|left; eexists; symmetry; exact Hout].
    destruct (String.eqb (Report.userId report) (DownloadReportUseCase.userId dto))
      eqn:Howner; cbn [negb] in Hout; [|left; eexists; symmetry; exact Hout].
    unfold bind at 1, now at 1 in Hout.
    destruct (ReportRead.canBeDownloaded (clock w) report) eqn:Hcan;
      cbn [negb] in Hout.
    2:{ left. destruct (ReportRead.isExpired (clock w) report);
          eexists; symmetry; exact Hout. }
    destruct (Report.filePath report) as [path|] eqn:Hpath;
      [|left; eexists; symmetry; exact Hout].
    destruct (String.eqb path "") eqn:Hempty; cbn [orb] in Hout;
      [left; eexists; symmetry; exact Hout|].
    destruct (existsSync path) eqn:Hexists; cbn [negb] in Hout;
      [|left; eexists; symmetry; exact Hout].
    right. exists docs, report, path.
    apply String.eqb_eq in Howner.
    repeat (split; [assumption || reflexivity|]).
    unfold withReport, bind, mutate, persist, MongoReportRepository.update, ret in Hout.
    cbn [fst snd] in Hout. rewrite Hdocs in Hout.
    change (id (incrementDownloadCount report)) with (id report) in Hout.
    subst out. destruct (docs !! id report); split; reflexivity. }
  destruct (Hrun _ eq_refl) as [[e He]|H]; [left; exists e; exact He | right; exact H].
Qed.

End Download.

(** X8: A download that is refused, for whatever reason (unknown report, a user
    who is not the owner, a report not completed or expired, a missing
    file), leaves the store as it was: no download is counted. *)
Theorem refused_download_changes_nothing :
  forall (existsSync : string -> bool) (statSize : string -> Z)
         (dto : DownloadReportUseCase.DownloadReportDTO) (w : World) (e : exn),
    fst (DownloadReportUseCase.execute existsSync statSize dto w) = Throw e ->
    snd (DownloadReportUseCase.execute existsSync statSize dto w) = w.
Proof.
  intros existsSync statSize dto w e Hthrow.
  destruct (download_cases existsSync statSize dto w)
    as [[e' Hrun]|(docs & report & path & _ & _ & _ & _ & _ & _ & Hok & _)].
  - rewrite Hrun. reflexivity.
  - rewrite Hok in Hthrow. discriminate Hthrow.
Qed.

(** A user who does not own the report is always refused. *)
Theorem download_by_other_user_refused :
  forall (existsSync : string -> bool) (statSize : string -> Z)
         (dto : DownloadReportUseCase.DownloadReportDTO) (w : World)
         (docs : gmap string Report.Report) (report : Report.Report),
    w.(collection) = Some docs ->
    docs !! dto.(DownloadReportUseCase.reportId) = Some report ->
    report.(Report.userId) <> dto.(DownloadReportUseCase.userId) ->
    DownloadReportUseCase.execute existsSync statSize dto w
    = (Throw (Error "No tienes permisos para descargar este reporte"), w).
Proof.
  intros existsSync statSize dto w docs report Hdocs Hfound Hother.
  unfold DownloadReportUseCase.execute, bind at 1, MongoReportRepository.findById.
  rewrite Hdocs, Hfound.
  apply String.eqb_neq in Hother. rewrite Hother. reflexivity.
Qed.

(** X9: A download that is served was asked by the owner, for a report that is
    completed and not expired and whose file exists; it raises the stored
    download count by exactly one and changes nothing else. *)
Theorem served_download_counts_once :
  forall (existsSync : string -> bool) (statSize : string -> Z)
         (dto : DownloadReportUseCase.DownloadReportDTO) (w : World)
         (res : DownloadReportUseCase.DownloadResult),
    keyedById w ->
    fst (DownloadReportUseCase.execute existsSync statSize dto w) = Ok res ->
    exists docs report,
      w.(collection) = Some docs
      /\ docs !! dto.(DownloadReportUseCase.reportId) = Some report
      /\ report.(Report.userId) = dto.(DownloadReportUseCase.userId)
      /\ report.(Report.status) = Report.COMPLETED
      /\ ReportRead.isExpired w.(clock) report = false
      /\ existsSync res.(DownloadReportUseCase.filePath) = true
      /\ report.(Report.filePath) = Some res.(DownloadReportUseCase.filePath)
      /\ snd (DownloadReportUseCase.execute existsSync statSize dto w)
         = setCollection
             (Some (<[dto.(DownloadReportUseCase.reportId) :=
                        Report.incrementDownloadCount report]> docs)) w
      /\ (Report.incrementDownloadCount report).(Report.downloadCount)
         = (report.(Report.downloadCount) + 1)%Z.
Proof.
  intros existsSync statSize dto w res Hkeyed Hok.
  destruct (download_cases existsSync statSize dto w)
    as [[e Hrun]|(docs & report & path & Hdocs & Hfound & Howner & Hcan & Hpath
                  & Hexists & Hres & Hstore)].
  - rewrite Hrun in Hok. discriminate Hok.
  - rewrite Hres in Hok. injection Hok as <-.
    exists docs, report.
    pose proof (Hkeyed docs _ report Hdocs Hfound) as Hid.
    unfold ReportRead.canBeDownloaded in Hcan.
    apply andb_prop in Hcan as [Hst Hexp].
    rewrite Hid, Hfound in Hstore.
    repeat (split; [assumption|]).
    split; [destruct (Report.status report); simpl in Hst; congruence|].
    split; [destruct (ReportRead.isExpired (clock w) report); simpl in Hexp; congruence|].
    repeat split; assumption.
Qed.

Lemma refused_download_witness :
  snd (DownloadReportUseCase.execute (fun _ => true) (fun _ => 10%Z)
         (DownloadReportUseCase.mkDownloadReportDTO "rep-1" "user-1") storedSample)
  = storedSample.
Proof.
  apply (refused_download_changes_nothing (fun _ => true) (fun _ => 10%Z)
           (DownloadReportUseCase.mkDownloadReportDTO "rep-1" "user-1") storedSample
           (Error ("El reporte no está disponible para descarga. Estado: " ++ "PENDING"))).
  vm_compute. reflexivity.
Defined.

Lemma download_by_other_user_witness :
  DownloadReportUseCase.execute (fun _ => true) (fun _ => 10%Z)
    (DownloadReportUseCase.mkDownloadReportDTO "rep-1" "user-2") storedSample
  = (Throw (Error "No tienes permisos para descargar este reporte"), storedSample).
Proof.
  apply (download_by_other_user_refused (fun _ => true) (fun _ => 10%Z)
           (DownloadReportUseCase.mkDownloadReportDTO "rep-1" "user-2") storedSample
           (<["rep-1" := sampleReport]> ∅) sampleReport).
  - reflexivity.
  - vm_compute. reflexivity.
  - discriminate.
Defined.

(** A store holding the sample report, completed at instant 2000. *)
Definition completedSample : Report.Report :=
  Report.markAsCompleted "/tmp/rep-1.pdf" 10 "http://host/rep-1" 2000 2000 sampleReport.

Definition storedCompleted : World :=
  mkWorld (Some (<["rep-1" := completedSample]> ∅)) (mkQueue true []) (mkQueue true [])
    5000.

Lemma keyedById_storedCompleted : keyedById storedCompleted.
Proof.
  intros docs k r E Hk. injection E as <-.
  apply lookup_insert_Some in Hk as [[<- <-]|[_ Hk]]; [reflexivity|].
  rewrite lookup_empty in Hk. discriminate Hk.
Qed.

Lemma served_download_witness :
  exists docs report,
    storedCompleted.(collection) = Some docs
    /\ docs !! "rep-1" = Some report
    /\ report.(Report.userId) = "user-1"
    /\ report.(Report.status) = Report.COMPLETED
    /\ ReportRead.isExpired 5000 report = false
    /\ (fun _ : string => true) "/tmp/rep-1.pdf" = true
    /\ report.(Report.filePath) = Some "/tmp/rep-1.pdf"
    /\ snd (DownloadReportUseCase.execute (fun _ => true) (fun _ => 10%Z)
              (DownloadReportUseCase.mkDownloadReportDTO "rep-1" "user-1")
              storedCompleted)
       = setCollection
           (Some (<["rep-1" := Report.incrementDownloadCount report]> docs))
           storedCompleted
    /\ (Report.incrementDownloadCount report).(Report.downloadCount)
       = (report.(Report.downloadCount) + 1)%Z.
Proof.
  apply (served_download_counts_once (fun _ => true) (fun _ => 10%Z)
           (DownloadReportUseCase.mkDownloadReportDTO "rep-1" "user-1")
           storedCompleted
           (DownloadReportUseCase.mkDownloadResult "/tmp/rep-1.pdf"
              "sales_1000.pdf" "application/pdf" 10)).
  - exact keyedById_storedCompleted.
  - vm_compute. reflexivity.
Defined.

(** ** Availability of a completed report *)

(** X3: A report is downloadable from the moment [markAsCompleted] has run
    until seven days after the clock reading taken for its expiry, that
    instant included; no other transition makes a report downloadable. *)
Theorem completed_report_download_window :
  forall (r : Report.Report) (now : Z),
    (forall path size url t t',
       ReportRead.canBeDownloaded now (Report.markAsCompleted path size url t t' r)
         = true
       <-> (now <= t' + 604800000)%Z)
    /\ (forall err t,
          ReportRead.canBeDownloaded now (Report.markAsFailed err t r) = false)
    /\ ReportRead.canBeDownloaded now (Report.markAsProcessing r) = false
    /\ ReportRead.canBeDownloaded now (Report.markAsAnalyzing r) = false.
Proof.
  intros r now. repeat split; try reflexivity.
  - unfold ReportRead.canBeDownloaded, ReportRead.isExpired. simpl.
    intros H. apply negb_true_iff, Z.ltb_ge in H. lia.
  - unfold ReportRead.canBeDownloaded, ReportRead.isExpired. simpl.
    intros H. apply negb_true_iff, Z.ltb_ge. lia.
Qed.

(** ** Data quality: how the counts relate *)

Section QualityCounts.

Import Report DataQualityAnalyzer.
Local Open Scope float_scope.

Lemma countCells_split (p q : jsval -> string -> bool) (data : list row)
    (fields : list string) :
  (forall v f, q v f = negb (p v f)) ->
  (countCells p data fields + countCells q data fields
   = length data * length fields)%nat.
Proof.
  intros Hpq. unfold countCells.
  induction data as [|r data IH]; simpl; [reflexivity|].
  assert (Hrow : (length (List.filter (fun f => p (getProp r f) f) fields)
                  + length (List.filter (fun f => q (getProp r f) f) fields)
                  = length fields)%nat).
  { clear IH. induction fields as [|f fields IHf]; simpl; [reflexivity|].
    rewrite Hpq. destruct (p (getProp r f) f); simpl; lia. }
  lia.
Qed.

Lemma countCells_le (p q : jsval -> string -> bool) (data : list row)
    (fields : list string) :
  (forall v f, p v f = true -> q v f = true) ->
  (countCells p data fields <= countCells q data fields)%nat.
Proof.
  intros Hpq. unfold countCells.
  induction data as [|r data IH]; simpl; [lia|].
  assert (Hrow : (length (List.filter (fun f => p (getProp r f) f) fields)
                  <= length (List.filter (fun f => q (getProp r f) f) fields))%nat).
  { clear IH. induction fields as [|f fields IHf]; simpl; [lia|].
    destruct (p (getProp r f) f) eqn:Hp.
    - rewrite (Hpq _ _ Hp). simpl. lia.
    - destruct (q (getProp r f) f); simpl; lia. }
  lia.
Qed.

Variable dateIsValid : jsval -> bool.

Lemma valid_is_filled v f :
  isValidValue dateIsValid v f = true -> negb (isEmptyCell v) = true.
Proof.
  unfold isValidValue. destruct (isEmptyCell v); [discriminate|reflexivity].
Qed.

(** Duplicates *)

Variable stringify : row -> string.

Lemma countDuplicatesFrom_le seen data :
  (countDuplicatesFrom stringify seen data <= length data)%nat.
Proof.
  revert seen. induction data as [|r data IH]; intros seen; simpl; [lia|].
  destruct (existsb _ seen); [specialize (IH seen) | specialize (IH (stringify r :: seen))];
    lia.
Qed.

Lemma existsb_eqb_In (h : string) (seen : list string) :
  existsb (String.eqb h) seen = true <-> In h seen.
Proof.
  rewrite List.existsb_exists. split.
  - intros (x & Hx & E). apply String.eqb_eq in E. subst. exact Hx.
  - intros H. exists h. split; [exact H | apply String.eqb_refl].
Qed.

Lemma countDuplicatesFrom_zero seen data :
  countDuplicatesFrom stringify seen data = O
  <-> List.NoDup (List.map stringify data)
      /\ forall h, In h (List.map stringify data) -> ~ In h seen.
Proof.
  revert seen. induction data as [|r data IH]; intros seen; simpl.
  - split; [intros _; split; [constructor | intros h []] | reflexivity].
  - destruct (existsb (String.eqb (stringify r)) seen) eqn:Hseen.
    + split; [discriminate|]. intros [_ Hout].
      apply existsb_eqb_In in Hseen. exfalso. apply (Hout (stringify r)); auto.
    + rewrite IH. split.
      * intros [Hnd Hout]. split.
        -- constructor; [|exact Hnd]. intros Hin. apply (Hout _ Hin). left. reflexivity.
        -- intros h [<-|Hin].
           ++ intros Hin. apply existsb_eqb_In in Hin. congruence.
           ++ intros Hs. apply (Hout h Hin). right. exact Hs.
      * intros [Hnd Hout]. inversion Hnd as [|? ? Hnotin Hnd']; subst. split; [exact Hnd'|].
        intros h Hin [<-|Hs]; [exact (Hnotin Hin) | exact (Hout h (or_intror Hin) Hs)].
Qed.

End QualityCounts.

(** X10: The metrics of a non-empty record set come from three cell counts:
    every cell of rows x fields is counted either as filled (completeness)
    or as missing, never both, and a cell counted valid (accuracy) is one of
    the filled ones, so the accuracy count never exceeds the completeness
    count. *)
Theorem quality_counts_are_consistent :
  forall (dateIsValid : jsval -> bool) (stringify : row -> string)
         (first : row) (rest : list row) (requiredFields : option (list string)),
    let data := first :: rest in
    let fields := fieldsOf data requiredFields in
    let total := (ofNat (length data) * ofNat (length fields))%float in
    exists (m : Report.DataQualityMetrics) (filled valid missing : nat),
      DataQualityAnalyzer.analyze dateIsValid stringify data requiredFields = Ok m
      /\ m.(Report.completeness) = (ofNat filled / total * 100)%float
      /\ m.(Report.accuracy) = (ofNat valid / total * 100)%float
      /\ m.(Report.missingValues) = ofNat missing
      /\ (filled + missing = length data * length fields)%nat
      /\ (valid <= filled)%nat.
Proof.
  intros dateIsValid stringify first rest requiredFields data fields total.
  subst data fields total. unfold DataQualityAnalyzer.analyze, fieldsOf.
  set (fields := match requiredFields with Some fs => fs | None => keys first end).
  destruct (countOutliers_ok (first :: rest) fields) as [n Hn]. rewrite Hn.
  cbn [rbind].
  exists (Report.mkDataQualityMetrics
            (DataQualityAnalyzer.calculateCompleteness (first :: rest) fields)
            (DataQualityAnalyzer.calculateAccuracy dateIsValid (first :: rest) fields)
            (DataQualityAnalyzer.calculateConsistency (first :: rest) fields)
            (ofNat n)
            (ofNat (DataQualityAnalyzer.countMissingValues (first :: rest) fields))
            (ofNat (DataQualityAnalyzer.countDuplicates stringify (first :: rest)))).
  exists (DataQualityAnalyzer.countCells
            (fun v _ => negb (DataQualityAnalyzer.isEmptyCell v)) (first :: rest) fields),
         (DataQualityAnalyzer.countCells
            (DataQualityAnalyzer.isValidValue dateIsValid) (first :: rest) fields),
         (DataQualityAnalyzer.countMissingValues (first :: rest) fields).
  split; [reflexivity|]. split; [reflexivity|]. split; [reflexivity|].
  split; [reflexivity|]. split.
  - unfold DataQualityAnalyzer.countMissingValues.
    apply countCells_split. intros v f. destruct (DataQualityAnalyzer.isEmptyCell v);
      reflexivity.
  - apply countCells_le. intros v f. apply valid_is_filled.
Qed.

(** X11: The duplicate count is zero exactly when no two rows serialize alike,
    and it is always below the number of rows: the first row of a record
    set is never a duplicate. *)
Theorem duplicates_count :
  forall (stringify : row -> string) (data : list row),
    (DataQualityAnalyzer.countDuplicates stringify data = O
     <-> List.NoDup (List.map stringify data))
    /\ (DataQualityAnalyzer.countDuplicates stringify data
        <= pred (length data))%nat.
Proof.
  intros stringify data. unfold DataQualityAnalyzer.countDuplicates. split.
  - rewrite countDuplicatesFrom_zero. split; [intros [H _]; exact H|].
    intros H. split; [exact H | intros h _ []].
  - destruct data as [|r data]; simpl; [lia|].
    apply countDuplicatesFrom_le.
Qed.

(** ** Correlation discovery: order and sample size *)

Section CorrelationOrder.

Import MLAnalysisWorker.
Local Open Scope float_scope.

Lemma concat_correlate data pairs :
  List.concat (List.map (correlate data) pairs)
  = List.map (fun p => entryFor data (fst p) (snd p))
      (List.filter (fun p => retained data (fst p) (snd p)) pairs).
Proof.
  induction pairs as [|p pairs IH]; simpl; [reflexivity|].
  rewrite correlate_retained, IH.
  destruct (retained data (fst p) (snd p)); reflexivity.
Qed.

Lemma numbersOf_length (vs : list jsval) : (length (numbersOf vs) <= length vs)%nat.
Proof.
  induction vs as [|v vs IH]; simpl; [lia|].
  destruct v; simpl; lia.
Qed.

Lemma numericColumn_length data f : (length (numericColumn data f) <= length data)%nat.
Proof.
  unfold numericColumn, column.
  etransitivity; [apply numbersOf_length|]. rewrite List.length_map. lia.
Qed.

Lemma filter_none {A : Type} (p : A -> bool) (l : list A) :
  (forall a, p a = false) -> List.filter p l = [].
Proof.
  intros Hp. induction l as [|a l IH]; simpl; [reflexivity|].
  rewrite Hp. exact IH.
Qed.

End CorrelationOrder.


(** X12: A record set of three rows or fewer yields no correlation at all,
    whatever its columns hold: each field needs more than three number-typed
    samples. *)
Theorem findCorrelations_needs_four_rows :
  forall data : list row,
    (length data <= 3)%nat -> MLAnalysisWorker.findCorrelations data = [].
Proof.
  intros data Hlen.
  unfold MLAnalysisWorker.findCorrelations, MLAnalysisWorker.significantCorrelations.
  rewrite concat_correlate, filter_none; [reflexivity|].
  intros p. unfold retained.
  pose proof (numericColumn_length data (fst p)) as H1.
  destruct (Nat.ltb_spec 3 (length (MLAnalysisWorker.numericColumn data (fst p))));
    [lia | reflexivity].
Qed.

Lemma findCorrelations_needs_four_rows_witness :
  MLAnalysisWorker.findCorrelations
    [[("a", num 1); ("b", num 2)]; [("a", num 2); ("b", num 4)];
     [("a", num 3); ("b", num 6)]]%float = [].
Proof.
  apply findCorrelations_needs_four_rows. simpl. lia.
Defined.

(** ** Anomaly detection: the result follows the input *)

Section AnomalyAlignment.

Import SimpleStatistics AnomalyDetectionService.
Local Open Scope float_scope.

(** One point per input value, in input order, and a count that is the
    number of flagged points. *)
Definition followsInput (data : list float) (res : AnomalyResult) : Prop :=
  List.map value res.(anomalies) = data
  /\ List.map index res.(anomalies) = seq 0 (length data)
  /\ res.(anomalyCount) = length (List.filter isAnomaly res.(anomalies))
  /\ (res.(anomalyCount) <= length data)%nat.

Lemma mapIndexFrom_value (f : float -> nat -> AnomalyPoint) (i : nat) (l : list float) :
  (forall a k, value (f a k) = a) -> List.map value (mapIndexFrom f i l) = l.
Proof.
  intros Hf. revert i. induction l as [|a l IH]; intros i; simpl; [reflexivity|].
  rewrite Hf, IH. reflexivity.
Qed.

Lemma mapIndexFrom_index (f : float -> nat -> AnomalyPoint) (i : nat) (l : list float) :
  (forall a k, index (f a k) = k) -> List.map index (mapIndexFrom f i l) = seq i (length l).
Proof.
  intros Hf. revert i. induction l as [|a l IH]; intros i; simpl; [reflexivity|].
  rewrite Hf, IH. reflexivity.
Qed.

Lemma summarize_follows (data : list float) (points : list AnomalyPoint)
    (thr : float) (name : string) :
  List.map value points = data ->
  List.map index points = seq 0 (length data) ->
  followsInput data (summarize points thr name (length data)).
Proof.
  intros Hv Hi. unfold followsInput, summarize, countAnomalies.
  cbn [anomalies anomalyCount]. repeat split; try assumption.
  rewrite <- Hv, List.length_map. apply List.filter_length_le.
Qed.

Lemma zscore_follows data thr :
  data <> [] ->
  exists res, detectWithZScore data thr = Ok res
              /\ followsInput data res
              /\ res.(method) = "zscore" /\ res.(threshold) = thr.
Proof.
  intros Hd. unfold detectWithZScore.
  destruct (mean_ok data Hd) as [avg ->].
  destruct (standardDeviation_ok data Hd) as [sd ->]. cbn [rbind].
  eexists. split; [reflexivity|]. split; [|split; reflexivity].
  apply summarize_follows; unfold mapIndex.
  - apply mapIndexFrom_value. reflexivity.
  - apply mapIndexFrom_index. reflexivity.
Qed.

Lemma iqr_follows data :
  data <> [] ->
  exists res, detectWithIQR data = Ok res
              /\ followsInput data res
              /\ res.(method) = "iqr" /\ res.(threshold) = 1.5.
Proof.
  intros Hd. unfold detectWithIQR.
  destruct (quantile_ok data 0.25 Hd eq_refl) as [q1 ->].
  destruct (quantile_ok data 0.75 Hd eq_refl) as [q3 ->]. cbn [rbind].
  eexists. split; [reflexivity|]. split; [|split; reflexivity].
  apply summarize_follows; unfold mapIndex.
  - apply mapIndexFrom_value. reflexivity.
  - apply mapIndexFrom_index. reflexivity.
Qed.

Lemma isolation_follows data :
  data <> [] ->
  exists res, detectWithIsolationForest data = Ok res
              /\ followsInput data res
              /\ res.(method) = "isolation_forest" /\ res.(threshold) = 3.0.
Proof.
  intros Hd. unfold detectWithIsolationForest.
  destruct (mean_ok data Hd) as [avg ->].
  destruct (standardDeviation_ok data Hd) as [sd ->]. cbn [rbind].
  eexists. split; [reflexivity|]. split; [|split; reflexivity].
  apply summarize_follows; unfold mapIndex.
  - apply mapIndexFrom_value. reflexivity.
  - apply mapIndexFrom_index. reflexivity.
Qed.

(** The windows of the time-series variant. *)

Lemma slice_nonempty {A : Type} (start stop : nat) (l : list A) :
  (start < stop)%nat -> (stop <= length l)%nat -> slice start stop l <> [].
Proof.
  intros Hlt Hle. unfold slice. intros E.
  apply (f_equal (@length A)) in E.
  rewrite List.length_firstn, List.length_skipn in E. simpl in E. lia.
Qed.

Lemma rmapM_combine_seq {B : Type} (f : float * nat -> result B) (P : float -> nat -> B -> Prop)
    (l : list float) (i : nat) :
  (forall a k, In (a, k) (combine l (seq i (length l))) ->
     exists b, f (a, k) = Ok b /\ P a k b) ->
  exists bs, rmapM f (combine l (seq i (length l))) = Ok bs
             /\ Forall2 (fun ak b => P (fst ak) (snd ak) b)
                  (combine l (seq i (length l))) bs.
Proof.
  revert i. induction l as [|a l IH]; intros i Hf; simpl.
  - eexists. split; [reflexivity | constructor].
  - destruct (Hf a i) as (b & -> & Hb); [left; reflexivity|].
    destruct (IH (S i)) as (bs & -> & Hbs).
    { intros a' k Hin. apply Hf. right. exact Hin. }
    cbn [rbind]. eexists. split; [reflexivity|].
    constructor; [exact Hb | exact Hbs].
Qed.

Lemma Forall2_combine_seq_maps (l : list float) (i : nat) (bs : list AnomalyPoint) :
  Forall2 (fun ak b => value b = fst ak /\ index b = snd ak)
    (combine l (seq i (length l))) bs ->
  List.map value bs = l /\ List.map index bs = seq i (length l).
Proof.
  revert i bs. induction l as [|a l IH]; intros i bs H; simpl in *.
  - inversion H; subst. split; reflexivity.
  - inversion H as [|ak b aks bs' [Hv Hi] Hrest]; subst. simpl in *.
    destruct (IH (S i) bs' Hrest) as [-> ->]. rewrite Hv, Hi. split; reflexivity.
Qed.

Lemma In_combine_seq (l : list float) (i : nat) (a : float) (k : nat) :
  In (a, k) (combine l (seq i (length l))) -> (i <= k < i + length l)%nat.
Proof.
  intros H. apply List.in_combine_r in H. apply List.in_seq in H. lia.
Qed.

Lemma timeSeries_follows data windowSize thr :
  data <> [] ->
  exists res,
    AnomalyDetectionTimeSeries.detectTimeSeriesAnomalies data windowSize thr = Ok res
    /\ followsInput data res
    /\ res.(method) = (if Nat.ltb (length data) windowSize then "zscore"
                       else "time_series_zscore")
    /\ res.(threshold) = thr.
Proof.
  intros Hd. unfold AnomalyDetectionTimeSeries.detectTimeSeriesAnomalies.
  destruct (Nat.ltb (length data) windowSize).
  - exact (zscore_follows data thr Hd).
  - destruct (rmapM_combine_seq
                (AnomalyDetectionTimeSeries.scoreInWindow data windowSize thr)
                (fun a k b => value b = a /\ index b = k) data 0) as (points & -> & Hpts).
    { intros a k Hin. apply In_combine_seq in Hin.
      unfold AnomalyDetectionTimeSeries.scoreInWindow.
      assert (Hw : slice (k - windowSize)
                     (Nat.min (length data) (k + windowSize + 1)) data <> []).
      { apply slice_nonempty; lia. }
      destruct (mean_ok _ Hw) as [m ->].
      destruct (standardDeviation_ok _ Hw) as [sd ->]. cbn [rbind].
      eexists. split; [reflexivity|]. split; reflexivity. }
    cbn [rbind]. eexists. split; [reflexivity|]. split; [|split; reflexivity].
    destruct (Forall2_combine_seq_maps data 0 points Hpts) as [Hv Hi].
    apply summarize_follows; assumption.
Qed.

Lemma forallb_length_nonempty (values : list float) :
  (10 <= length values)%nat -> values <> [].
Proof. destruct values; simpl; [lia | discriminate]. Qed.

End AnomalyAlignment.

(** X13: On every non-empty series each detection entry point returns, under
    every method name, a result that follows the input: one point per value,
    in input order, carrying the value and its position, with
    [anomalyCount] the number of flagged points (never more than the number
    of values).  The time-series variant scores each point against the
    window around it and falls back to the plain z-score when the series is
    shorter than the window. *)
Theorem detection_result_follows_input :
  forall (data : list float) (thr : float),
    data <> [] ->
    (forall meth,
       exists res,
         AnomalyDetectionService.detectAnomalies data thr meth = Ok res
         /\ followsInput data res
         /\ res.(AnomalyDetectionService.method)
            = (if String.eqb meth "iqr" then "iqr"
               else if String.eqb meth "isolation_forest" then "isolation_forest"
               else "zscore"))
    /\ (forall windowSize,
          exists res,
            AnomalyDetectionTimeSeries.detectTimeSeriesAnomalies data windowSize thr
              = Ok res
            /\ followsInput data res
            /\ res.(AnomalyDetectionService.method)
               = (if Nat.ltb (length data) windowSize then "zscore"
                  else "time_series_zscore")).
Proof.
  intros data thr Hd. split.
  - intros meth. unfold AnomalyDetectionService.detectAnomalies.
    destruct (String.eqb_spec meth "zscore") as [->|Hz].
    + destruct (zscore_follows data thr Hd) as (res & Hrun & Hf & Hm & _). eauto.
    + destruct (String.eqb meth "iqr").
      * destruct (iqr_follows data Hd) as (res & Hrun & Hf & Hm & _). eauto.
      * destruct (String.eqb meth "isolation_forest").
        -- destruct (isolation_follows data Hd) as (res & Hrun & Hf & Hm & _). eauto.
        -- destruct (zscore_follows data thr Hd) as (res & Hrun & Hf & Hm & _). eauto.
  - intros windowSize.
    destruct (timeSeries_follows data windowSize thr Hd) as (res & Hrun & Hf & Hm & _).
    eauto.
Qed.

Lemma detection_result_follows_input_witness :
  exists res,
    AnomalyDetectionService.detectAnomalies
      [100; 120; 115; 300; 125; 130]%float 2.5%float "iqr" = Ok res
    /\ followsInput [100; 120; 115; 300; 125; 130]%float res
    /\ res.(AnomalyDetectionService.method) = "iqr".
Proof.
  exact (proj1 (detection_result_follows_input
                  [100; 120; 115; 300; 125; 130]%float 2.5%float
                  ltac:(discriminate)) "iqr").
Defined.

(** X14: The request handler in front of the production service answers every
    request it accepts: with ten values or more, none of them NaN, it
    returns a result that follows the input.  It refuses shorter series and
    series holding NaN before the service is called.  A threshold of 0 (or
    NaN, or none) is replaced by the configured default, so that the z-score
    method cannot be run with threshold 0. *)
Theorem accepted_anomaly_request_is_answered :
  forall (envThreshold : float) (dto : DetectAnomaliesUseCase.AnomalyDTO)
         (values : list float),
    dto.(DetectAnomaliesUseCase.data) = Some values ->
    let run :=
      DetectAnomaliesUseCase.execute envThreshold
        AnomalyDetectionService.detectAnomalies dto in
    ((length values < 10)%nat ->
       run = Throw (Error
               "Se requieren al menos 10 puntos de datos para detectar anomalías"))
    /\ ((10 <= length values)%nat ->
        forallb (fun v => negb (isNaN v)) values = false ->
        run = Throw (Error "Todos los valores deben ser números válidos"))
    /\ ((10 <= length values)%nat ->
        forallb (fun v => negb (isNaN v)) values = true ->
        exists res,
          run = Ok res
          /\ followsInput values res
          /\ (res.(AnomalyDetectionService.method) = "zscore" ->
              res.(AnomalyDetectionService.threshold)
              = match dto.(DetectAnomaliesUseCase.threshold) with
                | Some x =>
                    if PrimFloat.eqb x 0 || isNaN x then envThreshold else x
                | None => envThreshold
                end)).
Proof.
  intros envThreshold dto values Hdata run. subst run.
  unfold DetectAnomaliesUseCase.execute. rewrite Hdata.
  split; [|split].
  - intros Hlen. destruct (Nat.ltb_spec (length values) 10); [reflexivity|lia].
  - intros Hlen Hnan. destruct (Nat.ltb_spec (length values) 10); [lia|].
    rewrite Hnan. reflexivity.
  - intros Hlen Hnan. destruct (Nat.ltb_spec (length values) 10); [lia|].
    rewrite Hnan. cbn [negb].
    assert (Hd : values <> []) by (apply forallb_length_nonempty; assumption).
    fold (DetectAnomaliesUseCase.thresholdOrDefault envThreshold
            dto.(DetectAnomaliesUseCase.threshold)).
    set (thr := DetectAnomaliesUseCase.thresholdOrDefault _ _).
    set (meth := DetectAnomaliesUseCase.methodOrDefault _).
    unfold AnomalyDetectionService.detectAnomalies.
    destruct (String.eqb meth "zscore").
    + destruct (zscore_follows values thr Hd) as (res & Hrun & Hf & Hm & Ht). eauto.
    + destruct (String.eqb meth "iqr").
      * destruct (iqr_follows values Hd) as (res & Hrun & Hf & Hm & Ht).
        exists res. split; [exact Hrun|]. split; [exact Hf|]. rewrite Hm. discriminate.
      * destruct (String.eqb meth "isolation_forest").
        -- destruct (isolation_follows values Hd) as (res & Hrun & Hf & Hm & Ht).
           exists res. split; [exact Hrun|]. split; [exact Hf|]. rewrite Hm. discriminate.
        -- destruct (zscore_follows values thr Hd) as (res & Hrun & Hf & Hm & Ht). eauto.
Qed.

Definition tenReadings : list float :=
  [10; 11; 9; 10; 12; 10; 9; 11; 10; 50]%float.

Lemma accepted_anomaly_request_witness :
  exists res,
    DetectAnomaliesUseCase.execute 2.5%float AnomalyDetectionService.detectAnomalies
      (DetectAnomaliesUseCase.mkAnomalyDTO (Some tenReadings) (Some 0%float) None)
    = Ok res
    /\ followsInput tenReadings res
    /\ (res.(AnomalyDetectionService.method) = "zscore" ->
        res.(AnomalyDetectionService.threshold) = 2.5%float).
Proof.
  apply (proj2 (proj2 (accepted_anomaly_request_is_answered 2.5%float
           (DetectAnomaliesUseCase.mkAnomalyDTO (Some tenReadings) (Some 0%float) None)
           tenReadings eq_refl))).
  - simpl. lia.
  - vm_compute. reflexivity.
Defined.

(** ** Forecasting: shape of the answer *)

Section ForecastShape.

Import SimpleStatistics ForecastingService.
Local Open Scope float_scope.

Lemma project_length lastValue avgChange periods :
  length (project lastValue avgChange periods) = periods.
Proof.
  revert lastValue. induction periods as [|k IH]; intros lastValue; simpl;
    [reflexivity | rewrite IH; reflexivity].
Qed.

(** What every answer of [forecast] looks like. *)
Definition wellShaped (data : list float) (periods : nat) (r : ForecastResult) : Prop :=
  length r.(forecasts) = periods
  /\ Forall (fun v => (v <? 0) = false) r.(forecasts)
  /\ r.(method) = (if Nat.ltb (length data) 10 then "linear_regression"
                   else "weighted_moving_average").

Lemma forecast_wellShaped data periods conf :
  data <> [] ->
  exists r, forecast data periods conf = Ok r /\ wellShaped data periods r.
Proof.
  intros Hd. unfold forecast, wellShaped.
  destruct (Nat.ltb_spec (length data) 10) as [Hlt|Hge].
  - unfold simpleLinearForecast, calculateRSquared.
    destruct (mean_ok data Hd) as [m ->]. cbn [rbind].
    eexists. split; [reflexivity|]. cbn [forecasts method].
    split; [rewrite List.length_map, List.length_seq; reflexivity|].
    split; [|reflexivity].
    apply List.Forall_map, List.Forall_forall. intros i _. apply fmax_zero_not_negative.
  - assert (Hlen : (2 <= length data)%nat) by lia.
    unfold weightedMovingAverageForecast.
    destruct (mean_ok _ (differences_nonempty data Hlen)) as [avgChange ->].
    destruct (standardDeviation_ok _ (differences_nonempty data Hlen)) as [sd ->].
    destruct (mean_ok data Hd) as [m ->]. cbn [rbind].
    eexists. split; [reflexivity|]. cbn [forecasts method].
    split; [apply project_length|]. split; [apply project_not_negative | reflexivity].
Qed.


(** Comparisons of binary64 numbers. *)

Lemma ltb_leb x y : (x <? y) = true -> (x <=? y) = true.
Proof.
  rewrite FloatAxioms.ltb_spec, FloatAxioms.leb_spec. unfold SFltb, SFleb.
  destruct (SFcompare (Prim2SF x) (Prim2SF y)) as [[| |]|]; congruence.
Qed.

Lemma fmin_const_cases x :
  isNaN x = false -> fmin 0.95 x = (if x <? 0.95 then x else 0.95).
Proof. intros Hx. unfold fmin. change (isNaN 0.95) with false. rewrite Hx. reflexivity. Qed.

Lemma clamp_cases x :
  let c := fmax 0.5 (fmin 0.95 x) in
  isNaN c = true \/ ((0.5 <=? c) = true /\ (c <=? 0.95) = true).
Proof.
  intros c. subst c. destruct (isNaN x) eqn:Hx.
  - left. unfold fmin. change (isNaN 0.95) with false. rewrite Hx. cbn iota.
    unfold fmax. change (isNaN 0.5) with false. rewrite Hx. exact Hx.
  - rewrite (fmin_const_cases x Hx). destruct (x <? 0.95) eqn:Hlt.
    + unfold fmax. change (isNaN 0.5) with false. rewrite Hx. cbn iota.
      destruct (0.5 <? x) eqn:Hgt.
      * right. split; apply ltb_leb; assumption.
      * right. split; reflexivity.
    + right. split; reflexivity.
Qed.

Lemma fmax_zero_cases x :
  isNaN (fmax 0 x) = true \/ (0 <=? fmax 0 x) = true.
Proof.
  unfold fmax. change (isNaN 0) with false. cbn iota.
  destruct (isNaN x) eqn:Hx; [left; exact Hx|].
  destruct (0 <? x) eqn:Hgt; [right; apply ltb_leb, Hgt | right; reflexivity].
Qed.

Lemma leb_half_zero c : (0.5 <=? c) = true -> (0 <=? c) = true.
Proof.
  rewrite !FloatAxioms.leb_spec.
  change (Prim2SF 0) with (S754_zero false).
  set (h := Prim2SF 0.5). vm_compute in h. subst h.
  unfold SFleb. destruct (Prim2SF c) as [s|s| |s m e]; simpl;
    try destruct s; simpl; congruence.
Qed.

End ForecastShape.



(** X16: The confidence a forecast reports is NaN or at least 0; from ten values
    on (weighted moving average) it is NaN or lies between 0.5 and 0.95,
    whatever the variability of the series. *)
Theorem forecast_confidence_is_clamped :
  forall (data : list float) (periods : nat) (conf : float)
         (r : ForecastingService.ForecastResult),
    ForecastingService.forecast data periods conf = Ok r ->
    let c := r.(ForecastingService.confidence) in
    isNaN c = true
    \/ (PrimFloat.leb 0 c = true
        /\ ((10 <= length data)%nat ->
            PrimFloat.leb 0.5 c = true /\ PrimFloat.leb c 0.95 = true)).
Proof.
  intros data periods conf r. unfold ForecastingService.forecast.
  destruct (Nat.ltb_spec (length data) 10) as [Hlt|Hge].
  - unfold ForecastingService.simpleLinearForecast.
    destruct (ForecastingService.calculateRSquared _ _) as [rSquared|e];
      [|discriminate].
    cbn [rbind]. destruct (SimpleStatistics.mean data) as [avg|e]; [|discriminate].
    cbn [rbind]. intros H. injection H as <-. cbn [ForecastingService.confidence].
    cbv zeta.
    destruct (fmax_zero_cases
                (1 - ForecastingService.calculateMAPE data
                       (mapIndex (fun _ index =>
                          SimpleStatistics.linearRegressionLine
                            (SimpleStatistics.linearRegression
                               (mapIndex (fun value index => (ofNat index, value)) data))
                            (ofNat index)) data) / 100)%float) as [Hn|Hpos].
    + left. exact Hn.
    + right. split; [exact Hpos | intros; lia].
  - unfold ForecastingService.weightedMovingAverageForecast.
    destruct (SimpleStatistics.mean (ForecastingService.differences data))
      as [avgChange|e]; [|discriminate].
    cbn [rbind].
    destruct (SimpleStatistics.standardDeviation (ForecastingService.differences data))
      as [stdChange|e]; [|discriminate].
    cbn [rbind]. destruct (SimpleStatistics.mean data) as [avg|e]; [|discriminate].
    cbn [rbind]. intros H. injection H as <-. cbn [ForecastingService.confidence].
    cbv zeta.
    destruct (clamp_cases (1 - stdChange / PrimFloat.abs avg)%float) as [Hn|[Hlo Hhi]].
    + left. exact Hn.
    + right. split; [|intros _; split; assumption].
      apply leb_half_zero, Hlo.
Qed.

Definition steadyClimb : list float :=
  [100; 102; 104; 106; 108; 110; 112; 114; 116; 118]%float.

Lemma forecast_confidence_witness :
  exists r,
    ForecastingService.forecast steadyClimb 3 0.95%float = Ok r
    /\ (isNaN r.(ForecastingService.confidence) = true
        \/ (PrimFloat.leb 0 r.(ForecastingService.confidence) = true
            /\ ((10 <= length steadyClimb)%nat ->
                PrimFloat.leb 0.5 r.(ForecastingService.confidence) = true
                /\ PrimFloat.leb r.(ForecastingService.confidence) 0.95 = true))).
Proof.
  eexists. split; [vm_compute; reflexivity|].
  apply (forecast_confidence_is_clamped steadyClimb 3 0.95%float).
  vm_compute. reflexivity.
Defined.

Section SeasonalShape.

Import SimpleStatistics ForecastingService ForecastingSeasonal.
Local Open Scope float_scope.

Lemma rmapM_ok_In {A B : Type} (f : A -> result B) (l : list A) :
  (forall a, In a l -> exists b, f a = Ok b) ->
  exists bs, rmapM f l = Ok bs /\ length bs = length l.
Proof.
  induction l as [|a l IH]; intros Hf; simpl.
  - eexists. split; reflexivity.
  - destruct (Hf a (or_introl eq_refl)) as [b ->].
    destruct IH as (bs & -> & Hlen); [intros a' Ha'; apply Hf; right; exact Ha'|].
    cbn [rbind]. eexists. split; [reflexivity|]. simpl. rewrite Hlen. reflexivity.
Qed.

Lemma filterIndexFrom_nonempty {A : Type} (keep : nat -> bool) (l : list A) :
  forall s k, (s <= k < s + length l)%nat -> keep k = true ->
              filterIndexFrom keep s l <> [].
Proof.
  induction l as [|a l IH]; intros s k Hk Hkeep; simpl in *; [lia|].
  destruct (keep s) eqn:Hs; [discriminate|].
  apply (IH (S s) k); [|exact Hkeep].
  destruct (Nat.eq_dec s k) as [->|Hne]; [congruence | lia].
Qed.

Lemma mapIndexFrom_length {A B : Type} (f : A -> nat -> B) (i : nat) (l : list A) :
  length (mapIndexFrom f i l) = length l.
Proof.
  revert i. induction l as [|a l IH]; intros i; simpl; [reflexivity|].
  rewrite IH. reflexivity.
Qed.

Lemma decomposeTimeSeries_ok data p :
  (p * 2 <= length data)%nat ->
  exists parts, decomposeTimeSeries data p = Ok parts
                /\ length parts.(trendComponent) = length data
                /\ length parts.(seasonal) = p.
Proof.
  intros Hlen. unfold decomposeTimeSeries.
  destruct (rmapM_ok_In
              (fun i => mean (slice (i - p / 2)
                                (Nat.min (length data) (i + p / 2 + 1)) data))
              (seq 0 (length data))) as (trend & -> & Htrend).
  { intros i Hi. apply List.in_seq in Hi. apply mean_ok, slice_nonempty; lia. }
  cbn [rbind].
  destruct (rmapM_ok_In
              (fun i => mean (filterIndexFrom (fun index => Nat.eqb (index mod p) i) 0
                                (mapIndex (fun value index => value - nth index trend nan)
                                   data)))
              (seq 0 p)) as (seasonal & -> & Hseasonal).
  { intros i Hi. apply List.in_seq in Hi. apply mean_ok.
    apply (filterIndexFrom_nonempty _ _ 0%nat i).
    - unfold mapIndex. rewrite mapIndexFrom_length. lia.
    - apply Nat.eqb_eq, Nat.mod_small. lia. }
  cbn [rbind]. eexists. split; [reflexivity|].
  cbn [trendComponent ForecastingSeasonal.seasonal].
  rewrite Htrend, Hseasonal, !List.length_seq. split; reflexivity.
Qed.

Lemma add_nan_r x : x + nan = nan.
Proof.
  apply Prim2SF_inj. rewrite FloatAxioms.add_spec. change (Prim2SF nan) with S754_nan.
  destruct (Prim2SF x) as [s|s| |s m e]; reflexivity.
Qed.

End SeasonalShape.

(** X17: The seasonal forecast.  With at least two full seasons of data (and a
    period of 1 or more) it returns exactly the requested number of values,
    none below zero, labelled as a seasonal decomposition; with less than
    two seasons it is the plain linear-regression forecast; and with a
    period of 0 every value it returns is NaN, because the seasonal index is
    a remainder by zero. *)
Theorem seasonal_forecast_shape :
  forall (data : list float) (periods p : nat),
    ((1 <= p)%nat -> (2 * p <= length data)%nat ->
       exists r,
         ForecastingSeasonal.forecastWithSeasonality data periods p = Ok r
         /\ length r.(ForecastingService.forecasts) = periods
         /\ Forall (fun v => PrimFloat.ltb v 0 = false) r.(ForecastingService.forecasts)
         /\ r.(ForecastingService.method) = "seasonal_decomposition")
    /\ ((length data < 2 * p)%nat ->
        ForecastingSeasonal.forecastWithSeasonality data periods p
        = ForecastingService.simpleLinearForecast data periods 0.95%float)
    /\ (p = 0%nat -> data <> [] ->
        exists r,
          ForecastingSeasonal.forecastWithSeasonality data periods p = Ok r
          /\ length r.(ForecastingService.forecasts) = periods
          /\ Forall (fun v => isNaN v = true) r.(ForecastingService.forecasts)).
Proof.
  intros data periods p. unfold ForecastingSeasonal.forecastWithSeasonality.
  split; [|split].
  - intros Hp Hlen.
    destruct (Nat.ltb_spec (length data) (p * 2)) as [|_]; [lia|].
    destruct (decomposeTimeSeries_ok data p) as (parts & -> & Htrend & _); [lia|].
    cbn [rbind].
    assert (Hne : ForecastingSeasonal.trendComponent parts <> []).
    { intros E. rewrite E in Htrend. simpl in Htrend. lia. }
    destruct (forecast_wellShaped _ periods 0.95%float Hne) as (tf & -> & _).
    cbn [rbind]. eexists. split; [reflexivity|].
    cbn [ForecastingService.forecasts ForecastingService.method].
    split; [rewrite List.length_map, List.length_seq; reflexivity|].
    split; [|reflexivity].
    apply List.Forall_map, List.Forall_forall. intros i _. apply fmax_zero_not_negative.
  - intros Hlen.
    destruct (Nat.ltb_spec (length data) (p * 2)) as [_|]; [reflexivity|lia].
  - intros -> Hd. cbn [Nat.mul Nat.ltb Nat.leb].
    destruct (decomposeTimeSeries_ok data 0) as (parts & -> & Htrend & _); [simpl; lia|].
    cbn [rbind].
    assert (Hne : ForecastingSeasonal.trendComponent parts <> []).
    { intros E. rewrite E in Htrend. destruct data; [congruence|discriminate]. }
    destruct (forecast_wellShaped _ periods 0.95%float Hne) as (tf & -> & _).
    cbn [rbind]. eexists. split; [reflexivity|].
    cbn [ForecastingService.forecasts].
    split; [rewrite List.length_map, List.length_seq; reflexivity|].
    apply List.Forall_map, List.Forall_forall. intros i _.
    cbn [ForecastingSeasonal.seasonalAt]. rewrite add_nan_r. reflexivity.
Qed.

Definition twoSeasons : list float := [10; 20; 12; 22; 14; 24]%float.

Lemma seasonal_forecast_witness :
  exists r,
    ForecastingSeasonal.forecastWithSeasonality twoSeasons 4 2 = Ok r
    /\ length r.(ForecastingService.forecasts) = 4%nat
    /\ Forall (fun v => PrimFloat.ltb v 0 = false) r.(ForecastingService.forecasts)
    /\ r.(ForecastingService.method) = "seasonal_decomposition".
Proof.
  apply (proj1 (seasonal_forecast_shape twoSeasons 4 2)); simpl; lia.
Defined.

(** ** Submission: what an accepted and a refused request leave behind *)

Section SubmissionOutcomes.

Import Report GenerateReportUseCase.

(** The two jobs of a submission. *)
Definition renderJob (cfg : Config) (freshId : string) (dto : GenerateReportDTO)
    (t : Z) : Job :=
  mkJob "generate-report"
    (RenderJob freshId dto.(dtoData) dto.(dtoUserId) dto.(dtoFormat)
       (submitted freshId dto t).(metadata) dto.(dtoEmailTo))
    freshId cfg.(queueMaxRetries) 5000.

Definition analysisJob (cfg : Config) (freshId : string) (dto : GenerateReportDTO) : Job :=
  mkJob "analyze-data"
    (MLJob freshId dto.(dtoData) cfg.(envAnomalyDetection) cfg.(envForecasting)
       cfg.(envKPISuggestions))
    ("ml-" ++ freshId) 2 10000.

(** Whether the submission asks for the analysis job. *)
Definition wantsAnalysis (cfg : Config) (dto : GenerateReportDTO) : bool :=
  (match dto.(dtoAiAnalysisEnabled) with Some b => b | None => true end)
  && (cfg.(mlMinDataPoints) <=? Z.of_nat (length dto.(dtoData)))%Z.

(** No job of the queue carries the id. *)
Definition unqueued (jid : string) (q : Queue) : Prop :=
  existsb (fun j => String.eqb j.(jobId) jid) q.(jobs) = false.

Variable cfg : Config.
Variable freshId : string.
Variable msg : nat -> ReportFormat -> Z -> string.

(** The run of [execute] up to the enqueue of the render job. *)
Lemma execute_render_enqueued (dto : GenerateReportDTO) (w : World)
    (docs : gmap string Report) :
  (Z.of_nat (length dto.(dtoData)) <= ReportDomainService.getMaxRows cfg dto.(dtoFormat))%Z ->
  ReportDomainService.validateReport (submitted freshId dto w.(clock)) = Ok tt ->
  w.(collection) = Some docs ->
  docs !! freshId = None ->
  w.(reportQueue).(connected) = true ->
  unqueued freshId w.(reportQueue) ->
  let w1 :=
    mkWorld (Some (<[freshId := submitted freshId dto w.(clock)]> docs))
      (mkQueue true (w.(reportQueue).(jobs) ++ [renderJob cfg freshId dto w.(clock)])%list)
      w.(mlQueue) w.(clock) in
  execute cfg freshId msg dto w
  = if wantsAnalysis cfg dto then
      match addToMlQueue (analysisJob cfg freshId dto) w1 with
      | (Ok _, w2) => (Ok (toDTO (submitted freshId dto w.(clock))), w2)
      | (Throw e, w2) => (Throw e, w2)
      end
    else (Ok (toDTO (submitted freshId dto w.(clock))), w1).
Proof.
  intros Hsize Hvalid Hdocs Hfresh Hconn Hnew w1.
  unfold execute.
  destruct (Z.ltb_spec (ReportDomainService.getMaxRows cfg (dtoFormat dto))
              (Z.of_nat (length (dtoData dto)))) as [Hlt|_]; [lia|].
  unfold bind at 1. unfold now at 1. cbn iota beta.
  fold (submitted freshId dto (clock w)).
  unfold bind at 1. unfold liftResult at 1. rewrite Hvalid.
  unfold bind at 1. unfold MongoReportRepository.save at 1.
  rewrite Hdocs. change (id (submitted freshId dto (clock w))) with freshId.
  rewrite Hfresh.
  unfold bind at 1. unfold addToReportQueue at 1, queueAdd.
  cbn [reportQueue setCollection jobId]. rewrite Hconn.
  unfold unqueued in Hnew. rewrite Hnew.
  change (setReportQueue _ (setCollection _ w)) with w1.
  change (aiAnalysisEnabled (submitted freshId dto (clock w))
          && ReportDomainService.shouldEnableMLAnalysis cfg (length (dtoData dto)))
    with (wantsAnalysis cfg dto).
  destruct (wantsAnalysis cfg dto).
  - unfold bind at 1. fold (analysisJob cfg freshId dto).
    destruct (addToMlQueue (analysisJob cfg freshId dto) w1) as [[[]|e] w2]; reflexivity.
  - reflexivity.
Qed.

End SubmissionOutcomes.

(** X18: A submission that passes the size check and the validation, made with
    an id that is new to the store and to the queues, is answered with the
    [PENDING] report's view; the report is stored under its id, the render
    job is appended to the render queue under the same id, and the analysis
    job, identified by ["ml-"] and the report id, is appended to the analysis
    queue exactly when analysis is enabled for the report and the data has
    at least the configured number of rows.  No other stored document
    changes. *)
Theorem accepted_submission_is_stored_and_queued :
  forall (cfg : Config) (freshId : string)
         (msg : nat -> Report.ReportFormat -> Z -> string)
         (dto : GenerateReportUseCase.GenerateReportDTO) (w : World)
         (docs : gmap string Report.Report),
    (Z.of_nat (length dto.(GenerateReportUseCase.dtoData))
       <= ReportDomainService.getMaxRows cfg dto.(GenerateReportUseCase.dtoFormat))%Z ->
    ReportDomainService.validateReport (submitted freshId dto w.(clock)) = Ok tt ->
    w.(collection) = Some docs ->
    docs !! freshId = None ->
    w.(reportQueue).(connected) = true ->
    w.(mlQueue).(connected) = true ->
    unqueued freshId w.(reportQueue) ->
    unqueued ("ml-" ++ freshId) w.(mlQueue) ->
    let out := GenerateReportUseCase.execute cfg freshId msg dto w in
    let report := submitted freshId dto w.(clock) in
    fst out = Ok (GenerateReportUseCase.toDTO report)
    /\ (GenerateReportUseCase.toDTO report).(GenerateReportUseCase.resStatus)
       = Report.PENDING
    /\ (snd out).(collection) = Some (<[freshId := report]> docs)
    /\ (snd out).(reportQueue).(jobs)
       = (w.(reportQueue).(jobs) ++ [renderJob cfg freshId dto w.(clock)])%list
    /\ (snd out).(mlQueue).(jobs)
       = (if wantsAnalysis cfg dto
          then (w.(mlQueue).(jobs) ++ [analysisJob cfg freshId dto])%list
          else w.(mlQueue).(jobs)).
Proof.
  intros cfg freshId msg dto w docs Hsize Hvalid Hdocs Hfresh Hrq Hmq Hnew Hnewml
    out report.
  subst out report.
  rewrite (execute_render_enqueued cfg freshId msg dto w docs) by assumption.
  destruct (wantsAnalysis cfg dto).
  - unfold addToMlQueue, queueAdd. cbn [mlQueue jobId analysisJob].
    rewrite Hmq. unfold unqueued in Hnewml. rewrite Hnewml.
    cbn [fst snd setMlQueue collection reportQueue mlQueue jobs]. repeat split.
  - cbn [fst snd collection reportQueue mlQueue jobs]. repeat split.
Qed.

Definition openWorld : World :=
  mkWorld (Some ∅) (mkQueue true []) (mkQueue true []) 1000.

Lemma accepted_submission_witness :
  let out :=
    GenerateReportUseCase.execute sampleConfig "rep-1" rowLimitText sampleDTO openWorld in
  let report := submitted "rep-1" sampleDTO 1000 in
  fst out = Ok (GenerateReportUseCase.toDTO report)
  /\ (GenerateReportUseCase.toDTO report).(GenerateReportUseCase.resStatus)
     = Report.PENDING
  /\ (snd out).(collection) = Some (<["rep-1" := report]> ∅)
  /\ (snd out).(reportQueue).(jobs)
     = ([] ++ [renderJob sampleConfig "rep-1" sampleDTO 1000])%list
  /\ (snd out).(mlQueue).(jobs)
     = (if wantsAnalysis sampleConfig sampleDTO
        then ([] ++ [analysisJob sampleConfig "rep-1" sampleDTO])%list
        else []).
Proof.
  apply (accepted_submission_is_stored_and_queued sampleConfig "rep-1" rowLimitText
           sampleDTO openWorld ∅).
  - vm_compute. discriminate.
  - reflexivity.
  - reflexivity.
  - reflexivity.
  - reflexivity.
  - reflexivity.
  - reflexivity.
  - reflexivity.
Defined.



(** X20: When the analysis queue is down and the submission asks for analysis,
    the call fails with the queue's error after the report has been stored
    and its render job enqueued: the caller is told of a failure, and the
    report is rendered all the same. *)
Theorem analysis_queue_down_after_render_enqueued :
  forall (cfg : Config) (freshId : string)
         (msg : nat -> Report.ReportFormat -> Z -> string)
         (dto : GenerateReportUseCase.GenerateReportDTO) (w : World)
         (docs : gmap string Report.Report),
    (Z.of_nat (length dto.(GenerateReportUseCase.dtoData))
       <= ReportDomainService.getMaxRows cfg dto.(GenerateReportUseCase.dtoFormat))%Z ->
    ReportDomainService.validateReport (submitted freshId dto w.(clock)) = Ok tt ->
    w.(collection) = Some docs ->
    docs !! freshId = None ->
    w.(reportQueue).(connected) = true ->
    unqueued freshId w.(reportQueue) ->
    wantsAnalysis cfg dto = true ->
    w.(mlQueue).(connected) = false ->
    let out := GenerateReportUseCase.execute cfg freshId msg dto w in
    fst out = Throw (Error "Connection is closed.")
    /\ MongoReportRepository.stored (snd out) freshId
       = Some (submitted freshId dto w.(clock))
    /\ (snd out).(reportQueue).(jobs)
       = (w.(reportQueue).(jobs) ++ [renderJob cfg freshId dto w.(clock)])%list
    /\ (snd out).(mlQueue) = w.(mlQueue).
Proof.
  intros cfg freshId msg dto w docs Hsize Hvalid Hdocs Hfresh Hrq Hnew Hwant Hdown out.
  subst out.
  rewrite (execute_render_enqueued cfg freshId msg dto w docs) by assumption.
  rewrite Hwant. unfold addToMlQueue, queueAdd. cbn [mlQueue]. rewrite Hdown.
  unfold MongoReportRepository.stored.
  cbn [fst snd setMlQueue collection reportQueue mlQueue jobs].
  rewrite lookup_insert_eq. destruct (mlQueue w). repeat split.
Qed.

Definition analysisQueueDown : World :=
  mkWorld (Some ∅) (mkQueue true []) (mkQueue false []) 1000.

Definition eagerConfig : Config := mkConfig 100000 1000000 1 3 true true true.

Lemma analysis_queue_down_witness :
  let out :=
    GenerateReportUseCase.execute eagerConfig "rep-1" rowLimitText sampleDTO
      analysisQueueDown in
  fst out = Throw (Error "Connection is closed.")
  /\ MongoReportRepository.stored (snd out) "rep-1"
     = Some (submitted "rep-1" sampleDTO 1000)
  /\ (snd out).(reportQueue).(jobs)
     = ([] ++ [renderJob eagerConfig "rep-1" sampleDTO 1000])%list
  /\ (snd out).(mlQueue) = analysisQueueDown.(mlQueue).
Proof.
  apply (analysis_queue_down_after_render_enqueued eagerConfig "rep-1" rowLimitText
           sampleDTO analysisQueueDown ∅).
  - vm_compute. discriminate.
  - reflexivity.
  - reflexivity.
  - reflexivity.
  - reflexivity.
  - reflexivity.
  - reflexivity.
  - reflexivity.
Defined.

(** ** The render worker: what a run stores *)

Section RenderRuns.

Import Report ReportWorker.

Variable storagePath : string.
Variable apiBaseUrl : string.
Variable pathJoin : string -> string -> string.
Variable excelGenerate : list row -> ReportMetadata -> string -> result unit.
Variable pdfGenerate : list row -> ReportMetadata -> string -> result unit.
Variable pdfAdvancedGenerate : list row -> ReportMetadata -> string -> result unit.
Variable csvGenerate : list row -> ReportMetadata -> string -> result unit.
Variable writeJSON : list row -> string -> result unit.
Variable statSize : string -> result Z.
Variable updateProgress : string -> nat -> result unit.

(** The report as the worker completes it. *)
Definition completedBy (job : ReportJobData) (size t : Z) (report : Report) : Report :=
  markAsCompleted (filePathOf storagePath pathJoin job) size
    (downloadUrlOf apiBaseUrl job) t t (markAsProcessing report).

(** What a run of [processReport] on a stored report comes to. *)
Lemma processReport_run (job : ReportJobData) (w : World)
    (docs : gmap string Report) (report : Report) :
  w.(collection) = Some docs ->
  docs !! job.(reportId) = Some report ->
  report.(id) = job.(reportId) ->
  processReport storagePath apiBaseUrl pathJoin excelGenerate pdfGenerate
    pdfAdvancedGenerate csvGenerate writeJSON statSize updateProgress job w
  = match produce storagePath pathJoin excelGenerate pdfGenerate pdfAdvancedGenerate
            csvGenerate writeJSON statSize updateProgress job with
    | Throw e =>
        (Throw e,
         setCollection
           (Some (<[job.(reportId) :=
                      markAsFailed (message e) w.(clock) (markAsProcessing report)]> docs)) w)
    | Ok size =>
        match announce updateProgress with
        | Ok _ =>
            (Ok tt,
             setCollection
               (Some (<[job.(reportId) := completedBy job size w.(clock) report]> docs)) w)
        | Throw e =>
            (Throw e,
             setCollection
               (Some (<[job.(reportId) :=
                          markAsFailed (message e) w.(clock)
                            (completedBy job size w.(clock) report)]> docs)) w)
        end
    end.
Proof.
  intros Hdocs Hfound Hid.
  unfold processReport, bind at 1, MongoReportRepository.findById.
  rewrite Hdocs, Hfound.
  unfold withReport, tryCatch, render.
  unfold bind at 1, mutate at 1. cbn [fst snd].
  unfold bind at 1, persist at 1, MongoReportRepository.update. cbn [fst snd].
  rewrite Hdocs.
  change (id (markAsProcessing report)) with (id report).
  rewrite Hid, Hfound.
  unfold produce, announce, completedBy.
  unfold bind at 1, progress at 1, liftResult at 1.
  destruct (updateProgress "processing" 10) as [[]|e]; cbn [rbind].
  2:{ unfold failReport, bind, liftW, now, mutate, persist, throw,
        MongoReportRepository.update.
      cbn [fst snd collection setCollection clock].
      change (id (markAsFailed ?m ?t (markAsProcessing report))) with (id report).
      rewrite Hid, lookup_insert_eq.
      cbn [fst snd collection setCollection reportQueue mlQueue clock].
      rewrite insert_insert_eq. reflexivity. }
  cbv zeta.
  unfold bind at 1, progress at 1, liftResult at 1.
  destruct (updateProgress "generating" 30) as [[]|e]; cbn [rbind].
  2:{ unfold failReport, bind, liftW, now, mutate, persist, throw,
        MongoReportRepository.update.
      cbn [fst snd collection setCollection clock].
      change (id (markAsFailed ?m ?t (markAsProcessing report))) with (id report).
      rewrite Hid, lookup_insert_eq.
      cbn [fst snd collection setCollection reportQueue mlQueue clock].
      rewrite insert_insert_eq. reflexivity. }
  unfold bind at 1, liftResult at 1.
  destruct (generateFile _ _ _ _ _ job _) as [[]|e]; cbn [rbind].
  2:{ unfold failReport, bind, liftW, now, mutate, persist, throw,
        MongoReportRepository.update.
      cbn [fst snd collection setCollection clock].
      change (id (markAsFailed ?m ?t (markAsProcessing report))) with (id report).
      rewrite Hid, lookup_insert_eq.
      cbn [fst snd collection setCollection reportQueue mlQueue clock].
      rewrite insert_insert_eq. reflexivity. }
  unfold bind at 1, progress at 1, liftResult at 1.
  destruct (updateProgress "uploading" 80) as [[]|e]; cbn [rbind].
  2:{ unfold failReport, bind, liftW, now, mutate, persist, throw,
        MongoReportRepository.update.
      cbn [fst snd collection setCollection clock].
      change (id (markAsFailed ?m ?t (markAsProcessing report))) with (id report).
      rewrite Hid, lookup_insert_eq.
      cbn [fst snd collection setCollection reportQueue mlQueue clock].
      rewrite insert_insert_eq. reflexivity. }
  unfold bind at 1, liftResult at 1.
  destruct (statSize _) as [size|e].
  2:{ unfold failReport, bind, liftW, now, mutate, persist, throw,
        MongoReportRepository.update.
      cbn [fst snd collection setCollection clock].
      change (id (markAsFailed ?m ?t (markAsProcessing report))) with (id report).
      rewrite Hid, lookup_insert_eq.
      cbn [fst snd collection setCollection reportQueue mlQueue clock].
      rewrite insert_insert_eq. reflexivity. }
  cbv zeta.
  unfold bind at 1, liftW at 1, now at 1. cbn [fst snd clock setCollection].
  unfold bind at 1, mutate at 1. cbn [fst snd].
  unfold bind at 1, persist at 1, MongoReportRepository.update.
  cbn [fst snd collection setCollection].
  change (id (markAsCompleted ?p ?s ?u ?t ?t' (markAsProcessing report))) with (id report).
  rewrite Hid, lookup_insert_eq.
  cbn [fst snd collection setCollection reportQueue mlQueue clock].
  rewrite insert_insert_eq.
  unfold bind at 1, progress at 1, liftResult at 1.
  destruct (updateProgress "completed" 90) as [[]|e]; cbn [rbind].
  2:{ unfold failReport, bind, liftW, now, mutate, persist, throw,
        MongoReportRepository.update.
      cbn [fst snd collection setCollection clock].
      change (id (markAsFailed ?m ?t
                    (markAsCompleted ?p ?s ?u ?t1 ?t2 (markAsProcessing report))))
        with (id report).
      rewrite Hid, lookup_insert_eq.
      cbn [fst snd collection setCollection reportQueue mlQueue clock].
      rewrite insert_insert_eq. reflexivity. }
  unfold bind at 1.
  assert (Hmail : forall s : Report * World,
            (match emailTo job with
             | Some recipient =>
                 if String.eqb recipient "" then ret tt else sendEmail recipient
             | None => ret tt
             end) s = (Ok tt, s)).
  { intros s. destruct (emailTo job) as [a|]; [destruct (String.eqb a "")|];
      reflexivity. }
  rewrite Hmail.
  unfold bind at 1, progress at 1, liftResult at 1.
  destruct (updateProgress "done" 100) as [[]|e].
  2:{ unfold failReport, bind, liftW, now, mutate, persist, throw,
        MongoReportRepository.update.
      cbn [fst snd collection setCollection clock].
      change (id (markAsFailed ?m ?t
                    (markAsCompleted ?p ?s ?u ?t1 ?t2 (markAsProcessing report))))
        with (id report).
      rewrite Hid, lookup_insert_eq.
      cbn [fst snd collection setCollection reportQueue mlQueue clock].
      rewrite insert_insert_eq. reflexivity. }
  reflexivity.
Qed.

End RenderRuns.

(** The world at a later instant. *)
Definition atTime (t : Z) (w : World) : World :=
  mkWorld w.(collection) w.(reportQueue) w.(mlQueue) t.

Section DownloadRuns.

Import Report DownloadReportUseCase.

Variable existsSync : string -> bool.
Variable statSize : string -> Z.

Lemma download_unavailable dto w docs report :
  w.(collection) = Some docs ->
  docs !! dto.(reportId) = Some report ->
  ReportRead.canBeDownloaded w.(clock) report = false ->
  exists e, execute existsSync statSize dto w = (Throw e, w).
Proof.
  intros Hdocs Hfound Hcan.
  unfold execute, bind at 1, MongoReportRepository.findById.
  rewrite Hdocs, Hfound.
  destruct (negb (String.eqb (Report.userId report) (DownloadReportUseCase.userId dto)));
    [eexists; reflexivity|].
  unfold bind at 1, now at 1. rewrite Hcan. cbn [negb].
  destruct (ReportRead.isExpired (clock w) report); eexists; reflexivity.
Qed.

Lemma download_served dto w docs report path :
  w.(collection) = Some docs ->
  docs !! dto.(reportId) = Some report ->
  report.(id) = dto.(reportId) ->
  report.(Report.userId) = dto.(DownloadReportUseCase.userId) ->
  ReportRead.canBeDownloaded w.(clock) report = true ->
  report.(Report.filePath) = Some path ->
  path <> "" ->
  existsSync path = true ->
  execute existsSync statSize dto w
  = (Ok (mkDownloadResult path (ReportRead.getFileName report)
           (getMimeType report.(format))
           (match report.(Report.fileSize) with
            | Some n => if (n =? 0)%Z then statSize path else n
            | None => statSize path
            end)),
     setCollection (Some (<[dto.(reportId) := incrementDownloadCount report]> docs)) w).
Proof.
  intros Hdocs Hfound Hid Howner Hcan Hpath Hne Hexists.
  unfold execute, bind at 1, MongoReportRepository.findById.
  rewrite Hdocs, Hfound, Howner, String.eqb_refl. cbn [negb].
  unfold bind at 1, now at 1. rewrite Hcan, Hpath. cbn [negb].
  apply String.eqb_neq in Hne. rewrite Hne, Hexists. cbn [orb negb].
  unfold withReport, bind, mutate, persist, MongoReportRepository.update, ret.
  cbn [fst snd]. rewrite Hdocs.
  change (id (incrementDownloadCount report)) with (id report).
  rewrite Hid, Hfound. reflexivity.
Qed.

End DownloadRuns.

(** X21: A render job whose file is produced and whose notifications go through
    completes the report: the stored report is [COMPLETED] with the path
    under the storage directory, the size read from the file system and the
    download link of the report; an error recorded by an earlier, failed
    attempt stays on it.  From then on, and up to seven days after the
    completion, the owner's download request is served with that file. *)
Theorem rendered_report_is_served_to_its_owner :
  forall (storagePath apiBaseUrl : string) (pathJoin : string -> string -> string)
         (excelGenerate pdfGenerate pdfAdvancedGenerate csvGenerate :
            list row -> Report.ReportMetadata -> string -> result unit)
         (writeJSON : list row -> string -> result unit)
         (statSync : string -> result Z) (updateProgress : string -> nat -> result unit)
         (job : ReportWorker.ReportJobData) (w : World)
         (docs : gmap string Report.Report) (report : Report.Report) (size : Z),
    w.(collection) = Some docs ->
    docs !! job.(ReportWorker.reportId) = Some report ->
    report.(Report.id) = job.(ReportWorker.reportId) ->
    ReportWorker.produce storagePath pathJoin excelGenerate pdfGenerate
      pdfAdvancedGenerate csvGenerate writeJSON statSync updateProgress job = Ok size ->
    ReportWorker.announce updateProgress = Ok tt ->
    let out :=
      ReportWorker.processReport storagePath apiBaseUrl pathJoin excelGenerate
        pdfGenerate pdfAdvancedGenerate csvGenerate writeJSON statSync updateProgress
        job w in
    let path := ReportWorker.filePathOf storagePath pathJoin job in
    let done := completedBy storagePath apiBaseUrl pathJoin job size w.(clock) report in
    fst out = Ok tt
    /\ MongoReportRepository.stored (snd out) job.(ReportWorker.reportId) = Some done
    /\ done.(Report.status) = Report.COMPLETED
    /\ done.(Report.filePath) = Some path
    /\ done.(Report.fileSize) = Some size
    /\ done.(Report.expiresAt) = Some (w.(clock) + 604800000)%Z
    /\ done.(Report.error) = report.(Report.error)
    /\ forall (existsSync : string -> bool) (statSize : string -> Z) (t : Z),
         (t <= w.(clock) + 604800000)%Z ->
         path <> "" ->
         existsSync path = true ->
         fst (DownloadReportUseCase.execute existsSync statSize
                (DownloadReportUseCase.mkDownloadReportDTO job.(ReportWorker.reportId)
                   report.(Report.userId))
                (atTime t (snd out)))
         = Ok (DownloadReportUseCase.mkDownloadResult path
                 (ReportRead.getFileName report)
                 (DownloadReportUseCase.getMimeType report.(Report.format))
                 (if (size =? 0)%Z then statSize path else size)).
Proof.
  intros storagePath apiBaseUrl pathJoin excelGenerate pdfGenerate pdfAdvancedGenerate
    csvGenerate writeJSON statSync updateProgress job w docs report size
    Hdocs Hfound Hid Hproduce Hannounce out path done.
  subst out path done.
  rewrite (processReport_run storagePath apiBaseUrl pathJoin excelGenerate pdfGenerate
             pdfAdvancedGenerate csvGenerate writeJSON statSync updateProgress
             job w docs report Hdocs Hfound Hid).
  rewrite Hproduce, Hannounce.
  unfold MongoReportRepository.stored. cbn [fst snd setCollection collection].
  rewrite lookup_insert_eq.
  repeat (split; [reflexivity|]).
  intros existsSync statSize t Ht Hne Hexists.
  rewrite (download_served existsSync statSize
             (DownloadReportUseCase.mkDownloadReportDTO job.(ReportWorker.reportId)
                report.(Report.userId))
             _ (<[job.(ReportWorker.reportId) :=
                    completedBy storagePath apiBaseUrl pathJoin job size w.(clock) report]>
                  docs)
             (completedBy storagePath apiBaseUrl pathJoin job size w.(clock) report)
             (ReportWorker.filePathOf storagePath pathJoin job));
    [reflexivity | reflexivity | | exact Hid | reflexivity | | reflexivity | exact Hne
    | exact Hexists].
  - cbn [DownloadReportUseCase.reportId]. apply lookup_insert_eq.
  - unfold ReportRead.canBeDownloaded, ReportRead.isExpired.
    cbn [atTime clock completedBy Report.markAsCompleted Report.status
         Report.expiresAt Report.status_eqb andb negb].
    destruct (Z.ltb_spec (clock w + 7 * 24 * 60 * 60 * 1000) t); [lia|reflexivity].
Qed.

(** A runtime in which every generator and every notification succeeds and
    every file holds 2048 bytes. *)
Definition joinPath (dir file : string) : string := dir ++ "/" ++ file.

Definition renderSampleJob : ReportWorker.ReportJobData :=
  ReportWorker.mkReportJobData "rep-1"
    [[("producto", VStr "A"); ("ventas", VNum 1500)]] "user-1" Report.PDF
    sampleMetadata None.

Lemma rendered_report_witness :
  let out :=
    ReportWorker.processReport "/data" "http://host" joinPath
      (fun _ _ _ => Ok tt) (fun _ _ _ => Ok tt) (fun _ _ _ => Ok tt)
      (fun _ _ _ => Ok tt) (fun _ _ => Ok tt) (fun _ => Ok 2048%Z) (fun _ _ => Ok tt)
      renderSampleJob storedSample in
  let path := ReportWorker.filePathOf "/data" joinPath renderSampleJob in
  let done := completedBy "/data" "http://host" joinPath renderSampleJob 2048 5000
                sampleReport in
  fst out = Ok tt
  /\ MongoReportRepository.stored (snd out) "rep-1" = Some done
  /\ done.(Report.status) = Report.COMPLETED
  /\ done.(Report.filePath) = Some path
  /\ done.(Report.fileSize) = Some 2048%Z
  /\ done.(Report.expiresAt) = Some (5000 + 604800000)%Z
  /\ done.(Report.error) = None
  /\ forall (existsSync : string -> bool) (statSize : string -> Z) (t : Z),
       (t <= 5000 + 604800000)%Z ->
       path <> "" ->
       existsSync path = true ->
       fst (DownloadReportUseCase.execute existsSync statSize
              (DownloadReportUseCase.mkDownloadReportDTO "rep-1" "user-1")
              (atTime t (snd out)))
       = Ok (DownloadReportUseCase.mkDownloadResult path
               (ReportRead.getFileName sampleReport)
               (DownloadReportUseCase.getMimeType Report.PDF)
               (if (2048 =? 0)%Z then statSize path else 2048%Z)).
Proof.
  apply (rendered_report_is_served_to_its_owner "/data" "http://host" joinPath
           (fun _ _ _ => Ok tt) (fun _ _ _ => Ok tt) (fun _ _ _ => Ok tt)
           (fun _ _ _ => Ok tt) (fun _ _ => Ok tt) (fun _ => Ok 2048%Z)
           (fun _ _ => Ok tt) renderSampleJob storedSample
           (<["rep-1" := sampleReport]> ∅) sampleReport 2048%Z).
  - reflexivity.
  - vm_compute. reflexivity.
  - reflexivity.
  - reflexivity.
  - reflexivity.
Defined.

(** X22: A render job that fails before the file is complete (a progress
    notification, the generator or the size lookup throws) records the
    failure and rethrows it: the stored report is [FAILED] with the error's
    message, its artifact fields are as they were before the attempt, and
    no download of it is served. *)
Theorem failed_render_is_recorded_and_rethrown :
  forall (storagePath apiBaseUrl : string) (pathJoin : string -> string -> string)
         (excelGenerate pdfGenerate pdfAdvancedGenerate csvGenerate :
            list row -> Report.ReportMetadata -> string -> result unit)
         (writeJSON : list row -> string -> result unit)
         (statSync : string -> result Z) (updateProgress : string -> nat -> result unit)
         (job : ReportWorker.ReportJobData) (w : World)
         (docs : gmap string Report.Report) (report : Report.Report) (e : exn),
    w.(collection) = Some docs ->
    docs !! job.(ReportWorker.reportId) = Some report ->
    report.(Report.id) = job.(ReportWorker.reportId) ->
    ReportWorker.produce storagePath pathJoin excelGenerate pdfGenerate
      pdfAdvancedGenerate csvGenerate writeJSON statSync updateProgress job = Throw e ->
    let out :=
      ReportWorker.processReport storagePath apiBaseUrl pathJoin excelGenerate
        pdfGenerate pdfAdvancedGenerate csvGenerate writeJSON statSync updateProgress
        job w in
    fst out = Throw e
    /\ exists failed,
         MongoReportRepository.stored (snd out) job.(ReportWorker.reportId) = Some failed
         /\ failed.(Report.status) = Report.FAILED
         /\ failed.(Report.error) = Some (message e)
         /\ failed.(Report.filePath) = report.(Report.filePath)
         /\ failed.(Report.fileSize) = report.(Report.fileSize)
         /\ failed.(Report.downloadUrl) = report.(Report.downloadUrl)
         /\ forall (existsSync : string -> bool) (statSize : string -> Z)
                   (dto : DownloadReportUseCase.DownloadReportDTO) (t : Z),
              dto.(DownloadReportUseCase.reportId) = job.(ReportWorker.reportId) ->
              exists e',
                fst (DownloadReportUseCase.execute existsSync statSize dto
                       (atTime t (snd out))) = Throw e'.
Proof.
  intros storagePath apiBaseUrl pathJoin excelGenerate pdfGenerate pdfAdvancedGenerate
    csvGenerate writeJSON statSync updateProgress job w docs report e
    Hdocs Hfound Hid Hproduce out.
  subst out.
  rewrite (processReport_run storagePath apiBaseUrl pathJoin excelGenerate pdfGenerate
             pdfAdvancedGenerate csvGenerate writeJSON statSync updateProgress
             job w docs report Hdocs Hfound Hid).
  rewrite Hproduce. split; [reflexivity|].
  set (failed := Report.markAsFailed (message e) (clock w) (Report.markAsProcessing report)).
  exists failed. unfold MongoReportRepository.stored.
  cbn [fst snd setCollection collection].
  rewrite lookup_insert_eq.
  repeat (split; [reflexivity|]).
  intros existsSync statSize dto t Hdto.
  destruct (download_unavailable existsSync statSize dto
              (atTime t (setCollection
                           (Some (<[ReportWorker.reportId job := failed]> docs)) w))
              (<[ReportWorker.reportId job := failed]> docs) failed) as [e' He'].
  - reflexivity.
  - rewrite Hdto. apply lookup_insert_eq.
  - reflexivity.
  - exists e'. rewrite He'. reflexivity.
Qed.

Lemma failed_render_witness :
  let out :=
    ReportWorker.processReport "/data" "http://host" joinPath
      (fun _ _ _ => Ok tt) (fun _ _ _ => Throw (Error "disk full")) (fun _ _ _ => Ok tt)
      (fun _ _ _ => Ok tt) (fun _ _ => Ok tt) (fun _ => Ok 2048%Z) (fun _ _ => Ok tt)
      renderSampleJob storedSample in
  fst out = Throw (Error "disk full")
  /\ exists failed,
       MongoReportRepository.stored (snd out) "rep-1" = Some failed
       /\ failed.(Report.status) = Report.FAILED
       /\ failed.(Report.error) = Some "disk full"
       /\ failed.(Report.filePath) = None
       /\ failed.(Report.fileSize) = None
       /\ failed.(Report.downloadUrl) = None
       /\ forall (existsSync : string -> bool) (statSize : string -> Z)
                 (dto : DownloadReportUseCase.DownloadReportDTO) (t : Z),
            dto.(DownloadReportUseCase.reportId) = "rep-1" ->
            exists e',
              fst (DownloadReportUseCase.execute existsSync statSize dto
                     (atTime t (snd out))) = Throw e'.
Proof.
  apply (failed_render_is_recorded_and_rethrown "/data" "http://host" joinPath
           (fun _ _ _ => Ok tt) (fun _ _ _ => Throw (Error "disk full"))
           (fun _ _ _ => Ok tt) (fun _ _ _ => Ok tt) (fun _ _ => Ok tt)
           (fun _ => Ok 2048%Z) (fun _ _ => Ok tt) renderSampleJob storedSample
           (<["rep-1" := sampleReport]> ∅) sampleReport (Error "disk full")).
  - reflexivity.
  - vm_compute. reflexivity.
  - reflexivity.
  - reflexivity.
Defined.

(** X23: When a progress notification fails after the completed report has been
    written, the [catch] block marks that report [FAILED] and rethrows: the
    stored report then carries the finished file's path, size and link
    together with an error, and is no longer served although its file
    exists. *)
Theorem late_notification_failure_fails_finished_report :
  forall (storagePath apiBaseUrl : string) (pathJoin : string -> string -> string)
         (excelGenerate pdfGenerate pdfAdvancedGenerate csvGenerate :
            list row -> Report.ReportMetadata -> string -> result unit)
         (writeJSON : list row -> string -> result unit)
         (statSync : string -> result Z) (updateProgress : string -> nat -> result unit)
         (job : ReportWorker.ReportJobData) (w : World)
         (docs : gmap string Report.Report) (report : Report.Report)
         (size : Z) (e : exn),
    w.(collection) = Some docs ->
    docs !! job.(ReportWorker.reportId) = Some report ->
    report.(Report.id) = job.(ReportWorker.reportId) ->
    ReportWorker.produce storagePath pathJoin excelGenerate pdfGenerate
      pdfAdvancedGenerate csvGenerate writeJSON statSync updateProgress job = Ok size ->
    ReportWorker.announce updateProgress = Throw e ->
    let out :=
      ReportWorker.processReport storagePath apiBaseUrl pathJoin excelGenerate
        pdfGenerate pdfAdvancedGenerate csvGenerate writeJSON statSync updateProgress
        job w in
    fst out = Throw e
    /\ exists failed,
         MongoReportRepository.stored (snd out) job.(ReportWorker.reportId) = Some failed
         /\ failed.(Report.status) = Report.FAILED
         /\ failed.(Report.error) = Some (message e)
         /\ failed.(Report.filePath)
            = Some (ReportWorker.filePathOf storagePath pathJoin job)
         /\ failed.(Report.fileSize) = Some size
         /\ Report.artifactErrorInvariant failed = false
         /\ forall t, ReportRead.canBeDownloaded t failed = false.
Proof.
  intros storagePath apiBaseUrl pathJoin excelGenerate pdfGenerate pdfAdvancedGenerate
    csvGenerate writeJSON statSync updateProgress job w docs report size e
    Hdocs Hfound Hid Hproduce Hannounce out.
  subst out.
  rewrite (processReport_run storagePath apiBaseUrl pathJoin excelGenerate pdfGenerate
             pdfAdvancedGenerate csvGenerate writeJSON statSync updateProgress
             job w docs report Hdocs Hfound Hid).
  rewrite Hproduce, Hannounce. split; [reflexivity|].
  eexists. unfold MongoReportRepository.stored. cbn [fst snd setCollection collection].
  rewrite lookup_insert_eq.
  repeat (split; [reflexivity|]). intros t. reflexivity.
Qed.

Lemma late_notification_failure_witness :
  let out :=
    ReportWorker.processReport "/data" "http://host" joinPath
      (fun _ _ _ => Ok tt) (fun _ _ _ => Ok tt) (fun _ _ _ => Ok tt)
      (fun _ _ _ => Ok tt) (fun _ _ => Ok tt) (fun _ => Ok 2048%Z)
      (fun stage _ =>
         if String.eqb stage "done" then Throw (Error "redis timeout") else Ok tt)
      renderSampleJob storedSample in
  fst out = Throw (Error "redis timeout")
  /\ exists failed,
       MongoReportRepository.stored (snd out) "rep-1" = Some failed
       /\ failed.(Report.status) = Report.FAILED
       /\ failed.(Report.error) = Some "redis timeout"
       /\ failed.(Report.filePath)
          = Some (ReportWorker.filePathOf "/data" joinPath renderSampleJob)
       /\ failed.(Report.fileSize) = Some 2048%Z
       /\ Report.artifactErrorInvariant failed = false
       /\ forall t, ReportRead.canBeDownloaded t failed = false.
Proof.
  apply (late_notification_failure_fails_finished_report "/data" "http://host" joinPath
           (fun _ _ _ => Ok tt) (fun _ _ _ => Ok tt) (fun _ _ _ => Ok tt)
           (fun _ _ _ => Ok tt) (fun _ _ => Ok tt) (fun _ => Ok 2048%Z)
           (fun stage _ =>
              if String.eqb stage "done" then Throw (Error "redis timeout") else Ok tt)
           renderSampleJob storedSample
           (<["rep-1" := sampleReport]> ∅) sampleReport 2048%Z (Error "redis timeout")).
  - reflexivity.
  - vm_compute. reflexivity.
  - reflexivity.
  - reflexivity.
  - reflexivity.
Defined.

(** ** The analysis worker: what every run stores *)

Section AnalysisRuns.

Import Report MLAnalysisWorker.

Variable svc : Services.

(** The report the worker holds when it stops: with the collected insights
    handed over, or as collection left it when a step threw. *)
Definition analysed (job : MLJobData) (t : Z) (report : Report) : Report :=
  match collectInsights svc job t (markAsAnalyzing report) with
  | (Ok insights, r') => addAll insights r'
  | (Throw _, r') => r'
  end.

Lemma addAll_id insights r : id (addAll insights r) = id r.
Proof.
  unfold addAll. revert r. induction insights as [|i l IH]; intros r; simpl;
    [reflexivity | rewrite IH; reflexivity].
Qed.

Lemma addAll_status insights r : status (addAll insights r) = status r.
Proof.
  unfold addAll. revert r. induction insights as [|i l IH]; intros r; simpl;
    [reflexivity | rewrite IH; reflexivity].
Qed.

Lemma addAll_insights insights r :
  aiInsights (metadata (addAll insights r))
  = match insights with
    | [] => aiInsights (metadata r)
    | _ => Some (match aiInsights (metadata r) with Some l => l | None => [] end
                 ++ insights)%list
    end.
Proof.
  unfold addAll. revert r. induction insights as [|i l IH]; intros r; [reflexivity|].
  cbn [fold_left]. rewrite IH. destruct l as [|j l]; [reflexivity|].
  cbn [addAIInsight setMetadata withInsights metadata aiInsights].
  rewrite <- List.app_assoc. reflexivity.
Qed.

Lemma analysed_id job t report : id (analysed job t report) = id report.
Proof.
  unfold analysed.
  pose proof (quiet_collectInsights svc job t (markAsAnalyzing report)) as Hq.
  destruct (collectInsights svc job t (markAsAnalyzing report)) as [[insights|e] r'];
    destruct Hq as (Hid & _); simpl in Hid; [rewrite addAll_id|]; exact Hid.
Qed.

Lemma analysed_status job t report : status (analysed job t report) = ANALYZING.
Proof.
  unfold analysed.
  pose proof (quiet_collectInsights svc job t (markAsAnalyzing report)) as Hq.
  destruct (collectInsights svc job t (markAsAnalyzing report)) as [[insights|e] r'];
    destruct Hq as (_ & Hst & _); simpl in Hst; [rewrite addAll_status|]; exact Hst.
Qed.

(** Every run of [processAnalysis] on a stored report returns normally and
    stores the report the worker holds when it stops. *)
Lemma processAnalysis_run (job : MLJobData) (w : World) (docs : gmap string Report)
    (report : Report) :
  w.(collection) = Some docs ->
  docs !! job.(reportId) = Some report ->
  report.(id) = job.(reportId) ->
  processAnalysis svc job w
  = (Ok tt,
     setCollection (Some (<[job.(reportId) := analysed job w.(clock) report]> docs)) w).
Proof.
  intros Hdocs Hfound Hid.
  pose proof (analysed_id job w.(clock) report) as Hkeep. rewrite Hid in Hkeep.
  unfold analysed in *.
  unfold processAnalysis, bind at 1, MongoReportRepository.findById.
  rewrite Hdocs, Hfound.
  unfold withReport, tryCatch, analysis, bind at 1, mutate at 1.
  cbn [fst snd].
  unfold bind at 1, persist at 1, MongoReportRepository.update.
  cbn [fst snd]. rewrite Hdocs.
  change (id (markAsAnalyzing report)) with (id report).
  rewrite Hid, Hfound.
  unfold bind at 1, liftW at 1, now at 1.
  cbn [fst snd clock setCollection].
  unfold bind at 1, onReport at 1. cbn [fst snd].
  destruct (collectInsights svc job (clock w) (markAsAnalyzing report))
    as [[insights|e] r'].
  - unfold bind at 1, mutate at 1. cbn [fst snd].
    unfold bind at 1, progress at 1, liftResult at 1.
    destruct (updateProgress svc "saving" 95) as [[]|e].
    + unfold bind at 1, persist at 1, MongoReportRepository.update.
      cbn [fst snd collection setCollection].
      rewrite Hkeep, lookup_insert_eq.
      cbn [fst snd collection setCollection reportQueue mlQueue clock].
      rewrite insert_insert_eq.
      unfold progress, liftResult.
      destruct (updateProgress svc "completed" 100) as [[]|e]; [reflexivity|].
      unfold persist, MongoReportRepository.update.
      cbn [fst snd collection setCollection].
      rewrite Hkeep, lookup_insert_eq.
      cbn [fst snd collection setCollection reportQueue mlQueue clock].
      rewrite insert_insert_eq. reflexivity.
    + unfold persist, MongoReportRepository.update.
      cbn [fst snd collection setCollection].
      rewrite Hkeep, lookup_insert_eq.
      cbn [fst snd collection setCollection reportQueue mlQueue clock].
      rewrite insert_insert_eq. reflexivity.
  - unfold persist, MongoReportRepository.update.
    cbn [fst snd collection setCollection].
    rewrite Hkeep, lookup_insert_eq.
    cbn [fst snd collection setCollection reportQueue mlQueue clock].
    rewrite insert_insert_eq. reflexivity.
Qed.

End AnalysisRuns.

(** X24: Whatever its services do, a run of the analysis worker on a stored
    report returns normally and leaves the report in [ANALYZING]: no step
    restores the status the report had.  A report the render worker had
    completed before the analysis ran keeps its file, size and link, but is
    no longer [COMPLETED], and every later download request for it is
    refused. *)
Theorem analysis_leaves_report_analyzing :
  forall (svc : MLAnalysisWorker.Services) (job : MLAnalysisWorker.MLJobData)
         (w : World) (docs : gmap string Report.Report) (report : Report.Report),
    w.(collection) = Some docs ->
    docs !! job.(MLAnalysisWorker.reportId) = Some report ->
    report.(Report.id) = job.(MLAnalysisWorker.reportId) ->
    let out := MLAnalysisWorker.processAnalysis svc job w in
    fst out = Ok tt
    /\ (exists r',
          MongoReportRepository.stored (snd out) job.(MLAnalysisWorker.reportId)
            = Some r'
          /\ r'.(Report.status) = Report.ANALYZING
          /\ r'.(Report.filePath) = report.(Report.filePath)
          /\ r'.(Report.fileSize) = report.(Report.fileSize)
          /\ r'.(Report.downloadUrl) = report.(Report.downloadUrl)
          /\ r'.(Report.error) = report.(Report.error))
    /\ forall (existsSync : string -> bool) (statSize : string -> Z)
              (dto : DownloadReportUseCase.DownloadReportDTO) (t : Z),
         dto.(DownloadReportUseCase.reportId) = job.(MLAnalysisWorker.reportId) ->
         exists e,
           fst (DownloadReportUseCase.execute existsSync statSize dto
                  (atTime t (snd out))) = Throw e.
Proof.
  intros svc job w docs report Hdocs Hfound Hid out. subst out.
  rewrite (processAnalysis_run svc job w docs report Hdocs Hfound Hid).
  split; [reflexivity|].
  set (r' := analysed svc job (clock w) report).
  assert (Hst : Report.status r' = Report.ANALYZING) by apply analysed_status.
  split.
  - exists r'. unfold MongoReportRepository.stored.
    cbn [fst snd setCollection collection]. rewrite lookup_insert_eq.
    split; [reflexivity|]. split; [exact Hst|].
    subst r'. unfold analysed.
    pose proof (quiet_collectInsights svc job (clock w) (Report.markAsAnalyzing report))
      as Hq.
    destruct (MLAnalysisWorker.collectInsights svc job (clock w)
                (Report.markAsAnalyzing report)) as [[insights|e] r1];
      destruct Hq as (_ & _ & Herr & Hpath & Hsize & Hurl & _);
      simpl in Herr, Hpath, Hsize, Hurl.
    + unfold MLAnalysisWorker.addAll.
      assert (Hfold : forall l r,
                Report.filePath (fold_left (fun acc i => Report.addAIInsight i acc) l r)
                = Report.filePath r
                /\ Report.fileSize (fold_left (fun acc i => Report.addAIInsight i acc) l r)
                   = Report.fileSize r
                /\ Report.downloadUrl
                     (fold_left (fun acc i => Report.addAIInsight i acc) l r)
                   = Report.downloadUrl r
                /\ Report.error (fold_left (fun acc i => Report.addAIInsight i acc) l r)
                   = Report.error r).
      { induction l as [|i l IH]; intros r; simpl; [repeat split|].
        destruct (IH (Report.addAIInsight i r)) as (-> & -> & -> & ->). repeat split. }
      destruct (Hfold insights r1) as (-> & -> & -> & ->). repeat split; assumption.
    + repeat split; assumption.
  - intros existsSync statSize dto t Hdto.
    destruct (download_unavailable existsSync statSize dto
                (atTime t (setCollection
                             (Some (<[MLAnalysisWorker.reportId job := r']> docs)) w))
                (<[MLAnalysisWorker.reportId job := r']> docs) r') as [e He].
    + reflexivity.
    + rewrite Hdto. apply lookup_insert_eq.
    + unfold ReportRead.canBeDownloaded. rewrite Hst. reflexivity.
    + exists e. cbn [snd]. rewrite He. reflexivity.
Qed.

(** A run of the production services on the completed sample report. *)
Definition quietServices : MLAnalysisWorker.Services :=
  MLAnalysisWorker.productionServices (fun _ => true) sketchRow
    (fun _ _ => "50.0") (fun _ _ _ => Ok []) (fun _ _ => Ok tt).

Lemma analysis_leaves_report_analyzing_witness :
  let out := MLAnalysisWorker.processAnalysis quietServices forecastJob storedCompleted in
  fst out = Ok tt
  /\ (exists r',
        MongoReportRepository.stored (snd out) "rep-1" = Some r'
        /\ r'.(Report.status) = Report.ANALYZING
        /\ r'.(Report.filePath) = Some "/tmp/rep-1.pdf"
        /\ r'.(Report.fileSize) = Some 10%Z
        /\ r'.(Report.downloadUrl) = Some "http://host/rep-1"
        /\ r'.(Report.error) = None)
  /\ forall (existsSync : string -> bool) (statSize : string -> Z)
            (dto : DownloadReportUseCase.DownloadReportDTO) (t : Z),
       dto.(DownloadReportUseCase.reportId) = "rep-1" ->
       exists e,
         fst (DownloadReportUseCase.execute existsSync statSize dto
                (atTime t (snd out))) = Throw e.
Proof.
  apply (analysis_leaves_report_analyzing quietServices forecastJob storedCompleted
           (<["rep-1" := completedSample]> ∅) completedSample).
  - reflexivity.
  - vm_compute. reflexivity.
  - reflexivity.
Defined.

(** X25: When insight collection succeeds, the insights are handed to the report
    in the order they were collected, after those the report already held,
    and the report is stored with them whether or not the progress
    notifications that follow go through. *)
Theorem collected_insights_are_appended :
  forall (svc : MLAnalysisWorker.Services) (job : MLAnalysisWorker.MLJobData)
         (w : World) (docs : gmap string Report.Report)
         (report r' : Report.Report) (insights : list Report.AIInsight),
    w.(collection) = Some docs ->
    docs !! job.(MLAnalysisWorker.reportId) = Some report ->
    report.(Report.id) = job.(MLAnalysisWorker.reportId) ->
    MLAnalysisWorker.collectInsights svc job w.(clock) (Report.markAsAnalyzing report)
      = (Ok insights, r') ->
    let out := MLAnalysisWorker.processAnalysis svc job w in
    fst out = Ok tt
    /\ exists final,
         MongoReportRepository.stored (snd out) job.(MLAnalysisWorker.reportId)
           = Some final
         /\ final.(Report.metadata).(Report.aiInsights)
            = match insights with
              | [] => report.(Report.metadata).(Report.aiInsights)
              | _ =>
                  Some (match report.(Report.metadata).(Report.aiInsights) with
                        | Some l => l
                        | None => []
                        end ++ insights)%list
              end.
Proof.
  intros svc job w docs report r' insights Hdocs Hfound Hid Hcollect out. subst out.
  rewrite (processAnalysis_run svc job w docs report Hdocs Hfound Hid).
  split; [reflexivity|].
  exists (MLAnalysisWorker.addAll insights r').
  unfold MongoReportRepository.stored. cbn [fst snd setCollection collection].
  rewrite lookup_insert_eq. unfold analysed. rewrite Hcollect.
  split; [reflexivity|].
  rewrite addAll_insights.
  pose proof (quiet_collectInsights svc job (clock w) (Report.markAsAnalyzing report))
    as Hq.
  rewrite Hcollect in Hq. destruct Hq as (_ & _ & _ & _ & _ & _ & Hins).
  simpl in Hins. rewrite Hins. reflexivity.
Qed.

Lemma collected_insights_witness :
  exists insights,
    insights <> []
    /\ let out :=
         MLAnalysisWorker.processAnalysis quietServices forecastJob storedSample in
       fst out = Ok tt
       /\ exists final,
            MongoReportRepository.stored (snd out) "rep-1" = Some final
            /\ final.(Report.metadata).(Report.aiInsights)
               = match insights with
                 | [] => None
                 | _ => Some ([] ++ insights)%list
                 end.
Proof.
  eexists. split.
  2:{ eapply (collected_insights_are_appended quietServices forecastJob storedSample
                (<["rep-1" := sampleReport]> ∅) sampleReport).
      - reflexivity.
      - vm_compute. reflexivity.
      - reflexivity.
      - vm_compute. reflexivity. }
  discriminate.
Defined.

(** ** KPI suggestions: order, limit and cache *)

Section SuggestionOrder.

Import Report SuggestKPIsUseCase.

Definition byImportance (a b : KPISuggestion) : Z :=
  (importanceOrder a.(kimportance) - importanceOrder b.(kimportance))%Z.

Definition withImportance (i : Importance) (l : list KPISuggestion) : list KPISuggestion :=
  List.filter (fun k => (importanceOrder k.(kimportance) =? importanceOrder i)%Z) l.

Lemma insertBy_front (x : KPISuggestion) (l : list KPISuggestion) :
  Forall (fun y => (byImportance x y <= 0)%Z) l -> insertBy byImportance x l = x :: l.
Proof.
  destruct l as [|y l]; intros H; simpl; [reflexivity|].
  inversion H as [|? ? Hy _]; subst.
  destruct (Z.leb_spec (byImportance x y) 0); [reflexivity|lia].
Qed.

Lemma insertBy_pass (x : KPISuggestion) (p q : list KPISuggestion) :
  Forall (fun y => (0 < byImportance x y)%Z) p ->
  insertBy byImportance x (p ++ q) = (p ++ insertBy byImportance x q)%list.
Proof.
  induction 1 as [|y p Hy _ IH]; simpl; [reflexivity|].
  destruct (Z.leb_spec (byImportance x y) 0); [lia|]. rewrite IH. reflexivity.
Qed.

Lemma withImportance_all (i : Importance) (l : list KPISuggestion) :
  Forall (fun y => kimportance y = i) (withImportance i l).
Proof.
  apply List.Forall_forall. intros y Hy. apply List.filter_In in Hy as [_ Hy].
  destruct (kimportance y), i; simpl in Hy; congruence.
Qed.

Lemma Forall_importance (P : KPISuggestion -> Prop) (i : Importance)
    (l : list KPISuggestion) :
  (forall y, kimportance y = i -> P y) -> Forall P (withImportance i l).
Proof.
  intros H. eapply List.Forall_impl; [|apply withImportance_all]. exact H.
Qed.

(** The stable sort by importance puts the high entries first, then the
    medium ones, then the low ones, each group in its original order. *)
Lemma sortBy_importance (l : list KPISuggestion) :
  sortBy byImportance l
  = (withImportance high l ++ withImportance medium l ++ withImportance low l)%list.
Proof.
  induction l as [|x l IH]; [reflexivity|].
  change (sortBy byImportance (x :: l))
    with (insertBy byImportance x (sortBy byImportance l)).
  rewrite IH. unfold withImportance at 4 5 6. cbn [List.filter].
  fold (withImportance high l) (withImportance medium l) (withImportance low l).
  destruct (kimportance x) eqn:Hx; cbn [importanceOrder Z.eqb app].
  - apply insertBy_front. repeat (apply List.Forall_app; split);
      apply Forall_importance; intros y Hy; unfold byImportance; rewrite Hx, Hy;
      simpl; lia.
  - rewrite insertBy_pass.
    + f_equal. apply insertBy_front. apply List.Forall_app; split;
        apply Forall_importance; intros y Hy; unfold byImportance; rewrite Hx, Hy;
        simpl; lia.
    + apply Forall_importance; intros y Hy; unfold byImportance; rewrite Hx, Hy;
        simpl; lia.
  - rewrite List.app_assoc, insertBy_pass.
    + rewrite <- List.app_assoc. do 2 f_equal. apply insertBy_front.
      apply Forall_importance; intros y Hy; unfold byImportance; rewrite Hx, Hy;
        simpl; lia.
    + apply List.Forall_app; split;
        apply Forall_importance; intros y Hy; unfold byImportance; rewrite Hx, Hy;
        simpl; lia.
Qed.

Lemma sliceTo_length {A : Type} (n : Z) (l : list A) :
  (0 <= n)%Z -> (Z.of_nat (length (sliceTo n l)) <= n)%Z.
Proof.
  intros Hn. unfold sliceTo. destruct (Z.ltb_spec n 0); [lia|].
  pose proof (List.firstn_le_length (Z.to_nat n) l). lia.
Qed.

Lemma sliceTo_In {A : Type} (n : Z) (l : list A) (x : A) :
  In x (sliceTo n l) -> In x l.
Proof.
  unfold sliceTo. destruct (n <? 0)%Z; apply In_firstn_In.
Qed.

End SuggestionOrder.

(** X26: The suggestions a request receives are those of the service that are
    not named among the request's existing KPIs, the high-importance ones
    first, then the medium ones, then the low ones, each group in the
    service's order, cut to the requested number (5 when none, or 0, is
    given).  No returned suggestion bears an existing name, and a positive
    limit is never exceeded.  A blank data source is refused before the
    service is called. *)
Theorem suggestions_are_filtered_ranked_and_limited :
  forall (S : Type)
         (suggestKPIs : KPISuggestionRequestDTO -> ST S (list Report.KPISuggestion))
         (dto : KPISuggestionRequestDTO) (s s' : S)
         (suggestions : list Report.KPISuggestion),
    suggestKPIs dto s = (Ok suggestions, s') ->
    (isBlank dto.(kpiDataSource) = true ->
       SuggestKPIsUseCase.execute S suggestKPIs dto s
       = (Throw (Error "El data source es requerido"), s))
    /\ (isBlank dto.(kpiDataSource) = false ->
        let fresh := List.filter (SuggestKPIsUseCase.isNewName dto) suggestions in
        let answer :=
          sliceTo (maxSuggestionsOrDefault dto)
            (withImportance Report.high fresh ++ withImportance Report.medium fresh
             ++ withImportance Report.low fresh)%list in
        SuggestKPIsUseCase.execute S suggestKPIs dto s = (Ok answer, s')
        /\ (forall k names,
              In k answer -> dto.(existingKPIs) = Some names ->
              ~ In k.(Report.kname) names)
        /\ ((0 < maxSuggestionsOrDefault dto)%Z ->
            (Z.of_nat (length answer) <= maxSuggestionsOrDefault dto)%Z)).
Proof.
  intros S suggestKPIs dto s s' suggestions Hsvc. split.
  - intros Hblank. unfold SuggestKPIsUseCase.execute.
    rewrite Hblank, orb_true_r. reflexivity.
  - intros Hblank fresh answer. unfold SuggestKPIsUseCase.execute.
    assert (Hne : String.eqb (kpiDataSource dto) "" = false).
    { destruct (kpiDataSource dto); [discriminate Hblank | reflexivity]. }
    rewrite Hne, Hblank. cbn [orb]. unfold bind, ret. rewrite Hsvc.
    fold byImportance. rewrite sortBy_importance. fold fresh. fold answer.
    split; [reflexivity|]. split.
    + intros k names Hin Hnames Hold.
      apply sliceTo_In in Hin.
      assert (Hfresh : In k fresh).
      { apply List.in_app_or in Hin as [Hin|Hin];
          [|apply List.in_app_or in Hin as [Hin|Hin]];
          apply List.filter_In in Hin as [Hin _]; exact Hin. }
      apply List.filter_In in Hfresh as [_ Hnew].
      unfold SuggestKPIsUseCase.isNewName in Hnew. rewrite Hnames in Hnew.
      apply negb_true_iff in Hnew.
      assert (Hex : existsb (String.eqb (Report.kname k)) names = true).
      { apply List.existsb_exists. exists (Report.kname k).
        split; [exact Hold | apply String.eqb_refl]. }
      congruence.
    + intros Hpos. apply sliceTo_length. lia.
Qed.

Definition threeSuggestions : list Report.KPISuggestion :=
  [Report.mkKPISuggestion "Rotación" "d" "f" Report.low "operacional" Report.vbar
     None None;
   Report.mkKPISuggestion "Margen" "d" "f" Report.high "financiero" Report.vline
     None None;
   Report.mkKPISuggestion "Ticket medio" "d" "f" Report.high "ventas" Report.vgauge
     None None].

Lemma suggestions_witness :
  SuggestKPIsUseCase.execute unit (fun _ s => (Ok threeSuggestions, s))
    (mkKPISuggestionRequestDTO "ventas" None (Some ["Margen"]) (Some 2%Z)) tt
  = (Ok (sliceTo 2%Z
           (withImportance Report.high
              (List.filter
                 (SuggestKPIsUseCase.isNewName
                    (mkKPISuggestionRequestDTO "ventas" None (Some ["Margen"]) (Some 2%Z)))
                 threeSuggestions)
            ++ withImportance Report.medium
                 (List.filter
                    (SuggestKPIsUseCase.isNewName
                       (mkKPISuggestionRequestDTO "ventas" None (Some ["Margen"]) (Some 2%Z)))
                    threeSuggestions)
            ++ withImportance Report.low
                 (List.filter
                    (SuggestKPIsUseCase.isNewName
                       (mkKPISuggestionRequestDTO "ventas" None (Some ["Margen"]) (Some 2%Z)))
                    threeSuggestions))%list), tt).
Proof.
  apply (proj2 (suggestions_are_filtered_ranked_and_limited unit
                  (fun _ s => (Ok threeSuggestions, s))
                  (mkKPISuggestionRequestDTO "ventas" None (Some ["Margen"]) (Some 2%Z))
                  tt tt threeSuggestions eq_refl)).
  reflexivity.
Defined.

(** X27: The suggestion service never throws: when the model call or the parsing
    of its answer fails, the request is answered from the fixed fallback
    list.  Whatever answer a request that misses the cache receives, model
    answer or fallback, is stored under the key made of data source and
    business context, and for the next 24 hours every request with that key
    is given the same list without the model being asked, also when it asks
    for a different number of suggestions. *)
Theorem kpi_answer_is_replayed_for_a_day :
  forall (askModel : Z -> KPISuggestionRequestDTO -> result (list Report.KPISuggestion))
         (request : KPISuggestionRequestDTO) (s : KPISuggestionService.Service),
    KPISuggestionService.missesCache request s ->
    let out := KPISuggestionService.suggestKPIs askModel request s in
    let answer :=
      match askModel s.(KPISuggestionService.time) request with
      | Ok kpis => kpis
      | Throw _ => sliceTo (maxSuggestionsOrDefault request)
                     KPISuggestionService.fallbackKPIs
      end in
    fst out = Ok answer
    /\ forall (askModel' :
                 Z -> KPISuggestionRequestDTO -> result (list Report.KPISuggestion))
              (request' : KPISuggestionRequestDTO) (t : Z),
         KPISuggestionService.getCacheKey request'
           = KPISuggestionService.getCacheKey request ->
         (t - s.(KPISuggestionService.time) < 86400000)%Z ->
         KPISuggestionService.suggestKPIs askModel' request'
           (KPISuggestionService.later t (snd out))
         = (Ok answer, KPISuggestionService.later t (snd out)).
Proof.
  intros askModel request s Hmiss out answer. subst out.
  assert (Hrun : KPISuggestionService.suggestKPIs askModel request s
                 = (Ok answer,
                    KPISuggestionService.mkService
                      (<[KPISuggestionService.getCacheKey request :=
                           (answer, s.(KPISuggestionService.time))]>
                         s.(KPISuggestionService.cache))
                      s.(KPISuggestionService.time))).
  { unfold KPISuggestionService.suggestKPIs.
    unfold KPISuggestionService.missesCache in Hmiss.
    destruct (KPISuggestionService.cache s !! KPISuggestionService.getCacheKey request)
      as [[kpis timestamp]|]; [|reflexivity].
    destruct (Z.ltb_spec (KPISuggestionService.time s - timestamp)
                KPISuggestionService.CACHE_TTL); [lia|reflexivity]. }
  rewrite Hrun. cbn [fst snd]. split; [reflexivity|].
  intros askModel' request' t Hkey Hfresh.
  unfold KPISuggestionService.suggestKPIs.
  cbn [KPISuggestionService.later KPISuggestionService.cache KPISuggestionService.time].
  rewrite Hkey, lookup_insert_eq.
  change KPISuggestionService.CACHE_TTL with 86400000%Z.
  destruct (Z.ltb_spec (t - KPISuggestionService.time s) 86400000); [reflexivity|lia].
Qed.

Definition modelDown (t : Z) (request : KPISuggestionRequestDTO)
    : result (list Report.KPISuggestion) :=
  Throw (Error "429 rate limit").

Lemma kpi_answer_witness :
  let request := mkKPISuggestionRequestDTO "ventas" None None (Some 3%Z) in
  let s := KPISuggestionService.mkService ∅ 1000%Z in
  let out := KPISuggestionService.suggestKPIs modelDown request s in
  let answer := sliceTo 3%Z KPISuggestionService.fallbackKPIs in
  fst out = Ok answer
  /\ forall (askModel' :
               Z -> KPISuggestionRequestDTO -> result (list Report.KPISuggestion))
            (request' : KPISuggestionRequestDTO) (t : Z),
       KPISuggestionService.getCacheKey request'
         = KPISuggestionService.getCacheKey request ->
       (t - 1000 < 86400000)%Z ->
       KPISuggestionService.suggestKPIs askModel' request'
         (KPISuggestionService.later t (snd out))
       = (Ok answer, KPISuggestionService.later t (snd out)).
Proof.
  apply (kpi_answer_is_replayed_for_a_day modelDown
           (mkKPISuggestionRequestDTO "ventas" None None (Some 3%Z))
           (KPISuggestionService.mkService ∅ 1000%Z)).
  vm_compute. trivial.
Defined.

(** ** KPI categories *)

Section Categories.

Import Report KPICategories.

Lemma reduceFrom_groups (kpis : list KPISuggestion) :
  forall acc,
    Forall (fun k => inheritedProperty k.(kcategory) = false) kpis ->
    exists groups,
      reduceFrom acc kpis = Ok groups
      /\ forall c,
           groups !! c
           = match acc !! c, inCategory c kpis with
             | None, [] => None
             | None, g => Some g
             | Some l, g => Some (l ++ g)%list
             end.
Proof.
  induction kpis as [|k kpis IH]; intros acc Hall.
  - exists acc. split; [reflexivity|]. intros c. cbn [inCategory List.filter].
    destruct (acc !! c); [rewrite List.app_nil_r|]; reflexivity.
  - inversion Hall as [|? ? Hk Hrest]; subst.
    cbn [reduceFrom]. unfold categorizeStep. rewrite Hk.
    destruct (acc !! kcategory k) as [group|] eqn:Hacc; cbn [rbind].
    + destruct (IH (<[kcategory k := (group ++ [k])%list]> acc) Hrest)
        as (groups & -> & Hgroups).
      exists groups. split; [reflexivity|]. intros c. rewrite Hgroups.
      unfold inCategory. cbn [List.filter].
      destruct (String.eqb_spec (kcategory k) c) as [<-|Hne].
      * rewrite lookup_insert_eq, Hacc, <- List.app_assoc. reflexivity.
      * rewrite lookup_insert_ne by exact Hne. reflexivity.
    + destruct (IH (<[kcategory k := [k]]> acc) Hrest) as (groups & -> & Hgroups).
      exists groups. split; [reflexivity|]. intros c. rewrite Hgroups.
      unfold inCategory. cbn [List.filter].
      destruct (String.eqb_spec (kcategory k) c) as [<-|Hne].
      * rewrite lookup_insert_eq, Hacc. reflexivity.
      * rewrite lookup_insert_ne by exact Hne. reflexivity.
Qed.

Lemma reduceFrom_throws (kpis : list KPISuggestion) :
  forall acc,
    (forall c, inheritedProperty c = true -> acc !! c = None) ->
    Exists (fun k => inheritedProperty k.(kcategory) = true) kpis ->
    reduceFrom acc kpis = Throw (Error "acc[kpi.category].push is not a function").
Proof.
  induction kpis as [|k kpis IH]; intros acc Hacc Hex; [inversion Hex|].
  cbn [reduceFrom]. unfold categorizeStep.
  destruct (inheritedProperty (kcategory k)) eqn:Hk.
  - rewrite (Hacc _ Hk). reflexivity.
  - assert (Hrest : Exists (fun k => inheritedProperty (kcategory k) = true) kpis).
    { inversion Hex as [? ? Hhead|? ? Htail]; subst; [congruence | exact Htail]. }
    destruct (acc !! kcategory k) as [group|]; cbn [rbind]; apply IH; try exact Hrest;
      intros c Hc; (rewrite lookup_insert_ne; [apply Hacc, Hc | congruence]).
Qed.

End Categories.

(** X28: Grouping by category splits the suggestions without losing or
    repeating any: the group found under a category holds exactly the
    suggestions of that category, in their input order, and a category
    without suggestions has no group.  This holds as long as no category is
    named like a property that objects inherit (["constructor"],
    ["toString"], ...): one suggestion with such a category makes the call
    throw. *)
Theorem categorizeKPIs_partitions_by_category :
  forall kpis : list Report.KPISuggestion,
    (Forall (fun k => KPICategories.inheritedProperty k.(Report.kcategory) = false) kpis ->
     exists groups,
       KPICategories.categorizeKPIs kpis = Ok groups
       /\ forall c,
            groups !! c
            = match KPICategories.inCategory c kpis with
              | [] => None
              | g => Some g
              end)
    /\ (Exists (fun k => KPICategories.inheritedProperty k.(Report.kcategory) = true) kpis ->
        KPICategories.categorizeKPIs kpis
        = Throw (Error "acc[kpi.category].push is not a function")).
Proof.
  intros kpis. split.
  - intros Hall. unfold KPICategories.categorizeKPIs.
    destruct (reduceFrom_groups kpis ∅ Hall) as (groups & Hrun & Hgroups).
    exists groups. split; [exact Hrun|]. intros c. rewrite Hgroups, lookup_empty.
    reflexivity.
  - intros Hex. apply reduceFrom_throws; [|exact Hex].
    intros c _. apply lookup_empty.
Qed.

Lemma categorizeKPIs_witness :
  exists groups,
    KPICategories.categorizeKPIs threeSuggestions = Ok groups
    /\ forall c,
         groups !! c
         = match KPICategories.inCategory c threeSuggestions with
           | [] => None
           | g => Some g
           end.
Proof.
  apply (proj1 (categorizeKPIs_partitions_by_category threeSuggestions)).
  repeat constructor.
Defined.

(** ** Sending a report by mail *)

Section MailRuns.

Import Report.

Variable existsSync : string -> bool.

(** The checks the download and the mail use case both make before they
    act, with the wording each gives to a refusal. *)
Definition admission (denied : string) (unavailable : Z -> Report -> string)
    (rid uid : string) (w : World) : result (Report * string) :=
  match w.(collection) with
  | None => Throw (Error "Database not connected")
  | Some docs =>
      match docs !! rid with
      | None => Throw (Error "Reporte no encontrado")
      | Some report =>
          if negb (String.eqb report.(userId) uid) then Throw (Error denied)
          else if negb (ReportRead.canBeDownloaded w.(clock) report) then
            Throw (Error (unavailable w.(clock) report))
          else
            match report.(filePath) with
            | None => Throw (Error "El archivo del reporte no existe")
            | Some path =>
                if String.eqb path "" || negb (existsSync path) then
                  Throw (Error "El archivo del reporte no existe")
                else Ok (report, path)
            end
      end
  end.

Lemma admission_wording denied unavailable denied' unavailable' rid uid w :
  match admission denied unavailable rid uid w with
  | Ok x => admission denied' unavailable' rid uid w = Ok x
  | Throw _ => exists e, admission denied' unavailable' rid uid w = Throw e
  end.
Proof.
  unfold admission.
  destruct (collection w) as [docs|]; [|eexists; reflexivity].
  destruct (docs !! rid) as [report|]; [|eexists; reflexivity].
  destruct (negb (String.eqb (userId report) uid)); [eexists; reflexivity|].
  destruct (negb (ReportRead.canBeDownloaded (clock w) report)); [eexists; reflexivity|].
  destruct (filePath report) as [path|]; [|eexists; reflexivity].
  destruct (String.eqb path "" || negb (existsSync path)); [eexists; reflexivity|].
  reflexivity.
Qed.

Variable statSize : string -> Z.

Lemma download_admission dto w :
  fst (DownloadReportUseCase.execute existsSync statSize dto w)
  = rbind (admission "No tienes permisos para descargar este reporte"
             (fun t report =>
                if ReportRead.isExpired t report then "El reporte ha expirado"
                else "El reporte no está disponible para descarga. Estado: "
                     ++ ReportRead.statusName report.(status))
             dto.(DownloadReportUseCase.reportId) dto.(DownloadReportUseCase.userId) w)
      (fun found =>
         Ok (DownloadReportUseCase.mkDownloadResult (snd found)
               (ReportRead.getFileName (fst found))
               (DownloadReportUseCase.getMimeType (fst found).(format))
               (match (fst found).(fileSize) with
                | Some n => if (n =? 0)%Z then statSize (snd found) else n
                | None => statSize (snd found)
                end))).
Proof.
  unfold DownloadReportUseCase.execute, admission, bind at 1,
    MongoReportRepository.findById.
  destruct (collection w) as [docs|] eqn:Hdocs; [|reflexivity].
  destruct (docs !! DownloadReportUseCase.reportId dto) as [report|]; [|reflexivity].
  destruct (negb (String.eqb (userId report) (DownloadReportUseCase.userId dto)));
    [reflexivity|].
  unfold bind at 1, now at 1.
  destruct (negb (ReportRead.canBeDownloaded (clock w) report)).
  { destruct (ReportRead.isExpired (clock w) report); reflexivity. }
  destruct (filePath report) as [path|]; [|reflexivity].
  destruct (String.eqb path "" || negb (existsSync path)); [reflexivity|].
  unfold withReport, bind, mutate, persist, MongoReportRepository.update, ret.
  cbn [fst snd]. rewrite Hdocs.
  destruct (docs !! id (incrementDownloadCount report)); reflexivity.
Qed.

Variable readBase64 : string -> result string.
Variable generateReportSummary : Report -> string.

(** The outcome of the sending step. *)
Definition sendOutcome (post : EmailReportUseCase.EmailData -> result unit)
    (mail : EmailReportUseCase.EmailData) : result unit :=
  match post mail with
  | Ok _ => Ok tt
  | Throw e => Throw (Error ("Error al enviar email: " ++ message e))
  end.

Lemma email_admission post dto w :
  EmailReportUseCase.execute existsSync readBase64 generateReportSummary post dto w
  = (rbind (admission "No tienes permisos para enviar este reporte"
              (fun _ report =>
                 "El reporte no está disponible. Estado: "
                 ++ ReportRead.statusName report.(status))
              dto.(EmailReportUseCase.reportId) dto.(EmailReportUseCase.userId) w)
       (fun found =>
          rbind (readBase64 (snd found)) (fun fileBase64 =>
            sendOutcome post
              (EmailReportUseCase.emailData generateReportSummary dto (fst found)
                 fileBase64))),
     w).
Proof.
  unfold EmailReportUseCase.execute, admission, bind at 1,
    MongoReportRepository.findById.
  destruct (collection w) as [docs|]; [|reflexivity].
  destruct (docs !! EmailReportUseCase.reportId dto) as [report|]; [|reflexivity].
  destruct (negb (String.eqb (userId report) (EmailReportUseCase.userId dto)));
    [reflexivity|].
  unfold bind at 1, now at 1.
  destruct (negb (ReportRead.canBeDownloaded (clock w) report)); [reflexivity|].
  destruct (filePath report) as [path|]; [|reflexivity].
  destruct (String.eqb path "" || negb (existsSync path)); [reflexivity|].
  unfold bind, liftResult, tryCatch, throw, sendOutcome. cbn [rbind fst snd].
  destruct (readBase64 path) as [fileBase64|e]; cbn [rbind]; [|reflexivity].
  destruct (post _) as [[]|e]; reflexivity.
Qed.

End MailRuns.

(** X29: Sending a report by mail follows the rules of the download.  The mail
    use case never changes the store.  A request that the download use case
    would refuse is refused before the messaging service is called, whatever
    that service would do; a request the download would serve reads the same
    file and posts one message whose attachment bears the download's file
    name and MIME type.  A failure of the messaging service reaches the
    caller as ["Error al enviar email: "] followed by its message. *)
Theorem mail_follows_the_download_rules :
  forall (existsSync : string -> bool) (statSize : string -> Z)
         (readBase64 : string -> result string)
         (generateReportSummary : Report.Report -> string)
         (dto : EmailReportUseCase.EmailReportDTO) (w : World),
    let download :=
      fst (DownloadReportUseCase.execute existsSync statSize
             (DownloadReportUseCase.mkDownloadReportDTO
                dto.(EmailReportUseCase.reportId) dto.(EmailReportUseCase.userId)) w) in
    let mail post :=
      EmailReportUseCase.execute existsSync readBase64 generateReportSummary post dto w in
    (forall post, snd (mail post) = w)
    /\ (forall e, download = Throw e ->
          exists e', forall post, fst (mail post) = Throw e')
    /\ (forall res, download = Ok res ->
          exists report,
            MongoReportRepository.stored w dto.(EmailReportUseCase.reportId) = Some report
            /\ forall post,
                 fst (mail post)
                 = rbind (readBase64 res.(DownloadReportUseCase.filePath))
                     (fun fileBase64 =>
                        match
                          post (EmailReportUseCase.emailData generateReportSummary dto
                                  report fileBase64)
                        with
                        | Ok _ => Ok tt
                        | Throw e =>
                            Throw (Error ("Error al enviar email: " ++ message e))
                        end)
                 /\ forall fileBase64,
                      (EmailReportUseCase.emailData generateReportSummary dto report
                         fileBase64).(EmailReportUseCase.attachments)
                      = [EmailReportUseCase.mkAttachment
                           res.(DownloadReportUseCase.fileName) fileBase64 "base64"
                           res.(DownloadReportUseCase.mimeType)]).
Proof.
  intros existsSync statSize readBase64 generateReportSummary dto w download mail.
  subst download mail. cbv beta.
  rewrite download_admission. cbn [DownloadReportUseCase.reportId
    DownloadReportUseCase.userId].
  split; [intros post; rewrite email_admission; reflexivity|].
  pose proof (admission_wording existsSync
                "No tienes permisos para descargar este reporte"
                (fun t report =>
                   if ReportRead.isExpired t report then "El reporte ha expirado"
                   else "El reporte no está disponible para descarga. Estado: "
                        ++ ReportRead.statusName report.(Report.status))
                "No tienes permisos para enviar este reporte"
                (fun _ report =>
                   "El reporte no está disponible. Estado: "
                   ++ ReportRead.statusName report.(Report.status))
                dto.(EmailReportUseCase.reportId) dto.(EmailReportUseCase.userId) w)
    as Hsame.
  destruct (admission existsSync "No tienes permisos para descargar este reporte" _
              dto.(EmailReportUseCase.reportId) dto.(EmailReportUseCase.userId) w)
    as [[report path]|e0] eqn:Hadm; cbn [rbind fst snd].
  - split; [intros e He; discriminate He|].
    intros res Hres. injection Hres as <-. exists report. split.
    + revert Hadm. unfold admission, MongoReportRepository.stored.
      destruct (collection w) as [docs|]; [|discriminate].
      destruct (docs !! EmailReportUseCase.reportId dto) as [r|]; [|discriminate].
      destruct (negb _); [discriminate|]. destruct (negb _); [discriminate|].
      destruct (Report.filePath r); [|discriminate].
      destruct (_ || _); [discriminate|]. intros E. injection E as <- _. reflexivity.
    + intros post. rewrite email_admission, Hsame. cbn [rbind fst snd].
      split; [reflexivity|]. intros fileBase64.
      cbn [EmailReportUseCase.emailData EmailReportUseCase.attachments
           DownloadReportUseCase.fileName DownloadReportUseCase.mimeType].
      destruct (Report.format report); reflexivity.
  - split; [|intros res Hres; discriminate Hres].
    intros e _. destruct Hsame as [e' He']. exists e'. intros post.
    rewrite email_admission, He'. reflexivity.
Qed.

Definition mailSample : EmailReportUseCase.EmailReportDTO :=
  EmailReportUseCase.mkEmailReportDTO "rep-1" "user-1" "ana@example.com" None None.

Lemma mail_follows_the_download_rules_witness :
  exists report,
    MongoReportRepository.stored storedCompleted "rep-1" = Some report
    /\ forall post,
         fst (EmailReportUseCase.execute (fun _ => true) (fun _ => Ok "UEsDBA==")
                (fun _ => "Reporte: Ventas") post mailSample storedCompleted)
         = rbind (Ok "UEsDBA==")
             (fun fileBase64 =>
                match
                  post (EmailReportUseCase.emailData (fun _ => "Reporte: Ventas")
                          mailSample report fileBase64)
                with
                | Ok _ => Ok tt
                | Throw e => Throw (Error ("Error al enviar email: " ++ message e))
                end)
         /\ forall fileBase64,
              (EmailReportUseCase.emailData (fun _ => "Reporte: Ventas") mailSample
                 report fileBase64).(EmailReportUseCase.attachments)
              = [EmailReportUseCase.mkAttachment "sales_1000.pdf" fileBase64 "base64"
                   "application/pdf"].
Proof.
  apply (proj2 (proj2 (mail_follows_the_download_rules (fun _ => true) (fun _ => 10%Z)
           (fun _ => Ok "UEsDBA==") (fun _ => "Reporte: Ventas") mailSample
           storedCompleted))
           (DownloadReportUseCase.mkDownloadResult "/tmp/rep-1.pdf" "sales_1000.pdf"
              "application/pdf" 10)).
  vm_compute. reflexivity.
Defined.

(** X30: The name a download or a mail attachment is given ends in the
    lower-cased format name, while the worker stores the file under the
    extension of the format table.  The two agree for every format except
    EXCEL, whose file is stored as [.xlsx], announced with the spreadsheet
    MIME type, and named [.excel]; the worker's table, the domain service's
    table and the download's MIME table agree with each other. *)
Theorem download_name_and_stored_extension :
  forall r : Report.Report,
    let named := toLowerCase (ReportRead.formatName r.(Report.format)) in
    ReportRead.getFileName r
    = toLowerCase (ReportRead.typeName r.(Report.type)) ++ "_"
      ++ pretty r.(Report.createdAt) ++ "." ++ named
    /\ (named = ReportWorker.getFileExtension r.(Report.format)
        <-> r.(Report.format) <> Report.EXCEL)
    /\ ReportWorker.getFileExtension r.(Report.format)
       = ReportDomainFormats.getFileExtension r.(Report.format)
    /\ DownloadReportUseCase.getMimeType r.(Report.format)
       = ReportDomainFormats.getMimeType r.(Report.format).
Proof.
  intros r named. subst named. split; [reflexivity|].
  destruct (Report.format r); (split; [|split; reflexivity]);
    (split; [intros H; vm_compute in H; congruence | intros H; try reflexivity; congruence]).
Qed.

(** ** Every handler keeps the documents under their id *)

(** X4: The submission, both analysis paths, the render worker, the download,
    the mail use case and every repository write keep each document stored
    under its own id: a handler that finds a report under an id holds a
    report with that id. *)
Theorem documents_stay_keyed_by_id :
  (forall cfg freshId msg dto,
     keepsKeys (GenerateReportUseCase.execute cfg freshId msg dto))
  /\ (forall analyzeData dto, keepsKeys (AnalyzeDataUseCase.execute analyzeData dto))
  /\ (forall svc job, keepsKeys (MLAnalysisWorker.processAnalysis svc job))
  /\ (forall storagePath apiBaseUrl pathJoin excelGenerate pdfGenerate
             pdfAdvancedGenerate csvGenerate writeJSON statSize updateProgress job,
        keepsKeys (ReportWorker.processReport storagePath apiBaseUrl pathJoin
                     excelGenerate pdfGenerate pdfAdvancedGenerate csvGenerate
                     writeJSON statSize updateProgress job))
  /\ (forall existsSync statSize dto,
        keepsKeys (DownloadReportUseCase.execute existsSync statSize dto))
  /\ (forall existsSync readBase64 generateReportSummary post dto,
        keepsKeys (EmailReportUseCase.execute existsSync readBase64
                     generateReportSummary post dto))
  /\ (forall r, keepsKeys (MongoReportRepository.save r))
  /\ (forall r, keepsKeys (MongoReportRepository.update r))
  /\ (forall rid, keepsKeys (MongoQueries.delete rid))
  /\ keepsKeys MongoQueries.deleteExpired.
Proof.
  repeat split.
  - intros. unfold GenerateReportUseCase.execute. keeps_keys.
  - intros. unfold AnalyzeDataUseCase.execute, AnalyzeDataUseCase.analyzeAndStore,
      AnalyzeDataUseCase.failReport. keeps_keys.
  - intros. unfold MLAnalysisWorker.processAnalysis, MLAnalysisWorker.analysis,
      MLAnalysisWorker.progress. keeps_keys.
  - intros. unfold ReportWorker.processReport, ReportWorker.render,
      ReportWorker.failReport, ReportWorker.progress, ReportWorker.sendEmail,
      ReportWorker.publishEvent. keeps_keys.
  - intros. unfold DownloadReportUseCase.execute. keeps_keys.
  - intros. unfold EmailReportUseCase.execute. keeps_keys.
  - intros. apply keepsKeys_save.
  - intros. apply keepsKeys_update.
  - intros. apply keepsKeys_delete.
  - apply keepsKeys_deleteExpired.
Qed.
